(** * CodeSpark: the provider layer, the language detector and the key vault

    A shallow embedding of [ai_service.py], [openai_service.py], the vault,
    the upload filter and the settings and analysis steps of [routes.py], and
    the sample class of [test_upload.py], with the properties their
    specification states and further properties read off the code.

    Conventions.  A Python [str] is a Rocq [string]: a sequence of 8-bit
    characters, exact on ASCII text; a character outside ASCII stands as the
    bytes of its UTF-8 encoding.  A Python [dict] written as a literal, or
    decoded from JSON, is an association list in insertion order.  Code that
    can raise returns a [result]; code that talks to the outside runs in a
    small monad over the state of the outside. *)

From Stdlib Require Import ZArith String Ascii List Bool Lia.
From stdpp Require Import base option strings list gmap pretty.
Import ListNotations.

Local Open Scope string_scope.
Local Open Scope Z_scope.

(** ** Python strings *)

Module PyStr.

(** [c.lower()] on one character: the ASCII capitals move down, the rest
    stays.  This is [str.lower] on an ASCII text; outside ASCII Python
    lowers by the Unicode tables, which the bytes here do not follow. *)
Definition lower_char (c : ascii) : ascii :=
  let n := N_of_ascii c in
  if ((65 <=? n) && (n <=? 90))%N then ascii_of_N (n + 32) else c.

(** [s.lower()] *)
Fixpoint lower (s : string) : string :=
  match s with
  | EmptyString => EmptyString
  | String c s' => String (lower_char c) (lower s')
  end.

(** [s.startswith(p)] *)
Fixpoint startswith (p s : string) : bool :=
  match p, s with
  | EmptyString, _ => true
  | String _ _, EmptyString => false
  | String a p', String b s' => if ascii_dec a b then startswith p' s' else false
  end.

(** [sub in s] *)
Fixpoint contains (sub s : string) : bool :=
  if startswith sub s then true
  else match s with
       | EmptyString => false
       | String _ s' => contains sub s'
       end.

(** [s.rfind(c)] for a one-character [c]: the last index holding [c], or
    [-1].  [go i s] scans [s], whose first character has index [i]. *)
Fixpoint rfind_from (c : ascii) (i : Z) (s : string) : Z :=
  match s with
  | EmptyString => -1
  | String a s' =>
      let r := rfind_from c (i + 1) s' in
      if 0 <=? r then r else if ascii_dec a c then i else -1
  end.

Definition rfind (c : ascii) (s : string) : Z := rfind_from c 0 s.

(** [s[i:i+1]], the empty string when [i] is out of range *)
Definition char_at (s : string) (i : Z) : string :=
  if i <? 0 then "" else String.substring (Z.to_nat i) 1 s.

(** [s[:i]] and [s[i:]] for [0 <= i] *)
Definition take (i : Z) (s : string) : string :=
  String.substring 0 (Z.to_nat i) s.

Definition drop (i : Z) (s : string) : string :=
  String.substring (Z.to_nat i) (String.length s - Z.to_nat i) s.

(** truthiness of a [str]: [bool(s)] *)
Definition truthy (s : string) : bool :=
  match s with EmptyString => false | _ => true end.

(** [c.isspace()] on one ASCII character: the tab to the carriage return,
    the four separators and the space.  Python has white space outside
    ASCII as well (U+0085, U+00A0, U+3000, ...), so [strip] below is
    [str.strip] on an ASCII text. *)
Definition is_space (c : ascii) : bool :=
  let n := N_of_ascii c in
  (((9 <=? n) && (n <=? 13)) || ((28 <=? n) && (n <=? 32)))%N.

(** [s.lstrip()] *)
Fixpoint lstrip (s : string) : string :=
  match s with
  | EmptyString => EmptyString
  | String c s' => if is_space c then lstrip s' else s
  end.

(** [s.rstrip()] *)
Fixpoint rstrip (s : string) : string :=
  match s with
  | EmptyString => EmptyString
  | String c s' =>
      match rstrip s' with
      | EmptyString => if is_space c then EmptyString else String c EmptyString
      | String c' r => String c (String c' r)
      end
  end.

(** [s.strip()] *)
Definition strip (s : string) : string := lstrip (rstrip s).

(** [s.rstrip(c)] for a one-character [c] *)
Fixpoint rstrip_char (c : ascii) (s : string) : string :=
  match s with
  | EmptyString => EmptyString
  | String a s' =>
      match rstrip_char c s' with
      | EmptyString => if ascii_dec a c then EmptyString else String a EmptyString
      | String a' r => String a (String a' r)
      end
  end.

(** [s.isascii()] *)
Fixpoint isascii (s : string) : bool :=
  match s with
  | EmptyString => true
  | String c s' => (N_of_ascii c <? 128)%N && isascii s'
  end.

(** [s.rsplit(c, 1)] for a one-character [c] *)
Definition rsplit1 (c : ascii) (s : string) : list string :=
  let i := rfind c s in
  if i <? 0 then [s] else [take i s; drop (i + 1) s].

End PyStr.

(** ** [os.path.splitext]

    The POSIX flavour ([genericpath._splitext] with [sep = '/'], no
    [altsep], [extsep = '.']). *)

Module OsPath.

(** The loop of [_splitext] that skips the leading dots of the base name:
    [n] iterations are left, [filenameIndex] is the cursor. *)
Fixpoint skip_leading_dots (n : nat) (p : string) (filenameIndex dotIndex : Z)
  : string * string :=
  match n with
  | O => (p, "")
  | S n' =>
      if filenameIndex <? dotIndex then
        if negb (String.eqb (PyStr.char_at p filenameIndex) ".")
        then (PyStr.take dotIndex p, PyStr.drop dotIndex p)
        else skip_leading_dots n' p (filenameIndex + 1) dotIndex
      else (p, "")
  end.

Definition splitext (p : string) : string * string :=
  let sepIndex := PyStr.rfind "/" p in
  let dotIndex := PyStr.rfind "." p in
  if sepIndex <? dotIndex then
    skip_leading_dots (S (String.length p)) p (sepIndex + 1) dotIndex
  else (p, "").

End OsPath.

(** ** Dictionaries written as literals *)

Module PyDict.

(** [d.get(k)] on a dictionary held as an association list *)
Fixpoint lookup {V : Type} (d : list (string * V)) (k : string) : option V :=
  match d with
  | [] => None
  | (k', v) :: d' => if String.eqb k' k then Some v else lookup d' k
  end.

(** [d.get(k, default)] *)
Definition get {V : Type} (d : list (string * V)) (k : string) (default : V) : V :=
  match lookup d k with Some v => v | None => default end.

(** [list(d.keys())] *)
Definition keys {V : Type} (d : list (string * V)) : list string := map fst d.

End PyDict.

(** ** JSON values and the [json] module

    [json.loads] as CPython's scanner reads a text, [json.dumps] on the one
    shape the vault writes.  Limits of the interpreter (recursion depth,
    memory) are not part of the model. *)

Module Json.

(** What [json.loads] can return.  An integer literal becomes a Python
    [int]; a literal with a fraction or an exponent becomes a [float],
    kept here as the decimal [m * 10^e] it was written as (nothing in this
    development rounds it to a double). *)
#[warnings="-register-all"]
Inductive json : Type :=
| JNull
| JBool (b : bool)
| JInt (z : Z)
| JFloat (m e : Z)
| JNaN
| JInf (negative : bool)
| JStr (s : string)
| JArr (items : list json)
| JObj (members : list (string * json)).

Definition dq : ascii := "034"%char.   (* the double quote *)
Definition bs : ascii := "092"%char.   (* the backslash *)

Definition is_ws (c : ascii) : bool :=
  let n := N_of_ascii c in
  ((n =? 32) || (n =? 9) || (n =? 10) || (n =? 13))%N.

Fixpoint skip_ws (s : string) : string :=
  match s with
  | String c r => if is_ws c then skip_ws r else s
  | EmptyString => s
  end.

(** *** Numbers *)

Definition is_digit (c : ascii) : bool :=
  let n := N_of_ascii c in ((48 <=? n) && (n <=? 57))%N.

Definition digit_val (c : ascii) : Z := Z.of_N (N_of_ascii c) - 48.

(** the longest run of digits at the head of [s], and what follows it *)
Fixpoint take_digits (s : string) : string * string :=
  match s with
  | String c r =>
      if is_digit c then let '(d, r') := take_digits r in (String c d, r')
      else (EmptyString, s)
  | EmptyString => (EmptyString, s)
  end.

Fixpoint digits_value (acc : Z) (d : string) : Z :=
  match d with
  | EmptyString => acc
  | String c d' => digits_value (10 * acc + digit_val c) d'
  end.

Definition signed (negative : bool) (z : Z) : Z := if negative then - z else z.

(** the integer part: [0], or a non-zero digit and the digits after it *)
Definition take_int_part (s : string) : option (string * string) :=
  match s with
  | String c r =>
      if (c =? "0")%char then Some ("0", r)
      else if is_digit c then Some (take_digits s)
      else None
  | EmptyString => None
  end.

(** the fraction: a dot and at least one digit, or nothing *)
Definition take_fraction (s : string) : string * string :=
  match s with
  | String c r =>
      if (c =? ".")%char then
        match take_digits r with
        | (EmptyString, _) => (EmptyString, s)
        | (d, r') => (d, r')
        end
      else (EmptyString, s)
  | EmptyString => (EmptyString, s)
  end.

(** the exponent: [e] or [E], an optional sign and at least one digit, or
    nothing (the scanner backtracks when no digit follows) *)
Definition take_exponent (s : string) : option Z * string :=
  match s with
  | String c r =>
      if ((c =? "e") || (c =? "E"))%char then
        let '(negative, r1) :=
          match r with
          | String c1 r' =>
              if (c1 =? "-")%char then (true, r')
              else if (c1 =? "+")%char then (false, r')
              else (false, r)
          | EmptyString => (false, r)
          end in
        match take_digits r1 with
        | (EmptyString, _) => (None, s)
        | (d, r2) => (Some (signed negative (digits_value 0 d)), r2)
        end
      else (None, s)
  | EmptyString => (None, s)
  end.

Definition parse_number (s : string) : option (json * string) :=
  let '(negative, s1) :=
    match s with
    | String c r => if (c =? "-")%char then (true, r) else (false, s)
    | EmptyString => (false, s)
    end in
  match take_int_part s1 with
  | None => None
  | Some (ip, r1) =>
      let '(fp, r2) := take_fraction r1 in
      let '(ex, r3) := take_exponent r2 in
      match fp, ex with
      | EmptyString, None => Some (JInt (signed negative (digits_value 0 ip)), r3)
      | _, _ =>
          let mant := digits_value (digits_value 0 ip) fp in
          let e := match ex with Some x => x | None => 0 end in
          Some (JFloat (signed negative mant) (e - Z.of_nat (String.length fp)), r3)
      end
  end.

(** *** Strings *)

Definition hex_val (c : ascii) : option N :=
  let n := N_of_ascii c in
  if ((48 <=? n) && (n <=? 57))%N then Some (n - 48)%N
  else if ((97 <=? n) && (n <=? 102))%N then Some (n - 87)%N
  else if ((65 <=? n) && (n <=? 70))%N then Some (n - 55)%N
  else None.

Definition hex4 (a b c d : ascii) : option N :=
  match hex_val a, hex_val b, hex_val c, hex_val d with
  | Some x, Some y, Some z, Some w => Some (((x * 16 + y) * 16 + z) * 16 + w)%N
  | _, _, _, _ => None
  end.

(** what a backslash followed by [e] stands for, [u] apart *)
Definition simple_escape (e : ascii) : option ascii :=
  if (e =? dq)%char then Some dq
  else if (e =? bs)%char then Some bs
  else if (e =? "/")%char then Some "/"%char
  else if (e =? "b")%char then Some "008"%char
  else if (e =? "f")%char then Some "012"%char
  else if (e =? "n")%char then Some "010"%char
  else if (e =? "r")%char then Some "013"%char
  else if (e =? "t")%char then Some "009"%char
  else None.

(** One element of a string literal: a character, written as itself or as
    a simple escape, or the code unit of a [\uXXXX] escape. *)
Inductive code_unit := Lit (c : ascii) | Uni (n : N).

(** the body of a string literal, from after the opening quote to the
    closing one; control characters are refused (strict mode) *)
Fixpoint scan_units (s : string) : option (list code_unit * string) :=
  match s with
  | EmptyString => None
  | String c r =>
      if (c =? dq)%char then Some ([], r)
      else if (c =? bs)%char then
        match r with
        | EmptyString => None
        | String e r1 =>
            if (e =? "u")%char then
              match r1 with
              | String h1 (String h2 (String h3 (String h4 r2))) =>
                  match hex4 h1 h2 h3 h4 with
                  | Some n =>
                      match scan_units r2 with
                      | Some (us, r') => Some (Uni n :: us, r')
                      | None => None
                      end
                  | None => None
                  end
              | _ => None
              end
            else
              match simple_escape e with
              | Some ch =>
                  match scan_units r1 with
                  | Some (us, r') => Some (Lit ch :: us, r')
                  | None => None
                  end
              | None => None
              end
        end
      else if (N_of_ascii c <? 32)%N then None
      else
        match scan_units r with
        | Some (us, r') => Some (Lit c :: us, r')
        | None => None
        end
  end.

Definition is_high_surrogate (n : N) : bool := ((55296 <=? n) && (n <=? 56319))%N.
Definition is_low_surrogate (n : N) : bool := ((56320 <=? n) && (n <=? 57343))%N.

(** a high surrogate escape directly followed by a low surrogate escape is
    one code point *)
Fixpoint join_surrogates (us : list code_unit) : list code_unit :=
  match us with
  | [] => []
  | Lit c :: us' => Lit c :: join_surrogates us'
  | Uni hi :: us' =>
      match us' with
      | Uni lo :: us'' =>
          if is_high_surrogate hi && is_low_surrogate lo
          then Uni (65536 + ((hi - 55296) * 1024 + (lo - 56320)))%N :: join_surrogates us''
          else Uni hi :: join_surrogates us'
      | _ => Uni hi :: join_surrogates us'
      end
  end.

(** the UTF-8 bytes of a code point *)
Definition utf8 (n : N) : string :=
  let byte (k : N) := ascii_of_N k in
  (if n <? 128 then String (byte n) ""
   else if n <? 2048 then
     String (byte (192 + n / 64)) (String (byte (128 + n mod 64)) "")
   else if n <? 65536 then
     String (byte (224 + n / 4096))
       (String (byte (128 + (n / 64) mod 64)) (String (byte (128 + n mod 64)) ""))
   else
     String (byte (240 + n / 262144))
       (String (byte (128 + (n / 4096) mod 64))
          (String (byte (128 + (n / 64) mod 64)) (String (byte (128 + n mod 64)) ""))))%N.

Fixpoint units_text (us : list code_unit) : string :=
  match us with
  | [] => ""
  | Lit c :: us' => String c (units_text us')
  | Uni n :: us' => utf8 n ++ units_text us'
  end.

(** [scanstring]: [s] starts right after the opening quote *)
Definition scanstring (s : string) : option (string * string) :=
  match scan_units s with
  | Some (us, r) => Some (units_text (join_surrogates us), r)
  | None => None
  end.

(** *** Values *)

(** [d[k] = v] on a dictionary: a key already there keeps its place *)
Fixpoint dict_set {V : Type} (d : list (string * V)) (k : string) (v : V)
  : list (string * V) :=
  match d with
  | [] => [(k, v)]
  | (k', v') :: d' =>
      if String.eqb k' k then (k', v) :: d' else (k', v') :: dict_set d' k v
  end.

(** [s] without the prefix [p], when it starts with it *)
Fixpoint strip_prefix (p s : string) : option string :=
  match p, s with
  | EmptyString, _ => Some s
  | String a p', String b s' => if (a =? b)%char then strip_prefix p' s' else None
  | String _ _, EmptyString => None
  end.

Definition parse_constant (s : string) : option (json * string) :=
  match strip_prefix "null" s with Some r => Some (JNull, r) | None =>
  match strip_prefix "true" s with Some r => Some (JBool true, r) | None =>
  match strip_prefix "false" s with Some r => Some (JBool false, r) | None =>
  match strip_prefix "NaN" s with Some r => Some (JNaN, r) | None =>
  match strip_prefix "Infinity" s with Some r => Some (JInf false, r) | None =>
  match strip_prefix "-Infinity" s with Some r => Some (JInf true, r) | None =>
  parse_number s
  end end end end end end.

(** [scan_once], with the loops of the array and of the object; [fuel]
    bounds the calls. *)
Fixpoint parse_value (fuel : nat) (s : string) {struct fuel} : option (json * string) :=
  match fuel with
  | O => None
  | S fuel' =>
      match s with
      | EmptyString => None
      | String c r =>
          if (c =? dq)%char then
            match scanstring r with
            | Some (str, r') => Some (JStr str, r')
            | None => None
            end
          else if (c =? "{")%char then
            match skip_ws r with
            | String c1 r1 =>
                if (c1 =? "}")%char then Some (JObj [], r1)
                else parse_members fuel' (skip_ws r) []
            | EmptyString => None
            end
          else if (c =? "[")%char then
            match skip_ws r with
            | String c1 r1 =>
                if (c1 =? "]")%char then Some (JArr [], r1)
                else parse_elements fuel' (skip_ws r) []
            | EmptyString => None
            end
          else parse_constant s
      end
  end
with parse_elements (fuel : nat) (s : string) (acc : list json) {struct fuel}
  : option (json * string) :=
  match fuel with
  | O => None
  | S fuel' =>
      match parse_value fuel' s with
      | Some (v, r) =>
          match skip_ws r with
          | String c r1 =>
              if (c =? "]")%char then Some (JArr (acc ++ [v]), r1)
              else if (c =? ",")%char then parse_elements fuel' (skip_ws r1) (acc ++ [v])
              else None
          | EmptyString => None
          end
      | None => None
      end
  end
with parse_members (fuel : nat) (s : string) (acc : list (string * json)) {struct fuel}
  : option (json * string) :=
  match fuel with
  | O => None
  | S fuel' =>
      match s with
      | String c r =>
          if (c =? dq)%char then
            match scanstring r with
            | Some (k, r1) =>
                match skip_ws r1 with
                | String c2 r2 =>
                    if (c2 =? ":")%char then
                      match parse_value fuel' (skip_ws r2) with
                      | Some (v, r3) =>
                          match skip_ws r3 with
                          | String c3 r4 =>
                              if (c3 =? "}")%char then Some (JObj (dict_set acc k v), r4)
                              else if (c3 =? ",")%char
                              then parse_members fuel' (skip_ws r4) (dict_set acc k v)
                              else None
                          | EmptyString => None
                          end
                      | None => None
                      end
                    else None
                | EmptyString => None
                end
            | None => None
            end
          else None
      | EmptyString => None
      end
  end.

(** [json.loads(s)]; [None] stands for [json.JSONDecodeError] *)
Definition loads (s : string) : option json :=
  match parse_value (S (2 * String.length s)) (skip_ws s) with
  | Some (v, r) =>
      match skip_ws r with
      | EmptyString => Some v
      | String _ _ => None
      end
  | None => None
  end.

(** *** Writing *)

Definition hex_digit (n : N) : ascii :=
  (if n <? 10 then ascii_of_N (48 + n) else ascii_of_N (87 + n))%N.

(** how [json.dumps] writes one character of a string: the quote and the
    backslash behind a backslash, the control characters as their escapes,
    a printable ASCII character as itself.  A byte above [0x7f] is written
    as it is (CPython writes the [\u] escape of the code point instead;
    both texts read back to the same string). *)
Definition escape_char (c : ascii) : string :=
  let n := N_of_ascii c in
  if (c =? dq)%char then String bs (String dq "")
  else if (c =? bs)%char then String bs (String bs "")
  else if (n =? 10)%N then String bs "n"
  else if (n =? 13)%N then String bs "r"
  else if (n =? 9)%N then String bs "t"
  else if (n =? 8)%N then String bs "b"
  else if (n =? 12)%N then String bs "f"
  else if ((n <? 32) || (n =? 127))%N then
    String bs (String "u" (String "0" (String "0"
      (String (hex_digit (n / 16)) (String (hex_digit (n mod 16)) "")))))
  else String c "".

Fixpoint escape (s : string) : string :=
  match s with
  | EmptyString => ""
  | String c s' => escape_char c ++ escape s'
  end.

Definition dumps_string (s : string) : string :=
  String dq (escape s ++ String dq "").

(** the members of a dictionary of strings, separated by [", "] *)
Fixpoint dumps_members (d : list (string * string)) : string :=
  match d with
  | [] => ""
  | (k, v) :: d' =>
      dumps_string k ++ ": " ++ dumps_string v
      ++ match d' with [] => "" | _ :: _ => ", " ++ dumps_members d' end
  end.

(** [json.dumps(d)] for a [d] that maps strings to strings *)
Definition dumps_str_dict (d : list (string * string)) : string :=
  "{" ++ dumps_members d ++ "}".


(** *** The limits of the interpreter

    [json.loads] raises [ValueError] on an integer literal of more than
    4300 digits ([sys.int_info.default_max_str_digits]) and
    [RecursionError] on a text nested deeper than the recursion limit
    leaves room for; [loads] above knows neither limit.  It is [json.loads]
    on the texts that stay clear of both: no run of digits longer than
    4300, and at most 500 opening brackets and braces in all, which keeps
    the nesting under the default recursion limit of 1000 with room for the
    frames of the caller. *)






End Json.

Import Json.

(** ** Exceptions, results and the outside world *)

(** What a client library raises on its own account.  The first group comes
    from [requests], the second is the shape the vendor SDKs share: an error
    for a reply with a failure status, which carries that status and the
    body, and errors for a connection that failed or timed out. *)
Inductive client_error :=
| RequestsConnectionError
| RequestsTimeout
| RequestsHTTPError (status_code : Z)
| APIStatusError (status_code : Z) (body : string)
| APIConnectionError
| APITimeoutError.

(** The Python exceptions that occur, by class. [Exception msg] is the
    built-in base class raised directly; [JSONDecodeError] keeps the text it
    was parsing, as [e.doc] does. *)
Inductive exn :=
| Exception (msg : string)
| ValueError (msg : string)
| TypeError (msg : string)
| KeyError (key : string)
| IndexError (msg : string)
| AttributeError (msg : string)
| JSONDecodeError (doc : string)
| InvalidToken
| ClientError (e : client_error).

Inductive result (A : Type) :=
| Ok (a : A)
| Raise (e : exn).

Arguments Ok {A} a.
Arguments Raise {A} e.

(** The optional imports at the top of [ai_service.py]: each one either
    bound its name or left it [None]. *)
Inductive sdk := PkgOpenAI | PkgAnthropic | PkgGenai.

(** Where an outbound call goes. *)
Inductive endpoint :=
| RequestsPost (url : string) (headers : list (string * string)) (timeout : option Z)
| ChatCompletionsCreate (api_key : string) (base_url : option string)
| ModelsList (api_key : string) (base_url : option string)
| MessagesCreate (api_key : string)
| GenerateContent (api_key : string).

(** One outbound call: the endpoint, and the keyword arguments (for
    [requests.post], the members of the [json=] body). *)
Record call := { call_to : endpoint; call_args : list (string * json) }.

(** What [requests.post] comes back with. *)
Inductive http_outcome :=
| HttpResponse (status_code : Z) (text : string)
| PostRaises (e : client_error).

(** What an SDK method comes back with. *)
Inductive sdk_outcome (A : Type) :=
| SdkReturns (a : A)
| SdkRaises (e : client_error).

Arguments SdkReturns {A} a.
Arguments SdkRaises {A} e.

(** The far end of every client.  Each answer may depend on the calls made
    before.  A chat completion is the [message.content] of each choice; an
    Anthropic message is the [text] of each content block ([None]: a block
    without text); a Gemini response is its [text]. *)
Record remote := {
  requests_post : list call -> call -> http_outcome;
  chat_completions_create : list call -> call -> sdk_outcome (list (option string));
  models_list : list call -> call -> sdk_outcome unit;
  messages_create : list call -> call -> sdk_outcome (list (option string));
  generate_content : list call -> call -> sdk_outcome (option string)
}.

(** The state outside the program. *)
Record world := {
  environ : gmap string string;      (* [os.environ] *)
  entropy : nat -> ascii;            (* the bytes [os.urandom] hands out, in order *)
  drawn : nat;                       (* how many it has handed out *)
  imported : sdk -> bool;            (* which optional imports succeeded *)
  far_end : remote;
  sent : list call                   (* the outbound calls made so far, oldest first *)
}.

(** Computations that read and change the world and may raise. *)
Definition M (A : Type) : Type := world -> result A * world.

Definition ret {A : Type} (a : A) : M A := fun w => (Ok a, w).

Definition raise {A : Type} (e : exn) : M A := fun w => (Raise e, w).

Definition bind {A B : Type} (m : M A) (k : A -> M B) : M B :=
  fun w =>
    match m w with
    | (Ok a, w') => k a w'
    | (Raise e, w') => (Raise e, w')
    end.

(** [try: body  except ...: handler] where [catches e] tells whether the
    clause matches; what the body did to the world before it raised stays
    done. *)
Definition try_except {A : Type} (body : M A) (catches : exn -> bool) (handler : exn -> M A)
  : M A :=
  fun w =>
    match body w with
    | (Ok a, w') => (Ok a, w')
    | (Raise e, w') => if catches e then handler e w' else (Raise e, w')
    end.

Definition lift {A : Type} (r : result A) : M A := fun w => (r, w).

Notation "'let*' x ':=' m 'in' k" := (bind m (fun x => k))
  (at level 10, x name, k at level 200, only parsing).
Notation "'let*' ' p ':=' m 'in' k" := (bind m (fun x => let 'p := x in k))
  (at level 10, p pattern, k at level 200, only parsing).

(** [os.environ.get(name)] *)
Definition os_environ_get (name : string) : M (option string) :=
  fun w => (Ok (environ w !! name), w).

(** the [n] bytes of the entropy source from position [start] on *)
Definition entropy_bytes (w : world) (start n : nat) : string :=
  string_of_list_ascii (map (entropy w) (seq start n)).

(** the world after [n] more bytes were handed out *)
Definition advance (w : world) (n : nat) : world :=
  {| environ := environ w; entropy := entropy w; drawn := (drawn w + n)%nat;
     imported := imported w; far_end := far_end w; sent := sent w |}.

(** [os.urandom(n)] *)
Definition os_urandom (n : nat) : M string :=
  fun w => (Ok (entropy_bytes w (drawn w) n), advance w n).

(** the world after one more call went out *)
Definition with_sent (w : world) (c : call) : world :=
  {| environ := environ w; entropy := entropy w; drawn := drawn w;
     imported := imported w; far_end := far_end w; sent := sent w ++ [c] |}.

Definition of_sdk {A : Type} (o : sdk_outcome A) : result A :=
  match o with
  | SdkReturns a => Ok a
  | SdkRaises e => Raise (ClientError e)
  end.

(** ** Python values decoded from JSON *)

(** [json.loads(text)] as a call that can raise *)
Definition json_loads (text : string) : result json :=
  match Json.loads text with
  | Some v => Ok v
  | None => Raise (JSONDecodeError text)
  end.

(** [json.loads(v)] for a value that need not be a [str] *)
Definition json_loads_value (v : json) : result json :=
  match v with
  | JStr text => json_loads text
  | _ => Raise (TypeError "the JSON object must be str, bytes or bytearray")
  end.

(** [json.loads(o)] where [o] is a [str] or [None] *)
Definition json_loads_optional (o : option string) : result json :=
  match o with
  | Some text => json_loads text
  | None => Raise (TypeError "the JSON object must be str, bytes or bytearray")
  end.

(** [v[k]] for a string [k] *)
Definition getitem (v : json) (k : string) : result json :=
  match v with
  | JObj d =>
      match PyDict.lookup d k with
      | Some x => Ok x
      | None => Raise (KeyError k)
      end
  | JArr _ => Raise (TypeError "list indices must be integers or slices, not str")
  | JStr _ => Raise (TypeError "string indices must be integers")
  | _ => Raise (TypeError "object is not subscriptable")
  end.

(** [v[0]] *)
Definition getitem0 (v : json) : result json :=
  match v with
  | JArr (x :: _) => Ok x
  | JArr [] => Raise (IndexError "list index out of range")
  | JObj _ => Raise (KeyError "0")
  | JStr (String c _) => Ok (JStr (String c ""))
  | JStr EmptyString => Raise (IndexError "string index out of range")
  | _ => Raise (TypeError "object is not subscriptable")
  end.

(** [l[0]] on a list *)
Definition first {A : Type} (l : list A) : result A :=
  match l with
  | x :: _ => Ok x
  | [] => Raise (IndexError "list index out of range")
  end.

(** [d.get(k, default)] on a decoded value *)
Definition dict_get (v : json) (k : string) (default : json) : result json :=
  match v with
  | JObj d => Ok (PyDict.get d k default)
  | _ => Raise (AttributeError "object has no attribute 'get'")
  end.

(** chaining calls that can raise *)
Definition and_then {A B : Type} (r : result A) (k : A -> result B) : result B :=
  match r with
  | Ok a => k a
  | Raise e => Raise e
  end.

(** ** [base64]

    [urlsafe_b64decode] is the translation of [-] and [_] followed by
    [binascii.a2b_base64] in its lenient mode: characters outside the
    alphabet are skipped, a pad sequence that completes a quad ends the
    input.  [urlsafe_b64encode] is its inverse on the padded alphabet. *)

Module Base64.

(** the six bits of an alphabet character, [-] and [_] read as [+] and [/] *)
Definition sextet (c : ascii) : option N :=
  let n := N_of_ascii c in
  (if (65 <=? n) && (n <=? 90) then Some (n - 65)
   else if (97 <=? n) && (n <=? 122) then Some (n - 71)
   else if (48 <=? n) && (n <=? 57) then Some (n + 4)
   else if (n =? 43) || (n =? 45) then Some 62
   else if (n =? 47) || (n =? 95) then Some 63
   else None)%N.

(** the decoding loop: [quad_pos] characters of the current quad are in,
    [leftchar] holds their bits not yet written, [pads] counts the pad
    characters since the last alphabet character, [out] is what has been
    written, last byte first.  [None] stands for [binascii.Error]. *)
Fixpoint a2b_loop (s : string) (quad_pos : nat) (leftchar : N) (pads : nat) (out : list ascii)
  : option (list ascii) :=
  match s with
  | EmptyString =>
      match quad_pos with O => Some (rev out) | _ => None end
  | String c r =>
      if (c =? "=")%char then
        if (2 <=? quad_pos)%nat then
          if (4 <=? quad_pos + S pads)%nat then Some (rev out)
          else a2b_loop r quad_pos leftchar (S pads) out
        else a2b_loop r quad_pos leftchar pads out
      else
        match sextet c with
        | None => a2b_loop r quad_pos leftchar pads out
        | Some v =>
            match quad_pos with
            | 0%nat => a2b_loop r 1 v 0 out
            | 1%nat => a2b_loop r 2 (v mod 16)%N 0 (ascii_of_N (leftchar * 4 + v / 16) :: out)
            | 2%nat => a2b_loop r 3 (v mod 4)%N 0 (ascii_of_N (leftchar * 16 + v / 4) :: out)
            | _ => a2b_loop r 0 0%N 0 (ascii_of_N (leftchar * 64 + v) :: out)
            end
        end
  end.

Definition is_ascii (c : ascii) : bool := (N_of_ascii c <? 128)%N.

Fixpoint all_ascii (s : string) : bool :=
  match s with
  | EmptyString => true
  | String c r => is_ascii c && all_ascii r
  end.

(** [base64.urlsafe_b64decode(s)] for a [bytes] argument; [None] stands for
    [binascii.Error] *)
Definition urlsafe_b64decode (s : string) : option string :=
  match a2b_loop s 0 0%N 0 [] with
  | Some bytes => Some (string_of_list_ascii bytes)
  | None => None
  end.

(** the character of six bits in the url-safe alphabet *)
Definition alphabet_char (v : N) : ascii :=
  (if v <? 26 then ascii_of_N (65 + v)
   else if v <? 52 then ascii_of_N (71 + v)
   else if v <? 62 then ascii_of_N (v - 4)
   else if v =? 62 then "-"%char
   else "_"%char)%N.

(** the encoding of a sequence of bytes: three bytes make four characters,
    and what is left at the end is padded *)
Fixpoint b2a (bytes : list ascii) : string :=
  match bytes with
  | [] => ""
  | [a] =>
      let x := N_of_ascii a in
      String (alphabet_char (x / 4)) (String (alphabet_char ((x mod 4) * 16)) "==")
  | [a; b] =>
      let x := N_of_ascii a in
      let y := N_of_ascii b in
      String (alphabet_char (x / 4))
        (String (alphabet_char ((x mod 4) * 16 + y / 16))
           (String (alphabet_char ((y mod 16) * 4)) "="))
  | a :: b :: c :: rest =>
      let x := N_of_ascii a in
      let y := N_of_ascii b in
      let z := N_of_ascii c in
      String (alphabet_char (x / 4))
        (String (alphabet_char ((x mod 4) * 16 + y / 16))
           (String (alphabet_char ((y mod 16) * 4 + z / 64))
              (String (alphabet_char (z mod 64)) (b2a rest))))
  end.

(** [base64.urlsafe_b64encode(s)] *)
Definition urlsafe_b64encode (s : string) : string := b2a (list_ascii_of_string s).

End Base64.

(** ** [cryptography.fernet]

    The cipher is taken symbolically: a token records the key it was sealed
    with, its initialisation vector and its plaintext, and opens under that
    key alone; any other text is no token at all. *)

Module Fernet.

(** What [Fernet(...)] is given: the [str] found in the environment, or the
    [bytes] that [Fernet.generate_key()] returned. *)
Inductive key_text :=
| KeyStr (s : string)
| KeyBytes (s : string).

Record token := { token_key : string; token_iv : string; token_plaintext : string }.

(** A stored text: a Fernet token, or anything else. *)
Inductive blob :=
| Sealed (t : token)
| Plain (s : string).

(** [bool(blob)]: a token is never the empty text *)
Definition truthy (b : blob) : bool :=
  match b with
  | Sealed _ => true
  | Plain s => PyStr.truthy s
  end.

(** [Fernet.generate_key()] *)
Definition generate_key : M key_text :=
  let* raw := os_urandom 32 in ret (KeyBytes (Base64.urlsafe_b64encode raw)).

Definition key_error : exn :=
  ValueError "Fernet key must be 32 url-safe base64-encoded bytes.".

(** [Fernet(key)]: the 32 bytes of the key, or [ValueError]; a [str] is
    first encoded to ASCII, which fails on any other character *)
Definition new (key : key_text) : result string :=
  let decoded :=
    match key with
    | KeyStr s =>
        if Base64.all_ascii s then Ok (Base64.urlsafe_b64decode s)
        else Raise (ValueError "string argument should contain only ASCII characters")
    | KeyBytes s => Ok (Base64.urlsafe_b64decode s)
    end in
  match decoded with
  | Ok (Some raw) => if (String.length raw =? 32)%nat then Ok raw else Raise key_error
  | Ok None => Raise key_error
  | Raise e => Raise e
  end.

(** [f.encrypt(data)] *)
Definition encrypt (f : string) (data : string) : M blob :=
  let* iv := os_urandom 16 in
  ret (Sealed {| token_key := f; token_iv := iv; token_plaintext := data |}).

(** [f.decrypt(token)] *)
Definition decrypt (f : string) (b : blob) : result string :=
  match b with
  | Sealed t => if String.eqb (token_key t) f then Ok (token_plaintext t) else Raise InvalidToken
  | Plain _ => Raise InvalidToken
  end.

End Fernet.

(** [bool(v)] for a decoded value *)
Definition truthy_value (v : json) : bool :=
  match v with
  | JNull => false
  | JBool b => b
  | JInt z => negb (z =? 0)
  | JFloat m _ => negb (m =? 0)
  | JNaN | JInf _ => true
  | JStr s => PyStr.truthy s
  | JArr items => match items with [] => false | _ :: _ => true end
  | JObj members => match members with [] => false | _ :: _ => true end
  end.

(** [v[k] = x] for a string [k] *)
Definition setitem (v : json) (k : string) (x : json) : result json :=
  match v with
  | JObj d => Ok (JObj (Json.dict_set d k x))
  | JArr _ => Raise (TypeError "list indices must be integers or slices, not str")
  | _ => Raise (TypeError "object does not support item assignment")
  end.

(** [l[1]] on a list *)
Definition second {A : Type} (l : list A) : result A :=
  match l with
  | _ :: x :: _ => Ok x
  | _ => Raise (IndexError "list index out of range")
  end.

(** ** [secrets] *)

Module Secrets.

(** [secrets.token_urlsafe(nbytes)]: the url-safe base64 text of [nbytes]
    fresh bytes, without its padding *)
Definition token_urlsafe (nbytes : nat) : M string :=
  let* tok := os_urandom nbytes in
  ret (PyStr.rstrip_char "=" (Base64.urlsafe_b64encode tok)).

End Secrets.

(** ** The provider layer ([ai_service.py]) *)

Module ai_service.

(** *** The provider catalog *)

Record descriptor := {
  name : string;
  models : list (string * string);
  api_key_env : string;
  requires : list string
}.

(** [AI_PROVIDERS], in the order it is written *)
Definition AI_PROVIDERS : list (string * descriptor) :=
  [
  ("openai",
   {| name := "OpenAI";
      models :=
       [
         ("gpt-4o", "GPT-4o (Latest)");
         ("gpt-4o-mini", "GPT-4o Mini");
         ("gpt-4-turbo", "GPT-4 Turbo");
         ("gpt-4-turbo-preview", "GPT-4 Turbo Preview");
         ("gpt-4", "GPT-4");
         ("gpt-4-0613", "GPT-4 (June 2023)");
         ("gpt-3.5-turbo", "GPT-3.5 Turbo");
         ("gpt-3.5-turbo-16k", "GPT-3.5 Turbo 16K");
         ("gpt-3.5-turbo-1106", "GPT-3.5 Turbo (Nov 2023)") ];
      api_key_env := "OPENAI_API_KEY";
      requires := ["openai"] |});
  ("anthropic",
   {| name := "Anthropic Claude";
      models :=
       [
         ("claude-sonnet-4-20250514", "Claude 4.0 Sonnet (Latest)");
         ("claude-3-7-sonnet-20250219", "Claude 3.7 Sonnet");
         ("claude-3-5-sonnet-20241022", "Claude 3.5 Sonnet");
         ("claude-3-5-haiku-20241022", "Claude 3.5 Haiku");
         ("claude-3-opus-20240229", "Claude 3 Opus");
         ("claude-3-sonnet-20240229", "Claude 3 Sonnet");
         ("claude-3-haiku-20240307", "Claude 3 Haiku");
         ("claude-2.1", "Claude 2.1");
         ("claude-2.0", "Claude 2.0");
         ("claude-instant-1.2", "Claude Instant 1.2") ];
      api_key_env := "ANTHROPIC_API_KEY";
      requires := ["anthropic"] |});
  ("gemini",
   {| name := "Google Gemini";
      models :=
       [
         ("gemini-2.5-pro", "Gemini 2.5 Pro (Latest)");
         ("gemini-2.5-flash", "Gemini 2.5 Flash");
         ("gemini-1.5-pro", "Gemini 1.5 Pro");
         ("gemini-1.5-flash", "Gemini 1.5 Flash");
         ("gemini-1.0-pro", "Gemini 1.0 Pro");
         ("gemini-pro", "Gemini Pro");
         ("gemini-pro-vision", "Gemini Pro Vision") ];
      api_key_env := "GEMINI_API_KEY";
      requires := ["google-genai"] |});
  ("xai",
   {| name := "xAI Grok";
      models :=
       [
         ("grok-2-vision-1212", "Grok 2 Vision (Latest)");
         ("grok-2-1212", "Grok 2");
         ("grok-vision-beta", "Grok Vision Beta");
         ("grok-beta", "Grok Beta");
         ("grok-1", "Grok 1") ];
      api_key_env := "XAI_API_KEY";
      requires := ["openai"] |});
  ("perplexity",
   {| name := "Perplexity";
      models :=
       [
         ("llama-3.1-sonar-huge-128k-online", "Llama 3.1 Sonar Huge (Online)");
         ("llama-3.1-sonar-large-128k-online", "Llama 3.1 Sonar Large (Online)");
         ("llama-3.1-sonar-small-128k-online", "Llama 3.1 Sonar Small (Online)");
         ("llama-3.1-sonar-large-128k-chat", "Llama 3.1 Sonar Large (Chat)");
         ("llama-3.1-sonar-small-128k-chat", "Llama 3.1 Sonar Small (Chat)");
         ("llama-3.1-8b-instruct", "Llama 3.1 8B Instruct");
         ("llama-3.1-70b-instruct", "Llama 3.1 70B Instruct");
         ("codellama-34b-instruct", "CodeLlama 34B Instruct");
         ("codellama-70b-instruct", "CodeLlama 70B Instruct");
         ("mistral-7b-instruct", "Mistral 7B Instruct");
         ("mixtral-8x7b-instruct", "Mixtral 8x7B Instruct") ];
      api_key_env := "PERPLEXITY_API_KEY";
      requires := ["requests"] |});
  ("cohere",
   {| name := "Cohere";
      models :=
       [
         ("command-r-plus", "Command R+ (Latest)");
         ("command-r", "Command R");
         ("command", "Command");
         ("command-nightly", "Command Nightly");
         ("command-light", "Command Light");
         ("command-light-nightly", "Command Light Nightly") ];
      api_key_env := "COHERE_API_KEY";
      requires := ["requests"] |});
  ("mistral",
   {| name := "Mistral AI";
      models :=
       [
         ("mistral-large-latest", "Mistral Large (Latest)");
         ("mistral-medium-latest", "Mistral Medium");
         ("mistral-small-latest", "Mistral Small");
         ("open-mistral-7b", "Open Mistral 7B");
         ("open-mixtral-8x7b", "Open Mixtral 8x7B");
         ("open-mixtral-8x22b", "Open Mixtral 8x22B");
         ("codestral-latest", "Codestral (Code)");
         ("mistral-embed", "Mistral Embed") ];
      api_key_env := "MISTRAL_API_KEY";
      requires := ["requests"] |});
  ("huggingface",
   {| name := "HuggingFace";
      models :=
       [
         ("meta-llama/Llama-2-70b-chat-hf", "Llama 2 70B Chat");
         ("meta-llama/Llama-2-13b-chat-hf", "Llama 2 13B Chat");
         ("meta-llama/Llama-2-7b-chat-hf", "Llama 2 7B Chat");
         ("codellama/CodeLlama-34b-Instruct-hf", "CodeLlama 34B Instruct");
         ("microsoft/DialoGPT-large", "DialoGPT Large");
         ("microsoft/CodeBERT-base", "CodeBERT Base");
         ("Salesforce/codegen-16B-mono", "CodeGen 16B");
         ("bigcode/starcoder", "StarCoder") ];
      api_key_env := "HUGGINGFACE_API_KEY";
      requires := ["requests"] |});
  ("together",
   {| name := "Together AI";
      models :=
       [
         ("meta-llama/Llama-2-70b-chat-hf", "Llama 2 70B Chat");
         ("meta-llama/Llama-2-13b-chat-hf", "Llama 2 13B Chat");
         ("meta-llama/Llama-2-7b-chat-hf", "Llama 2 7B Chat");
         ("codellama/CodeLlama-34b-Instruct-hf", "CodeLlama 34B Instruct");
         ("codellama/CodeLlama-13b-Instruct-hf", "CodeLlama 13B Instruct");
         ("codellama/CodeLlama-7b-Instruct-hf", "CodeLlama 7B Instruct");
         ("WizardLM/WizardCoder-Python-34B-V1.0", "WizardCoder Python 34B");
         ("Phind/Phind-CodeLlama-34B-v2", "Phind CodeLlama 34B v2") ];
      api_key_env := "TOGETHER_API_KEY";
      requires := ["requests"] |}) ].

Definition get_available_providers : list (string * descriptor) := AI_PROVIDERS.

(** *** The prompt templates

    The templates of the prompt builders are written with an apostrophe
    wherever the source has a double quote; [quoted] puts the double quotes
    back.  The source has no apostrophe in them. *)

Definition quote_char (c : ascii) : ascii :=
  if (c =? "'")%char then Json.dq else c.

Fixpoint quoted (t : string) : string :=
  match t with
  | EmptyString => EmptyString
  | String c t' => String (quote_char c) (quoted t')
  end.

(** *** Providers *)

Inductive provider_class :=
| OpenAI | Anthropic | Gemini | Perplexity | XAI | HTTP.

(** [self.client] *)
Inductive client :=
| NoClient
| OpenAIClient (api_key : string) (base_url : option string)
| AnthropicClient (api_key : string)
| GenaiClient (api_key : string).

(** An instance of a provider class; [self_base_url] and [self_headers] are
    the two attributes [HTTPProvider.__init__] adds. *)
Record provider := {
  cls : provider_class;
  self_api_key : string;
  self_model : string;
  self_client : client;
  self_base_url : option string;
  self_headers : list (string * string)
}.

(** *** Outbound calls *)

(** [requests.post(url, headers=headers, json=data, timeout=timeout)]: the
    status code and the text of the response *)
Definition post (url : string) (headers : list (string * string))
    (data : list (string * json)) (timeout : option Z) : M (Z * string) :=
  fun w =>
    let c := {| call_to := RequestsPost url headers timeout; call_args := data |} in
    (match requests_post (far_end w) (sent w) c with
     | HttpResponse status_code text => Ok (status_code, text)
     | PostRaises e => Raise (ClientError e)
     end, with_sent w c).

(** [client.chat.completions.create(...)] *)
Definition chat_create (cl : client) (kwargs : list (string * json)) : M (list (option string)) :=
  match cl with
  | OpenAIClient api_key base_url =>
      fun w =>
        let c := {| call_to := ChatCompletionsCreate api_key base_url; call_args := kwargs |} in
        (of_sdk (chat_completions_create (far_end w) (sent w) c), with_sent w c)
  | _ => raise (AttributeError "chat")
  end.

(** [client.models.list()] *)
Definition list_models (cl : client) : M unit :=
  match cl with
  | OpenAIClient api_key base_url =>
      fun w =>
        let c := {| call_to := ModelsList api_key base_url; call_args := [] |} in
        (of_sdk (models_list (far_end w) (sent w) c), with_sent w c)
  | _ => raise (AttributeError "models")
  end.

(** [client.messages.create(...)] *)
Definition create_message (cl : client) (kwargs : list (string * json)) : M (list (option string)) :=
  match cl with
  | AnthropicClient api_key =>
      fun w =>
        let c := {| call_to := MessagesCreate api_key; call_args := kwargs |} in
        (of_sdk (messages_create (far_end w) (sent w) c), with_sent w c)
  | _ => raise (AttributeError "messages")
  end.

(** [client.models.generate_content(...)] *)
Definition generate (cl : client) (kwargs : list (string * json)) : M (option string) :=
  match cl with
  | GenaiClient api_key =>
      fun w =>
        let c := {| call_to := GenerateContent api_key; call_args := kwargs |} in
        (of_sdk (generate_content (far_end w) (sent w) c), with_sent w c)
  | _ => raise (AttributeError "models")
  end.

(** [{"role": role, "content": content}] *)
Definition message (role content : string) : json :=
  JObj [("role", JStr role); ("content", JStr content)].

(** the constructors of the three SDK clients, each behind its import *)
Definition new_openai_client (api_key : string) (base_url : option string) : M client :=
  fun w =>
    if imported w PkgOpenAI then (Ok (OpenAIClient api_key base_url), w)
    else (Raise (TypeError "'NoneType' object is not callable"), w).

Definition new_anthropic_client (api_key : string) : M client :=
  fun w =>
    if imported w PkgAnthropic then (Ok (AnthropicClient api_key), w)
    else (Raise (AttributeError "Anthropic"), w).

Definition new_genai_client (api_key : string) : M client :=
  fun w =>
    if imported w PkgGenai then (Ok (GenaiClient api_key), w)
    else (Raise (AttributeError "Client"), w).

(** [response.choices[0].message.content] handed to [json.loads] *)
Definition loads_first_choice (choices : list (option string)) : result json :=
  and_then (first choices) json_loads_optional.

(** [response.content[0].text] handed to [json.loads]; a block without
    [text] raises [AttributeError] *)
Definition loads_first_block (blocks : list (option string)) : result json :=
  and_then (first blocks)
    (fun b => match b with
              | Some text => json_loads text
              | None => Raise (AttributeError "text")
              end).

(** [result['choices'][0]['message']['content']] *)
Definition message_content (decoded : json) : result json :=
  and_then (getitem decoded "choices") (fun choices =>
  and_then (getitem0 choices) (fun choice =>
  and_then (getitem choice "message") (fun msg =>
  getitem msg "content"))).

Module OpenAIProvider.

(** The three prompt builders. *)
Definition _build_quality_prompt (code_content language : string) : string :=
  quoted "
        Analyze the following "
  ++ language
  ++ quoted " code for quality, best practices, and potential issues.
        Provide a comprehensive analysis in JSON format with the following structure:
        {
            'quality_score': <number between 0-100>,
            'issues': [
                {
                    'type': 'error|warning|suggestion',
                    'severity': 'high|medium|low',
                    'line': <line_number_or_null>,
                    'message': 'description of the issue',
                    'suggestion': 'how to fix it'
                }
            ],
            'metrics': {
                'complexity': 'low|medium|high',
                'maintainability': <number between 0-100>,
                'readability': <number between 0-100>,
                'security': <number between 0-100>
            },
            'summary': 'Overall summary of code quality',
            'recommendations': [
                'list of general recommendations for improvement'
            ]
        }

        Code to analyze:
        "
  ++ code_content
  ++ quoted "
        ".

Definition _build_test_prompt (code_content language : string) : string :=
  quoted "
        Generate comprehensive test cases for the following "
  ++ language
  ++ quoted " code.
        Provide the response in JSON format with the following structure:
        {
            'test_framework': 'recommended testing framework for "
  ++ language
  ++ quoted "',
            'test_cases': [
                {
                    'name': 'test case name',
                    'description': 'what this test validates',
                    'type': 'unit|integration|edge_case',
                    'priority': 'high|medium|low',
                    'test_code': 'actual test code implementation'
                }
            ],
            'coverage_suggestions': [
                'areas that need more test coverage'
            ],
            'mocking_suggestions': [
                'components that should be mocked and why'
            ]
        }

        Code to generate tests for:
        "
  ++ code_content
  ++ quoted "
        ".

Definition _build_suggestions_prompt (code_content language : string) : string :=
  quoted "
        Provide specific code improvement suggestions for the following "
  ++ language
  ++ quoted " code.
        Focus on performance, security, maintainability, and best practices.
        Respond in JSON format:
        {
            'refactoring_suggestions': [
                {
                    'category': 'performance|security|maintainability|style',
                    'description': 'what to improve',
                    'before_code': 'current problematic code snippet',
                    'after_code': 'improved code snippet',
                    'explanation': 'why this improvement matters'
                }
            ],
            'architecture_suggestions': [
                'high-level architectural improvements'
            ],
            'dependency_suggestions': [
                'library or framework recommendations'
            ]
        }

        Code to improve:
        "
  ++ code_content
  ++ quoted "
        ".

Definition _initialize_client (api_key : string) : M client :=
  new_openai_client api_key None.

Definition analyze_code_quality (self : provider) (code_content language : string) : M json :=
  let prompt := _build_quality_prompt code_content language in
  let* response :=
    chat_create (self_client self)
      [ ("model", JStr (self_model self));
        ("messages", JArr
           [ message "system" "You are an expert code reviewer and static analysis tool. Provide detailed, actionable feedback on code quality, security, and best practices.";
             message "user" prompt ]);
        ("response_format", JObj [("type", JStr "json_object")]);
        ("temperature", JFloat 3 (-1)) ] in
  lift (loads_first_choice response).

Definition generate_test_cases (self : provider) (code_content language : string) : M json :=
  let prompt := _build_test_prompt code_content language in
  let* response :=
    chat_create (self_client self)
      [ ("model", JStr (self_model self));
        ("messages", JArr
           [ message "system" "You are an expert test engineer. Generate comprehensive, practical test cases that follow testing best practices and cover edge cases.";
             message "user" prompt ]);
        ("response_format", JObj [("type", JStr "json_object")]);
        ("temperature", JFloat 4 (-1)) ] in
  lift (loads_first_choice response).

Definition get_code_suggestions (self : provider) (code_content language : string) : M json :=
  let prompt := _build_suggestions_prompt code_content language in
  let* response :=
    chat_create (self_client self)
      [ ("model", JStr (self_model self));
        ("messages", JArr
           [ message "system" "You are a senior software architect and code mentor. Provide actionable, specific suggestions for code improvement.";
             message "user" prompt ]);
        ("response_format", JObj [("type", JStr "json_object")]);
        ("temperature", JFloat 3 (-1)) ] in
  lift (loads_first_choice response).

End OpenAIProvider.

Module AnthropicProvider.

(** The three prompt builders are those of [OpenAIProvider], letter for
    letter. *)
Definition _build_quality_prompt := OpenAIProvider._build_quality_prompt.
Definition _build_test_prompt := OpenAIProvider._build_test_prompt.
Definition _build_suggestions_prompt := OpenAIProvider._build_suggestions_prompt.

Definition _initialize_client (api_key : string) : M client :=
  new_anthropic_client api_key.

Definition analyze_code_quality (self : provider) (code_content language : string) : M json :=
  let prompt := _build_quality_prompt code_content language in
  let* response :=
    create_message (self_client self)
      [ ("model", JStr (self_model self));
        ("max_tokens", JInt 4000);
        ("messages", JArr [ message "user" prompt ]);
        ("system", JStr "You are an expert code reviewer and static analysis tool. Provide detailed, actionable feedback on code quality, security, and best practices. Always respond with valid JSON.") ] in
  lift (loads_first_block response).

Definition generate_test_cases (self : provider) (code_content language : string) : M json :=
  let prompt := _build_test_prompt code_content language in
  let* response :=
    create_message (self_client self)
      [ ("model", JStr (self_model self));
        ("max_tokens", JInt 4000);
        ("messages", JArr [ message "user" prompt ]);
        ("system", JStr "You are an expert test engineer. Generate comprehensive, practical test cases that follow testing best practices and cover edge cases. Always respond with valid JSON.") ] in
  lift (loads_first_block response).

Definition get_code_suggestions (self : provider) (code_content language : string) : M json :=
  let prompt := _build_suggestions_prompt code_content language in
  let* response :=
    create_message (self_client self)
      [ ("model", JStr (self_model self));
        ("max_tokens", JInt 4000);
        ("messages", JArr [ message "user" prompt ]);
        ("system", JStr "You are a senior software architect and code mentor. Provide actionable, specific suggestions for code improvement. Always respond with valid JSON.") ] in
  lift (loads_first_block response).

End AnthropicProvider.

Module GeminiProvider.

(** The three prompt builders, with the persona in front. *)
Definition _build_quality_prompt (code_content language : string) : string :=
  quoted "
        You are an expert code reviewer and static analysis tool. Analyze the following "
  ++ language
  ++ quoted " code for quality, best practices, and potential issues.
        Provide a comprehensive analysis in JSON format with the following structure:
        {
            'quality_score': <number between 0-100>,
            'issues': [
                {
                    'type': 'error|warning|suggestion',
                    'severity': 'high|medium|low',
                    'line': <line_number_or_null>,
                    'message': 'description of the issue',
                    'suggestion': 'how to fix it'
                }
            ],
            'metrics': {
                'complexity': 'low|medium|high',
                'maintainability': <number between 0-100>,
                'readability': <number between 0-100>,
                'security': <number between 0-100>
            },
            'summary': 'Overall summary of code quality',
            'recommendations': [
                'list of general recommendations for improvement'
            ]
        }

        Code to analyze:
        "
  ++ code_content
  ++ quoted "
        ".

Definition _build_test_prompt (code_content language : string) : string :=
  quoted "
        You are an expert test engineer. Generate comprehensive test cases for the following "
  ++ language
  ++ quoted " code.
        Provide the response in JSON format with the following structure:
        {
            'test_framework': 'recommended testing framework for "
  ++ language
  ++ quoted "',
            'test_cases': [
                {
                    'name': 'test case name',
                    'description': 'what this test validates',
                    'type': 'unit|integration|edge_case',
                    'priority': 'high|medium|low',
                    'test_code': 'actual test code implementation'
                }
            ],
            'coverage_suggestions': [
                'areas that need more test coverage'
            ],
            'mocking_suggestions': [
                'components that should be mocked and why'
            ]
        }

        Code to generate tests for:
        "
  ++ code_content
  ++ quoted "
        ".

Definition _build_suggestions_prompt (code_content language : string) : string :=
  quoted "
        You are a senior software architect and code mentor. Provide specific code improvement suggestions for the following "
  ++ language
  ++ quoted " code.
        Focus on performance, security, maintainability, and best practices.
        Respond in JSON format:
        {
            'refactoring_suggestions': [
                {
                    'category': 'performance|security|maintainability|style',
                    'description': 'what to improve',
                    'before_code': 'current problematic code snippet',
                    'after_code': 'improved code snippet',
                    'explanation': 'why this improvement matters'
                }
            ],
            'architecture_suggestions': [
                'high-level architectural improvements'
            ],
            'dependency_suggestions': [
                'library or framework recommendations'
            ]
        }

        Code to improve:
        "
  ++ code_content
  ++ quoted "
        ".

Definition _initialize_client (api_key : string) : M client :=
  new_genai_client api_key.

(** [genai.types.GenerateContentConfig(response_mime_type=..., temperature=...)] *)
Definition GenerateContentConfig (response_mime_type : string) (temperature : json) : json :=
  JObj [("response_mime_type", JStr response_mime_type); ("temperature", temperature)].

Definition analyze_code_quality (self : provider) (code_content language : string) : M json :=
  let prompt := _build_quality_prompt code_content language in
  let* response :=
    generate (self_client self)
      [ ("model", JStr (self_model self));
        ("contents", JStr prompt);
        ("config", GenerateContentConfig "application/json" (JFloat 3 (-1))) ] in
  lift (json_loads_optional response).

Definition generate_test_cases (self : provider) (code_content language : string) : M json :=
  let prompt := _build_test_prompt code_content language in
  let* response :=
    generate (self_client self)
      [ ("model", JStr (self_model self));
        ("contents", JStr prompt);
        ("config", GenerateContentConfig "application/json" (JFloat 4 (-1))) ] in
  lift (json_loads_optional response).

Definition get_code_suggestions (self : provider) (code_content language : string) : M json :=
  let prompt := _build_suggestions_prompt code_content language in
  let* response :=
    generate (self_client self)
      [ ("model", JStr (self_model self));
        ("contents", JStr prompt);
        ("config", GenerateContentConfig "application/json" (JFloat 3 (-1))) ] in
  lift (json_loads_optional response).

End GeminiProvider.

Module PerplexityProvider.

(** The three prompt builders are those of [OpenAIProvider], letter for
    letter. *)
Definition _build_quality_prompt := OpenAIProvider._build_quality_prompt.
Definition _build_test_prompt := OpenAIProvider._build_test_prompt.
Definition _build_suggestions_prompt := OpenAIProvider._build_suggestions_prompt.

Definition _initialize_client (api_key : string) : M client := ret NoClient.

Definition _make_request (self : provider) (prompt system_message : string) : M json :=
  let headers :=
    [ ("Authorization", "Bearer " ++ self_api_key self);
      ("Content-Type", "application/json") ] in
  let data :=
    [ ("model", JStr (self_model self));
      ("messages", JArr [ message "system" system_message; message "user" prompt ]);
      ("temperature", JFloat 3 (-1));
      ("stream", JBool false) ] in
  let* '(status_code, text) :=
    post "https://api.perplexity.ai/chat/completions" headers data None in
  if status_code =? 200 then
    let* result := lift (json_loads text) in
    let* content := lift (message_content result) in
    lift (json_loads_value content)
  else
    raise (Exception ("Perplexity API error: " ++ pretty status_code ++ " - " ++ text)).

Definition analyze_code_quality (self : provider) (code_content language : string) : M json :=
  let prompt := _build_quality_prompt code_content language in
  _make_request self prompt "You are an expert code reviewer and static analysis tool. Provide detailed, actionable feedback on code quality, security, and best practices. Always respond with valid JSON.".

Definition generate_test_cases (self : provider) (code_content language : string) : M json :=
  let prompt := _build_test_prompt code_content language in
  _make_request self prompt "You are an expert test engineer. Generate comprehensive, practical test cases that follow testing best practices and cover edge cases. Always respond with valid JSON.".

Definition get_code_suggestions (self : provider) (code_content language : string) : M json :=
  let prompt := _build_suggestions_prompt code_content language in
  _make_request self prompt "You are a senior software architect and code mentor. Provide actionable, specific suggestions for code improvement. Always respond with valid JSON.".

End PerplexityProvider.

Module XAIProvider.

(** The three prompt builders are those of [OpenAIProvider], letter for
    letter. *)
Definition _build_quality_prompt := OpenAIProvider._build_quality_prompt.
Definition _build_test_prompt := OpenAIProvider._build_test_prompt.
Definition _build_suggestions_prompt := OpenAIProvider._build_suggestions_prompt.

Definition _initialize_client (api_key : string) : M client :=
  new_openai_client api_key (Some "https://api.x.ai/v1").

(** The three methods repeat those of [OpenAIProvider] word for word. *)
Definition analyze_code_quality := OpenAIProvider.analyze_code_quality.
Definition generate_test_cases := OpenAIProvider.generate_test_cases.
Definition get_code_suggestions := OpenAIProvider.get_code_suggestions.

End XAIProvider.

Module HTTPProvider.

(** The three prompt builders are those of [OpenAIProvider], letter for
    letter. *)
Definition _build_quality_prompt := OpenAIProvider._build_quality_prompt.
Definition _build_test_prompt := OpenAIProvider._build_test_prompt.
Definition _build_suggestions_prompt := OpenAIProvider._build_suggestions_prompt.

Definition _initialize_client (api_key : string) : M client := ret NoClient.

(** [{**a, **b}] *)
Definition merge (a b : list (string * string)) : list (string * string) :=
  fold_left (fun d kv => Json.dict_set d (fst kv) (snd kv)) b a.

(** [f"{self.base_url}"]: the attribute as text *)
Definition base_url_text (self : provider) : string :=
  match self_base_url self with
  | Some u => u
  | None => "None"
  end.

Definition _make_request (self : provider) (prompt system_message : string) : M json :=
  let headers :=
    merge [ ("Authorization", "Bearer " ++ self_api_key self);
            ("Content-Type", "application/json") ]
          (self_headers self) in
  let data :=
    [ ("model", JStr (self_model self));
      ("messages", JArr [ message "system" system_message; message "user" prompt ]);
      ("temperature", JFloat 3 (-1));
      ("max_tokens", JInt 4000) ] in
  let* '(status_code, text) :=
    post (base_url_text self ++ "/chat/completions") headers data (Some 60) in
  if status_code =? 200 then
    let* result := lift (json_loads text) in
    let* content := lift (message_content result) in
    try_except
      (lift (json_loads_value content))
      (fun e => match e with JSONDecodeError _ => true | _ => false end)
      (fun _ => ret (JObj [("error", JStr "Invalid JSON response"); ("content", content)]))
  else
    raise (Exception ("API error: " ++ pretty status_code ++ " - " ++ text)).

Definition analyze_code_quality (self : provider) (code_content language : string) : M json :=
  let prompt := _build_quality_prompt code_content language in
  _make_request self prompt "You are an expert code reviewer. Analyze the code and provide detailed feedback in JSON format.".

Definition generate_test_cases (self : provider) (code_content language : string) : M json :=
  let prompt := _build_test_prompt code_content language in
  _make_request self prompt "You are a test engineer. Generate comprehensive test cases in JSON format.".

Definition get_code_suggestions (self : provider) (code_content language : string) : M json :=
  let prompt := _build_suggestions_prompt code_content language in
  _make_request self prompt "You are a senior developer. Provide code improvement suggestions in JSON format.".

End HTTPProvider.

(** *** The abstract base class and the dispatch of its methods *)

(** The methods [AIProvider] declares abstract. *)
Definition abstract_methods : list string :=
  ["_initialize_client"; "analyze_code_quality"; "generate_test_cases"; "get_code_suggestions"].

(** The methods each class body defines. *)
Definition defined_methods (c : provider_class) : list string :=
  let common :=
    ["_initialize_client"; "analyze_code_quality"; "generate_test_cases";
     "get_code_suggestions"; "_build_quality_prompt"; "_build_test_prompt";
     "_build_suggestions_prompt"] in
  match c with
  | OpenAI | Anthropic | Gemini | XAI => common
  | Perplexity => "_make_request" :: common
  | HTTP => "__init__" :: "_make_request" :: common
  end.

(** A class can be instantiated when none of the abstract methods is left
    undefined. *)
Definition concrete (c : provider_class) : bool :=
  forallb (fun m => existsb (String.eqb m) (defined_methods c)) abstract_methods.

(** [self._initialize_client()] *)
Definition _initialize_client (c : provider_class) (api_key : string) : M client :=
  match c with
  | OpenAI => OpenAIProvider._initialize_client api_key
  | Anthropic => AnthropicProvider._initialize_client api_key
  | Gemini => GeminiProvider._initialize_client api_key
  | Perplexity => PerplexityProvider._initialize_client api_key
  | XAI => XAIProvider._initialize_client api_key
  | HTTP => HTTPProvider._initialize_client api_key
  end.

(** Calling a class: the check of the abstract methods, then [__init__]
    ([AIProvider.__init__], which [HTTPProvider.__init__] reaches through
    [super()] once it has set its two attributes, [headers or {}] being the
    empty dictionary for the [None] the factory leaves it at). *)
Definition instantiate (c : provider_class) (api_key model : string) (base_url : option string)
  : M provider :=
  if concrete c then
    let* cl := _initialize_client c api_key in
    ret {| cls := c; self_api_key := api_key; self_model := model; self_client := cl;
           self_base_url := base_url; self_headers := [] |}
  else raise (TypeError "Can't instantiate abstract class").

Definition analyze_code_quality (self : provider) : string -> string -> M json :=
  match cls self with
  | OpenAI => OpenAIProvider.analyze_code_quality self
  | Anthropic => AnthropicProvider.analyze_code_quality self
  | Gemini => GeminiProvider.analyze_code_quality self
  | Perplexity => PerplexityProvider.analyze_code_quality self
  | XAI => XAIProvider.analyze_code_quality self
  | HTTP => HTTPProvider.analyze_code_quality self
  end.

Definition generate_test_cases (self : provider) : string -> string -> M json :=
  match cls self with
  | OpenAI => OpenAIProvider.generate_test_cases self
  | Anthropic => AnthropicProvider.generate_test_cases self
  | Gemini => GeminiProvider.generate_test_cases self
  | Perplexity => PerplexityProvider.generate_test_cases self
  | XAI => XAIProvider.generate_test_cases self
  | HTTP => HTTPProvider.generate_test_cases self
  end.

Definition get_code_suggestions (self : provider) : string -> string -> M json :=
  match cls self with
  | OpenAI => OpenAIProvider.get_code_suggestions self
  | Anthropic => AnthropicProvider.get_code_suggestions self
  | Gemini => GeminiProvider.get_code_suggestions self
  | Perplexity => PerplexityProvider.get_code_suggestions self
  | XAI => XAIProvider.get_code_suggestions self
  | HTTP => HTTPProvider.get_code_suggestions self
  end.

(** The three operations of the interface, by name. *)
Inductive operation := AnalyzeQuality | GenerateTests | SuggestImprovements.

Definition run (op : operation) (self : provider) (code_content language : string) : M json :=
  match op with
  | AnalyzeQuality => analyze_code_quality self code_content language
  | GenerateTests => generate_test_cases self code_content language
  | SuggestImprovements => get_code_suggestions self code_content language
  end.

(** *** The factory *)

Definition create_ai_provider (provider_name api_key model : string) : M provider :=
  if String.eqb provider_name "openai" then instantiate OpenAI api_key model None
  else if String.eqb provider_name "anthropic" then instantiate Anthropic api_key model None
  else if String.eqb provider_name "gemini" then instantiate Gemini api_key model None
  else if String.eqb provider_name "perplexity" then instantiate Perplexity api_key model None
  else if String.eqb provider_name "xai" then instantiate XAI api_key model None
  else if String.eqb provider_name "cohere"
  then instantiate HTTP api_key model (Some "https://api.cohere.ai/v1")
  else if String.eqb provider_name "mistral"
  then instantiate HTTP api_key model (Some "https://api.mistral.ai/v1")
  else if String.eqb provider_name "huggingface"
  then instantiate HTTP api_key model (Some "https://api-inference.huggingface.co/models")
  else if String.eqb provider_name "together"
  then instantiate HTTP api_key model (Some "https://api.together.xyz/v1")
  else raise (ValueError ("Unsupported AI provider: " ++ provider_name)).

(** *** The credential probe *)

(** [response.raise_for_status()] *)
Definition raise_for_status (status_code : Z) : result unit :=
  if (400 <=? status_code) && (status_code <? 600)
  then Raise (ClientError (RequestsHTTPError status_code))
  else Ok tt.

(** the headers every probe through [requests] sends *)
Definition bearer_headers (api_key : string) : list (string * string) :=
  [ ("Authorization", "Bearer " ++ api_key); ("Content-Type", "application/json") ].

(** a probe through [requests]: the post and the check of its status *)
Definition post_probe (url api_key : string) (data : list (string * json)) : M unit :=
  let* '(status_code, _) := post url (bearer_headers api_key) data None in
  lift (raise_for_status status_code).

(** The body of the [try] of [validate_api_key]. *)
Definition probe (provider api_key : string) : M bool :=
  if String.eqb provider "openai" then
    let* cl := new_openai_client api_key None in
    let* _ := list_models cl in
    ret true
  else if String.eqb provider "anthropic" then
    let* cl := new_anthropic_client api_key in
    let* _ := create_message cl
      [ ("model", JStr "claude-3-haiku-20240307");
        ("max_tokens", JInt 1);
        ("messages", JArr [ message "user" "Hi" ]) ] in
    ret true
  else if String.eqb provider "gemini" then
    let* cl := new_genai_client api_key in
    let* _ := generate cl [ ("model", JStr "gemini-1.5-flash"); ("contents", JStr "Test") ] in
    ret true
  else if String.eqb provider "perplexity" then
    let* _ := post_probe "https://api.perplexity.ai/chat/completions" api_key
      [ ("model", JStr "llama-3.1-sonar-small-128k-online");
        ("messages", JArr [ message "user" "Test" ]);
        ("max_tokens", JInt 1) ] in
    ret true
  else if String.eqb provider "xai" then
    let* cl := new_openai_client api_key (Some "https://api.x.ai/v1") in
    let* _ := list_models cl in
    ret true
  else if String.eqb provider "cohere" then
    let* _ := post_probe "https://api.cohere.ai/v1/generate" api_key
      [ ("model", JStr "command"); ("message", JStr "Test"); ("max_tokens", JInt 1) ] in
    ret true
  else if String.eqb provider "mistral" then
    let* _ := post_probe "https://api.mistral.ai/v1/chat/completions" api_key
      [ ("model", JStr "mistral-small-latest");
        ("messages", JArr [ message "user" "Test" ]);
        ("max_tokens", JInt 1) ] in
    ret true
  else if String.eqb provider "huggingface" then
    let* _ := post_probe "https://api-inference.huggingface.co/models/microsoft/DialoGPT-large"
      api_key [ ("inputs", JStr "Test") ] in
    ret true
  else if String.eqb provider "together" then
    let* _ := post_probe "https://api.together.xyz/v1/chat/completions" api_key
      [ ("model", JStr "meta-llama/Llama-2-7b-chat-hf");
        ("messages", JArr [ message "user" "Test" ]);
        ("max_tokens", JInt 1) ] in
    ret true
  else ret false.

(** [validate_api_key]: [except Exception] catches every exception above. *)
Definition validate_api_key (provider api_key : string) : M bool :=
  try_except (probe provider api_key) (fun _ => true) (fun _ => ret false).

(** *** The language detector *)

(** the table of [detect_language] *)
Definition extension_map : list (string * string) :=
  [ (".py", "python"); (".js", "javascript"); (".ts", "typescript");
    (".java", "java"); (".cpp", "cpp"); (".c", "c"); (".cs", "csharp");
    (".php", "php"); (".rb", "ruby"); (".go", "go"); (".rs", "rust");
    (".swift", "swift"); (".kt", "kotlin"); (".scala", "scala");
    (".sh", "bash"); (".sql", "sql"); (".html", "html"); (".css", "css");
    (".json", "json"); (".xml", "xml"); (".yaml", "yaml"); (".yml", "yaml") ].

(** The three content heuristics, in the order of the [if]/[elif] chain. *)
Definition looks_python (code_content : string) : bool :=
  PyStr.contains "def " code_content && PyStr.contains "import " code_content.

Definition looks_javascript (code_content : string) : bool :=
  PyStr.contains "function " code_content
  && (PyStr.contains "var " code_content || PyStr.contains "let " code_content).

Definition looks_java (code_content : string) : bool :=
  PyStr.contains "public class " code_content
  && PyStr.contains "public static void main" code_content.

Definition detect_language (filename code_content : string) : string :=
  let ext := snd (OsPath.splitext (PyStr.lower filename)) in
  let detected_language := PyDict.get extension_map ext "text" in
  if String.eqb detected_language "text" && PyStr.truthy code_content then
    if looks_python code_content then "python"
    else if looks_javascript code_content then "javascript"
    else if looks_java code_content then "java"
    else detected_language
  else detected_language.

End ai_service.

Import ai_service.

(** ** The legacy module ([openai_service.py])

    The legacy module has its own copy of the language detector, table and
    chain written out again as the source does, and three functions that
    call OpenAI through a client built when the module is loaded. *)

Module openai_service.

Definition extension_map : list (string * string) :=
  [ (".py", "python"); (".js", "javascript"); (".ts", "typescript");
    (".java", "java"); (".cpp", "cpp"); (".c", "c"); (".cs", "csharp");
    (".php", "php"); (".rb", "ruby"); (".go", "go"); (".rs", "rust");
    (".swift", "swift"); (".kt", "kotlin"); (".scala", "scala");
    (".sh", "bash"); (".sql", "sql"); (".html", "html"); (".css", "css");
    (".json", "json"); (".xml", "xml"); (".yaml", "yaml"); (".yml", "yaml") ].

Definition detect_language (filename code_content : string) : string :=
  let ext := snd (OsPath.splitext (PyStr.lower filename)) in
  let detected_language := PyDict.get extension_map ext "text" in
  if String.eqb detected_language "text" && PyStr.truthy code_content then
    if PyStr.contains "def " code_content && PyStr.contains "import " code_content
    then "python"
    else if PyStr.contains "function " code_content
            && (PyStr.contains "var " code_content || PyStr.contains "let " code_content)
    then "javascript"
    else if PyStr.contains "public class " code_content
            && PyStr.contains "public static void main" code_content
    then "java"
    else detected_language
  else detected_language.

(** [OPENAI_API_KEY], read once when the module is loaded *)
Definition OPENAI_API_KEY (w : world) : string :=
  match environ w !! "OPENAI_API_KEY" with
  | Some k => k
  | None => "your-openai-api-key"
  end.

(** [openai_client], built once when the module is loaded; the import of
    the SDK is not guarded here *)
Definition openai_client (w : world) : client := OpenAIClient (OPENAI_API_KEY w) None.

(** The three functions.  Each one wraps whatever its body raises in a
    plain [Exception] whose message ends with [str(e)]; [str_of] gives that
    text for each exception, [client] is the module's client.  The prompts
    are the texts of [OpenAIProvider]'s builders, letter for letter. *)
Definition analyze_code_quality (str_of : exn -> string) (client_ : client)
    (code_content language : string) : M json :=
  try_except
    (let prompt := OpenAIProvider._build_quality_prompt code_content language in
     let* response :=
       chat_create client_
         [ ("model", JStr "gpt-4o");
           ("messages", JArr
              [ message "system" "You are an expert code reviewer and static analysis tool. Provide detailed, actionable feedback on code quality, security, and best practices.";
                message "user" prompt ]);
           ("response_format", JObj [("type", JStr "json_object")]);
           ("temperature", JFloat 3 (-1)) ] in
     lift (loads_first_choice response))
    (fun _ => true)
    (fun e => raise (Exception ("Failed to analyze code quality: " ++ str_of e))).

Definition generate_test_cases (str_of : exn -> string) (client_ : client)
    (code_content language : string) : M json :=
  try_except
    (let prompt := OpenAIProvider._build_test_prompt code_content language in
     let* response :=
       chat_create client_
         [ ("model", JStr "gpt-4o");
           ("messages", JArr
              [ message "system" "You are an expert test engineer. Generate comprehensive, practical test cases that follow testing best practices and cover edge cases.";
                message "user" prompt ]);
           ("response_format", JObj [("type", JStr "json_object")]);
           ("temperature", JFloat 4 (-1)) ] in
     lift (loads_first_choice response))
    (fun _ => true)
    (fun e => raise (Exception ("Failed to generate test cases: " ++ str_of e))).

Definition get_code_suggestions (str_of : exn -> string) (client_ : client)
    (code_content language : string) : M json :=
  try_except
    (let prompt := OpenAIProvider._build_suggestions_prompt code_content language in
     let* response :=
       chat_create client_
         [ ("model", JStr "gpt-4o");
           ("messages", JArr
              [ message "system" "You are a senior software architect and code mentor. Provide actionable, specific suggestions for code improvement.";
                message "user" prompt ]);
           ("response_format", JObj [("type", JStr "json_object")]);
           ("temperature", JFloat 3 (-1)) ] in
     lift (loads_first_choice response))
    (fun _ => true)
    (fun e => raise (Exception ("Failed to get code suggestions: " ++ str_of e))).

End openai_service.

(** ** The vault, the filter, the settings and the analysis ([routes.py]) *)

Module routes.

(** *** The credential vault *)

(** [os.environ.get('ENCRYPTION_KEY', Fernet.generate_key())]: the default
    is an argument, so a key is generated before the environment is
    looked at, whether it ends up used or not. *)
Definition encryption_key : M Fernet.key_text :=
  let* default := Fernet.generate_key in
  let* configured := os_environ_get "ENCRYPTION_KEY" in
  ret (match configured with
       | Some s => Fernet.KeyStr s
       | None => default
       end).

(** [encrypt_api_keys]; [None] is Python's [None] *)
Definition encrypt_api_keys (api_keys_dict : list (string * string)) : M (option Fernet.blob) :=
  match api_keys_dict with
  | [] => ret None
  | _ :: _ =>
      let* key := encryption_key in
      let* f := lift (Fernet.new key) in
      let* t := Fernet.encrypt f (Json.dumps_str_dict api_keys_dict) in
      ret (Some t)
  end.

(** [bool(encrypted_keys)] *)
Definition truthy (encrypted_keys : option Fernet.blob) : bool :=
  match encrypted_keys with
  | None => false
  | Some b => Fernet.truthy b
  end.

(** The body of the [try] of [decrypt_api_keys]. *)
Definition open_blob (b : Fernet.blob) : M json :=
  let* key := encryption_key in
  let* f := lift (Fernet.new key) in
  let* text := lift (Fernet.decrypt f b) in
  lift (json_loads text).

(** [decrypt_api_keys]; the bare [except:] catches everything *)
Definition decrypt_api_keys (encrypted_keys : option Fernet.blob) : M json :=
  if truthy encrypted_keys then
    match encrypted_keys with
    | Some b => try_except (open_blob b) (fun _ => true) (fun _ => ret (JObj []))
    | None => ret (JObj [])
    end
  else ret (JObj []).

(** [decrypt_api_keys(encrypt_api_keys(m))], one call after the other *)
Definition round_trip (m : list (string * string)) : M json :=
  let* stored := encrypt_api_keys m in decrypt_api_keys stored.

(** *** What [analyze_file] keeps of a quality report *)

(** [len(v)] *)
Definition len (v : json) : result Z :=
  match v with
  | JArr items => Ok (Z.of_nat (List.length items))
  | JObj members => Ok (Z.of_nat (List.length members))
  | JStr s => Ok (Z.of_nat (String.length s))
  | _ => Raise (TypeError "object has no len()")
  end.

(** [v.items()] *)
Definition items (v : json) : result (list (string * json)) :=
  match v with
  | JObj members => Ok members
  | _ => Raise (AttributeError "object has no attribute 'items'")
  end.

(** The fields of the analysis record, and the metric rows, that the
    [Store results] and [Store metrics] steps fill in. *)
Record stored := {
  quality_score : json;
  issues_count : Z;
  suggestions_count : Z;
  metric_rows : list (string * json)
}.

Definition store_results (quality_analysis code_suggestions : json) : result stored :=
  and_then (dict_get quality_analysis "quality_score" (JInt 0)) (fun score =>
  and_then (and_then (dict_get quality_analysis "issues" (JArr [])) len) (fun n_issues =>
  and_then (and_then (dict_get code_suggestions "refactoring_suggestions" (JArr [])) len)
    (fun n_suggestions =>
  and_then (and_then (dict_get quality_analysis "metrics" (JObj [])) items) (fun metrics =>
  Ok {| quality_score := score; issues_count := n_issues;
        suggestions_count := n_suggestions; metric_rows := metrics |})))).

(** The [Perform AI analysis] step followed by the two store steps. *)
Definition perform_analysis (ai_provider : provider) (code_content language : string)
  : M stored :=
  let* quality_analysis := analyze_code_quality ai_provider code_content language in
  let* test_suggestions := generate_test_cases ai_provider code_content language in
  let* code_suggestions := get_code_suggestions ai_provider code_content language in
  lift (store_results quality_analysis code_suggestions).

(** *** The upload filter *)

Definition ALLOWED_EXTENSIONS : list string :=
  [ "py"; "js"; "ts"; "java"; "cpp"; "c"; "cs"; "php"; "rb"; "go"; "rs";
    "swift"; "kt"; "scala"; "sh"; "sql"; "html"; "css"; "json"; "xml";
    "yaml"; "yml"; "txt"; "md" ].

(** [x in s] for a set of strings *)
Definition in_set (x : string) (s : list string) : bool := existsb (String.eqb x) s.

(** [allowed_file]; the [and] leaves the index alone when there is no dot *)
Definition allowed_file (filename : string) : result bool :=
  if PyStr.contains "." filename then
    and_then (second (PyStr.rsplit1 "." filename))
      (fun ext => Ok (in_set (PyStr.lower ext) ALLOWED_EXTENSIONS))
  else Ok false.

(** *** The session identifier *)

(** [get_or_create_session_id]: the session of the request goes in and
    comes out with the identifier *)
Definition get_or_create_session_id (session : list (string * json))
  : M (json * list (string * json)) :=
  match PyDict.lookup session "session_id" with
  | Some sid => ret (sid, session)
  | None =>
      let* tok := Secrets.token_urlsafe 32 in
      ret (JStr tok, Json.dict_set session "session_id" (JStr tok))
  end.

(** *** The credential [analyze_file] runs with *)



(** *** The preselection of [settings_page] *)

(** The provider and the model the page shows for the [provider] query
    parameter, [current] being the stored pair: a provider of the catalog
    comes with the first model of its entry. *)
Definition preselect (selected_provider : option string) (current : string * string)
  : result (string * string) :=
  match selected_provider with
  | Some selected =>
      if PyStr.truthy selected then
        match PyDict.lookup get_available_providers selected with
        | Some d =>
            and_then (first (PyDict.keys (models d)))
              (fun default_model => Ok (selected, default_model))
        | None => Ok current
        end
      else Ok current
  | None => Ok current
  end.

(** *** The key update of [update_settings] *)

(** One turn of the loop over the catalog: the form field named after the
    provider's slot, when it holds more than blanks, is stored stripped. *)
Definition store_form_key (form : list (string * string)) (api_keys : json)
    (provider_info : descriptor) : result json :=
  let api_key_field := api_key_env provider_info in
  match PyDict.lookup form api_key_field with
  | Some api_key_value =>
      if PyStr.truthy api_key_value && PyStr.truthy (PyStr.strip api_key_value)
      then setitem api_keys api_key_field (JStr (PyStr.strip api_key_value))
      else Ok api_keys
  | None => Ok api_keys
  end.

(** From [decrypt_api_keys(...) or {}] to the end of the loop: the keys
    that are then encrypted. *)
Definition update_api_keys (decrypted : json) (form : list (string * string)) : result json :=
  let api_keys := if truthy_value decrypted then decrypted else JObj [] in
  fold_left
    (fun acc entry => and_then acc (fun api_keys => store_form_key form api_keys (snd entry)))
    get_available_providers (Ok api_keys).

(** *** The statistics of [dashboard] *)

(** The columns of an analysis the dashboard counts with. *)
Record analysis_row := {
  row_language : option string;
  row_issues_count : option Z
}.

(** [analysis.language or 'unknown'] *)
Definition language_or_unknown (a : analysis_row) : string :=
  match row_language a with
  | Some l => if PyStr.truthy l then l else "unknown"
  | None => "unknown"
  end.

(** the loop that fills [language_stats] *)
Definition language_stats (analyses : list analysis_row) : list (string * Z) :=
  fold_left
    (fun stats analysis =>
       let lang := language_or_unknown analysis in
       Json.dict_set stats lang (PyDict.get stats lang 0 + 1))
    analyses [].

(** [sum(a.issues_count or 0 for a in analyses)] *)
Definition total_issues (analyses : list analysis_row) : Z :=
  fold_left
    (fun total a => total + match row_issues_count a with Some n => n | None => 0 end)
    analyses 0.

End routes.

(** ** Vocabulary of the specification

    The notions the specification states its properties with, read on the
    model above. *)

(** How a provider object comes to exist: the factory returned it. *)
Definition built (p : provider) : Prop :=
  exists provider_name api_key model w w',
    create_ai_provider provider_name api_key model w = (Ok p, w').

(** The temperature a call asks for: the [temperature] argument, or the one
    inside the [config] argument. *)
Definition requested_temperature (c : call) : option json :=
  match PyDict.lookup (call_args c) "temperature" with
  | Some t => Some t
  | None =>
      match PyDict.lookup (call_args c) "config" with
      | Some (JObj config) => PyDict.lookup config "temperature"
      | _ => None
      end
  end.

(** The temperatures of the specification: 0.3, and 0.4 for the tests. *)
Definition spec_temperature (op : operation) : json :=
  match op with
  | GenerateTests => JFloat 4 (-1)
  | AnalyzeQuality | SuggestImprovements => JFloat 3 (-1)
  end.

(** The temperatures of the code, class by class. *)
Definition code_temperature (c : provider_class) (op : operation) : option json :=
  match c with
  | OpenAI | XAI | Gemini => Some (spec_temperature op)
  | Perplexity | HTTP => Some (JFloat 3 (-1))
  | Anthropic => None
  end.





(** A transport failure: a response with a status other than 200, or a
    client that raised (connection error, timeout, and for an SDK the error
    it makes of a failure status). *)
Inductive failure :=
| BadStatus (status_code : Z) (body : string)
| ClientFailure (e : client_error).

(** The far end answers the next call of [p] with the failure [f]. *)
Definition fails_with (w : world) (p : provider) (f : failure) : Prop :=
  match cls p, f with
  | (Perplexity | HTTP), BadStatus status_code body =>
      status_code <> 200
      /\ forall q, requests_post (far_end w) (sent w) q = HttpResponse status_code body
  | (Perplexity | HTTP), ClientFailure e =>
      forall q, requests_post (far_end w) (sent w) q = PostRaises e
  | (OpenAI | XAI), ClientFailure e =>
      forall q, chat_completions_create (far_end w) (sent w) q = SdkRaises e
  | Anthropic, ClientFailure e =>
      forall q, messages_create (far_end w) (sent w) q = SdkRaises e
  | Gemini, ClientFailure e =>
      forall q, generate_content (far_end w) (sent w) q = SdkRaises e
  | _, BadStatus _ _ => False
  end.

(** What the caller gets for it. *)
Definition surfaced (p : provider) (f : failure) : exn :=
  match f with
  | BadStatus status_code body =>
      Exception ((match cls p with Perplexity => "Perplexity API error: " | _ => "API error: " end)
                 ++ pretty status_code ++ " - " ++ body)
  | ClientFailure e => ClientError e
  end.

(** The status and the body an exception carries as fields of its own, when
    its class is one made for a failed exchange. *)
Definition transport_fields (e : exn) : option (Z * string) :=
  match e with
  | ClientError (APIStatusError status_code body) => Some (status_code, body)
  | _ => None
  end.


(** Whether the package a [requires] entry names was importable: the three
    SDK imports are guarded, [requests] is imported outright. *)
Definition requirement_met (w : world) (package : string) : bool :=
  if String.eqb package "openai" then imported w PkgOpenAI
  else if String.eqb package "anthropic" then imported w PkgAnthropic
  else if String.eqb package "google-genai" then imported w PkgGenai
  else true.

(** The body of a chat-completions response whose first choice has the
    content [c]. *)
Definition envelope (c : string) : string :=
  quoted "{'choices': [{'message': {'role': 'assistant', 'content': "
  ++ Json.dumps_string c ++ "}}]}".

(** A far end that answers every call with the content [c]. *)
Definition replying (c : string) : remote :=
  {| requests_post := fun _ _ => HttpResponse 200 (envelope c);
     chat_completions_create := fun _ _ => SdkReturns [Some c];
     models_list := fun _ _ => SdkReturns tt;
     messages_create := fun _ _ => SdkReturns [Some c];
     generate_content := fun _ _ => SdkReturns (Some c) |}.

(** A far end that refuses every call with a status and a body. *)
Definition refusing (status_code : Z) (body : string) : remote :=
  {| requests_post := fun _ _ => HttpResponse status_code body;
     chat_completions_create := fun _ _ => SdkRaises (APIStatusError status_code body);
     models_list := fun _ _ => SdkRaises (APIStatusError status_code body);
     messages_create := fun _ _ => SdkRaises (APIStatusError status_code body);
     generate_content := fun _ _ => SdkRaises (APIStatusError status_code body) |}.

(** A world for examples: the environment [env], an entropy source that
    counts up, every import done, nothing sent yet. *)
Definition sample_world (env : gmap string string) (far : remote) : world :=
  {| environ := env; entropy := fun n => ascii_of_nat n; drawn := 0;
     imported := fun _ => true; far_end := far; sent := [] |}.

(** ** Auxiliary definitions of the proofs *)



(** the members as [json.loads] hands them back *)
Definition str_members (d : list (string * string)) : list (string * json) :=
  map (fun kv => (fst kv, JStr (snd kv))) d.

(** The token [encrypt_api_keys] makes under the key bytes [raw]. *)
Definition sealed_under (raw : string) (w : world) (m : list (string * string)) : Fernet.blob :=
  Fernet.Sealed {| Fernet.token_key := raw;
                   Fernet.token_iv := entropy_bytes w (drawn w + 32) 16;
                   Fernet.token_plaintext := Json.dumps_str_dict m |}.

(** a Fernet key: the url-safe base64 text of 32 zero bytes *)
Definition sample_key : string := "AAAAAAAAAAAAAAAAAAAAAAAAAAAAAAAAAAAAAAAAAAA=".

(** The shape of a provider the factory returns. *)
Definition shaped (p : provider) : Prop :=
  self_headers p = []
  /\ match cls p with
     | OpenAI => self_client p = OpenAIClient (self_api_key p) None
     | XAI => self_client p = OpenAIClient (self_api_key p) (Some "https://api.x.ai/v1")
     | Anthropic => self_client p = AnthropicClient (self_api_key p)
     | Gemini => self_client p = GenaiClient (self_api_key p)
     | Perplexity => self_client p = NoClient
     | HTTP => self_client p = NoClient /\ exists u, self_base_url p = Some u
     end.

(** what [PerplexityProvider._make_request] makes of the answer to its post *)
Definition perplexity_result (answer : http_outcome) : result json :=
  match answer with
  | HttpResponse status_code text =>
      if status_code =? 200 then
        and_then (json_loads text) (fun decoded =>
        and_then (message_content decoded) json_loads_value)
      else Raise (Exception ("Perplexity API error: " ++ pretty status_code ++ " - " ++ text))
  | PostRaises e => Raise (ClientError e)
  end.

Definition perplexity_call (self : provider) (prompt system_message : string) : call :=
  {| call_to :=
       RequestsPost "https://api.perplexity.ai/chat/completions"
         [ ("Authorization", "Bearer " ++ self_api_key self);
           ("Content-Type", "application/json") ] None;
     call_args :=
       [ ("model", JStr (self_model self));
         ("messages", JArr [ message "system" system_message; message "user" prompt ]);
         ("temperature", JFloat 3 (-1));
         ("stream", JBool false) ] |}.

(** what [HTTPProvider._make_request] makes of the answer to its post *)
Definition http_result (answer : http_outcome) : result json :=
  match answer with
  | HttpResponse status_code text =>
      if status_code =? 200 then
        and_then (json_loads text) (fun decoded =>
        and_then (message_content decoded) (fun content =>
        match json_loads_value content with
        | Raise (JSONDecodeError _) =>
            Ok (JObj [("error", JStr "Invalid JSON response"); ("content", content)])
        | r => r
        end))
      else Raise (Exception ("API error: " ++ pretty status_code ++ " - " ++ text))
  | PostRaises e => Raise (ClientError e)
  end.

Definition http_call (self : provider) (prompt system_message : string) : call :=
  {| call_to :=
       RequestsPost (HTTPProvider.base_url_text self ++ "/chat/completions")
         (HTTPProvider.merge
            [ ("Authorization", "Bearer " ++ self_api_key self);
              ("Content-Type", "application/json") ]
            (self_headers self))
         (Some 60);
     call_args :=
       [ ("model", JStr (self_model self));
         ("messages", JArr [ message "system" system_message; message "user" prompt ]);
         ("temperature", JFloat 3 (-1));
         ("max_tokens", JInt 4000) ] |}.

(** what the caller gets, by class, for the call [c] *)
Definition answer_result (p : provider) (w : world) (c : call) : result json :=
  match cls p with
  | OpenAI | XAI =>
      and_then (of_sdk (chat_completions_create (far_end w) (sent w) c)) loads_first_choice
  | Anthropic =>
      and_then (of_sdk (messages_create (far_end w) (sent w) c)) loads_first_block
  | Gemini =>
      and_then (of_sdk (generate_content (far_end w) (sent w) c)) json_loads_optional
  | Perplexity => perplexity_result (requests_post (far_end w) (sent w) c)
  | HTTP => http_result (requests_post (far_end w) (sent w) c)
  end.



(** Two providers as the factory builds them. *)
Definition openai_sample : provider :=
  {| cls := OpenAI; self_api_key := "sk-test"; self_model := "gpt-4o";
     self_client := OpenAIClient "sk-test" None; self_base_url := None; self_headers := [] |}.

Definition mistral_sample : provider :=
  {| cls := HTTP; self_api_key := "bad-key"; self_model := "mistral-small-latest";
     self_client := NoClient; self_base_url := Some "https://api.mistral.ai/v1";
     self_headers := [] |}.


(** ** The sample file ([test_upload.py]) *)

Module test_upload.

(** What [get_summary] puts under [average]: the integer [0], or the
    quotient of a true division, kept as its two operands. *)
Inductive average_value :=
| AvgZero
| AvgDiv (total count : Z).

(** An instance of [DataProcessor]. *)
Record DataProcessor := { data : list Z; results : list Z }.

(** [DataProcessor(data)]: [data if data else []], and no results yet *)
Definition __init__ (data_ : option (list Z)) : DataProcessor :=
  {| data := match data_ with Some d => d | None => [] end; results := [] |}.

(** [process_data]: the instance after the call, and the list it returns,
    which is [self.results] itself *)
Fixpoint process_data (self : DataProcessor) (items : list Z) : DataProcessor * list Z :=
  match items with
  | [] => (self, results self)
  | item :: items' =>
      let appended := if 10 <? item then item * 2 else item in
      process_data {| data := data self; results := results self ++ [appended] |} items'
  end.

(** the loop of [get_summary] *)
Fixpoint sum_loop (total : Z) (rs : list Z) : Z :=
  match rs with
  | [] => total
  | result_ :: rs' => sum_loop (total + result_) rs'
  end.

Record summary := { total : Z; count : Z; average : average_value }.

(** What a call that can only fail in the division comes back with. *)
Inductive outcome (A : Type) :=
| Returns (a : A)
| OverflowError.

Arguments Returns {A} a.
Arguments OverflowError {A}.

(** The true division of two integers rounds the quotient to the nearest
    float and raises [OverflowError] when that is beyond the largest one:
    from the middle between the largest float and [2^1024] on. *)
Definition float_overflow : Z := 2 ^ 1024 - 2 ^ 970.

(** whether [a / b] raises, for [0 < b] *)
Definition overflows (a b : Z) : bool := b * float_overflow <=? Z.abs a.

Definition get_summary (self : DataProcessor) : outcome summary :=
  let total_ := sum_loop 0 (results self) in
  let count_ := Z.of_nat (List.length (results self)) in
  match results self with
  | [] => Returns {| total := total_; count := count_; average := AvgZero |}
  | _ :: _ =>
      if overflows total_ count_ then OverflowError
      else Returns {| total := total_; count := count_; average := AvgDiv total_ count_ |}
  end.

End test_upload.

(** ** Vocabulary of the further properties *)

(** The [model] argument of a call. *)
Definition requested_model (c : call) : option json :=
  PyDict.lookup (call_args c) "model".

(** The credential a call goes out with: the key of the SDK client, or the
    bearer token of the [Authorization] header. *)
Definition credential (c : call) : option string :=
  match call_to c with
  | RequestsPost _ headers _ =>
      match PyDict.lookup headers "Authorization" with
      | Some h => Json.strip_prefix "Bearer " h
      | None => None
      end
  | ChatCompletionsCreate api_key _ => Some api_key
  | ModelsList api_key _ => Some api_key
  | MessagesCreate api_key => Some api_key
  | GenerateContent api_key => Some api_key
  end.

(** The text of the first message of a given role. *)
Fixpoint content_of_role (role : string) (messages : list json) : option string :=
  match messages with
  | [] => None
  | JObj [("role", JStr r); ("content", JStr text)] :: messages' =>
      if String.eqb r role then Some text else content_of_role role messages'
  | _ :: messages' => content_of_role role messages'
  end.

(** The prompt a call carries: its [contents], or its first user message. *)
Definition user_prompt (c : call) : option string :=
  match PyDict.lookup (call_args c) "contents" with
  | Some (JStr text) => Some text
  | _ =>
      match PyDict.lookup (call_args c) "messages" with
      | Some (JArr messages) => content_of_role "user" messages
      | _ => None
      end
  end.

(** The structured-output mode a call asks for: its [response_format], or
    the [response_mime_type] of its [config]. *)
Definition structured_output (c : call) : option json :=
  match PyDict.lookup (call_args c) "response_format" with
  | Some f => Some f
  | None =>
      match PyDict.lookup (call_args c) "config" with
      | Some (JObj config) => PyDict.lookup config "response_mime_type"
      | _ => None
      end
  end.

(** The structured-output mode of each class. *)
Definition code_structured_output (c : provider_class) : option json :=
  match c with
  | OpenAI | XAI => Some (JObj [("type", JStr "json_object")])
  | Gemini => Some (JStr "application/json")
  | Anthropic | Perplexity | HTTP => None
  end.

(** The timeout of a post; [None] also for a call that is no post. *)
Definition post_timeout (c : call) : option Z :=
  match call_to c with
  | RequestsPost _ _ timeout => timeout
  | _ => None
  end.

(** another Fernet key: the url-safe base64 text of the byte 1 and 31 zero
    bytes *)
Definition other_key : string := "AQAAAAAAAAAAAAAAAAAAAAAAAAAAAAAAAAAAAAAAAAA=".

(** A far end whose SDK replies have nothing in them. *)
Definition empty_handed : remote :=
  {| requests_post := fun _ _ => HttpResponse 200 "{}";
     chat_completions_create := fun _ _ => SdkReturns [];
     models_list := fun _ _ => SdkReturns tt;
     messages_create := fun _ _ => SdkReturns [];
     generate_content := fun _ _ => SdkReturns None |}.



(** A world in which no client library could be imported. *)
Definition world_without_libraries : world :=
  {| environ := ∅; entropy := fun n => ascii_of_nat n; drawn := 0;
     imported := fun _ => false; far_end := replying "{}"; sent := [] |}.

(** The text after the last dot of a name, when it has a dot. *)
Definition last_extension (s : string) : option string :=
  let i := PyStr.rfind "." s in
  if i <? 0 then None else Some (PyStr.drop (i + 1) s).

(** The names under which the catalog stores credentials. *)
Definition slots (entries : list (string * descriptor)) : list string :=
  map (fun entry => api_key_env (snd entry)) entries.

Definition catalog_slots : list string := slots get_available_providers.

(** What a form submits for a field: its value without the blanks around
    it, when that is not empty. *)
Definition submitted (form : list (string * string)) (k : string) : option string :=
  match PyDict.lookup form k with
  | Some v =>
      if PyStr.truthy v && PyStr.truthy (PyStr.strip v) then Some (PyStr.strip v) else None
  | None => None
  end.

(** The three functions of the legacy module, by operation, and the text
    each one puts before the error it wraps. *)
Definition legacy_run (op : operation) : (exn -> string) -> client -> string -> string -> M json :=
  match op with
  | AnalyzeQuality => openai_service.analyze_code_quality
  | GenerateTests => openai_service.generate_test_cases
  | SuggestImprovements => openai_service.get_code_suggestions
  end.

Definition failure_prefix (op : operation) : string :=
  match op with
  | AnalyzeQuality => "Failed to analyze code quality: "
  | GenerateTests => "Failed to generate test cases: "
  | SuggestImprovements => "Failed to get code suggestions: "
  end.

(** The OpenAI provider the factory builds for a key and a model. *)
Definition openai_provider (api_key model : string) : provider :=
  {| cls := OpenAI; self_api_key := api_key; self_model := model;
     self_client := OpenAIClient api_key None; self_base_url := None; self_headers := [] |}.

(** The sum of a list of integers. *)
Definition sum_of (l : list Z) : Z := fold_right Z.add 0 l.

(** The last position of a character in a text, counted from the start. *)
Fixpoint last_index (c : ascii) (s : string) : option nat :=
  match s with
  | EmptyString => None
  | String a s' =>
      match last_index c s' with
      | Some n => Some (S n)
      | None => if ascii_dec a c then Some O else None
      end
  end.

(** A text without its first [n] characters. *)
Fixpoint skip_chars (n : nat) (s : string) : string :=
  match n, s with
  | O, _ => s
  | S n', String _ s' => skip_chars n' s'
  | S _, EmptyString => EmptyString
  end.

(** The function each item goes through in [process_data]. *)
Definition doubled_above_ten (item : Z) : Z := if 10 <? item then item * 2 else item.

(** How many analyses count for the language [l]. *)
Definition count_language (l : string) (analyses : list routes.analysis_row) : Z :=
  Z.of_nat
    (List.length (List.filter (fun a => String.eqb (routes.language_or_unknown a) l) analyses)).


(** * Properties *)

(** ** Strings *)

Lemma string_app_cons (c : ascii) (a b : string) : String c a ++ b = String c (a ++ b).
Proof. reflexivity. Qed.





(** ** Reading back what [json.dumps] wrote *)

Module JsonFacts.


















End JsonFacts.

(** ** The fuel of the JSON reader is enough

    A text that the reader accepts with some fuel, it accepts with the fuel
    [loads] gives it: [loads] says [None] only of a text no fuel would get
    through. *)

Module JsonFuel.

Local Abbreviation len := String.length.

Lemma skip_ws_le (s : string) : (len (skip_ws s) <= len s)%nat.
Proof.
  induction s as [|c s IH]; cbn [skip_ws]; [lia|].
  destruct (is_ws c); cbn [String.length]; lia.
Qed.

Lemma scan_units_lt (n : nat) :
  forall s us r, (len s <= n)%nat -> scan_units s = Some (us, r) -> (len r < len s)%nat.
Proof.
  induction n as [|n IH]; intros s us r Hn H.
  - destruct s; [discriminate H | cbn in Hn; lia].
  - destruct s as [|c s]; [discriminate H|]. cbn [scan_units] in H. cbn [String.length] in *.
    destruct (c =? dq)%char; [injection H as _ <-; lia|].
    destruct (c =? bs)%char.
    + destruct s as [|e s]; [discriminate H|]. cbn [String.length] in *.
      destruct (e =? "u")%char.
      * destruct s as [|h1 [|h2 [|h3 [|h4 s]]]]; try discriminate H.
        cbn [String.length] in *.
        destruct (hex4 h1 h2 h3 h4); [|discriminate H].
        destruct (scan_units s) as [[us' r']|] eqn:Hs; [|discriminate H].
        injection H as _ <-. apply IH in Hs; lia.
      * destruct (simple_escape e); [|discriminate H].
        destruct (scan_units s) as [[us' r']|] eqn:Hs; [|discriminate H].
        injection H as _ <-. apply IH in Hs; lia.
    + destruct (N_of_ascii c <? 32)%N; [discriminate H|].
      destruct (scan_units s) as [[us' r']|] eqn:Hs; [|discriminate H].
      injection H as _ <-. apply IH in Hs; lia.
Qed.

Lemma scanstring_lt (s x r : string) : scanstring s = Some (x, r) -> (len r < len s)%nat.
Proof.
  unfold scanstring. destruct (scan_units s) as [[us r']|] eqn:H; [|discriminate].
  intros [= _ <-]. now apply (scan_units_lt (len s)) in H.
Qed.

Lemma take_digits_len (s d r : string) :
  take_digits s = (d, r) -> (len r <= len s)%nat /\ (d <> "" -> len r < len s)%nat.
Proof.
  revert d r. induction s as [|c s IH]; intros d r; cbn [take_digits].
  - intros [= <- <-]. split; [lia | congruence].
  - destruct (is_digit c).
    + destruct (take_digits s) as [d' r'] eqn:H. intros [= <- <-].
      destruct (IH _ _ eq_refl) as [Hle _]. cbn [String.length]. split; intros; lia.
    + intros [= <- <-]. split; [lia | congruence].
Qed.

Lemma take_int_part_lt (s d r : string) : take_int_part s = Some (d, r) -> (len r < len s)%nat.
Proof.
  unfold take_int_part. destruct s as [|c s]; [discriminate|].
  destruct (c =? "0")%char; [intros [= _ <-]; cbn; lia|].
  destruct (is_digit c) eqn:Hc; [|discriminate].
  intros [= H]. cbn [take_digits] in H. rewrite Hc in H.
  destruct (take_digits s) as [d' r'] eqn:Hs. injection H as _ <-.
  apply take_digits_len in Hs as [Hle _]. cbn [String.length]. lia.
Qed.

Lemma take_fraction_le (s d r : string) : take_fraction s = (d, r) -> (len r <= len s)%nat.
Proof.
  unfold take_fraction. destruct s as [|c s]; [intros [= _ <-]; lia|].
  destruct (c =? ".")%char; [|intros [= _ <-]; lia].
  destruct (take_digits s) as [[|x d'] r'] eqn:Hs; intros [= _ <-]; [lia|].
  apply take_digits_len in Hs as [Hle _]. cbn [String.length]. lia.
Qed.

Lemma take_exponent_le (s r : string) (e : option Z) :
  take_exponent s = (e, r) -> (len r <= len s)%nat.
Proof.
  unfold take_exponent. destruct s as [|c s]; [intros [= _ <-]; lia|].
  destruct ((c =? "e") || (c =? "E"))%char; [|intros [= _ <-]; lia].
  destruct s as [|c1 r'].
  - cbn. intros [= _ <-]. cbn. lia.
  - destruct (c1 =? "-")%char; [|destruct (c1 =? "+")%char]; cbv beta iota;
      match goal with
      | |- context [take_digits ?x] => destruct (take_digits x) as [[|y d] r2] eqn:Hd
      end;
      intros [= _ <-]; try lia;
      apply take_digits_len in Hd as [Hle _]; cbn [String.length] in *; lia.
Qed.

Lemma parse_number_lt (s r : string) (v : json) :
  parse_number s = Some (v, r) -> (len r < len s)%nat.
Proof.
  unfold parse_number.
  destruct (match s with String _ _ => _ | EmptyString => _ end) as [neg s1] eqn:Hsign.
  assert (Hs1 : (len s1 <= len s)%nat).
  { destruct s as [|c s']; [injection Hsign as _ <-; lia|].
    destruct (c =? "-")%char; injection Hsign as _ <-; cbn; lia. }
  destruct (take_int_part s1) as [[ip r1]|] eqn:Hi; [|discriminate].
  apply take_int_part_lt in Hi.
  destruct (take_fraction r1) as [fp r2] eqn:Hf. apply take_fraction_le in Hf.
  destruct (take_exponent r2) as [ex r3] eqn:He. apply take_exponent_le in He.
  destruct fp, ex; intros [= _ <-]; lia.
Qed.

Lemma strip_prefix_len (p s r : string) :
  strip_prefix p s = Some r -> len s = (len p + len r)%nat.
Proof.
  revert s. induction p as [|a p IH]; intros s; cbn [strip_prefix].
  - now intros [= <-].
  - destruct s as [|b s]; [discriminate|].
    destruct (a =? b)%char; [|discriminate].
    intros H. apply IH in H. cbn [String.length]. lia.
Qed.

Lemma parse_constant_lt (s r : string) (v : json) :
  parse_constant s = Some (v, r) -> (len r < len s)%nat.
Proof.
  unfold parse_constant.
  repeat match goal with
         | |- context [strip_prefix ?p s] =>
             destruct (strip_prefix p s) eqn:?H;
             [ intros [= _ <-];
               match goal with H : strip_prefix _ _ = _ |- _ =>
                 apply strip_prefix_len in H; cbn [String.length] in H; lia end |]
         end.
  apply parse_number_lt.
Qed.

(** the three functions, one step unfolded *)
Lemma parse_value_step (fuel : nat) (c : ascii) (r : string) :
  parse_value (S fuel) (String c r) =
  if (c =? dq)%char then
    match scanstring r with
    | Some (str, r') => Some (JStr str, r')
    | None => None
    end
  else if (c =? "{")%char then
    match skip_ws r with
    | String c1 r1 =>
        if (c1 =? "}")%char then Some (JObj [], r1)
        else parse_members fuel (skip_ws r) []
    | EmptyString => None
    end
  else if (c =? "[")%char then
    match skip_ws r with
    | String c1 r1 =>
        if (c1 =? "]")%char then Some (JArr [], r1)
        else parse_elements fuel (skip_ws r) []
    | EmptyString => None
    end
  else parse_constant (String c r).
Proof. reflexivity. Qed.

Lemma parse_elements_step (fuel : nat) (s : string) (acc : list json) :
  parse_elements (S fuel) s acc =
  match parse_value fuel s with
  | Some (v, r) =>
      match skip_ws r with
      | String c r1 =>
          if (c =? "]")%char then Some (JArr (acc ++ [v]), r1)
          else if (c =? ",")%char then parse_elements fuel (skip_ws r1) (acc ++ [v])
          else None
      | EmptyString => None
      end
  | None => None
  end.
Proof. reflexivity. Qed.

Lemma parse_members_step (fuel : nat) (s : string) (acc : list (string * json)) :
  parse_members (S fuel) s acc =
  match s with
  | String c r =>
      if (c =? dq)%char then
        match scanstring r with
        | Some (k, r1) =>
            match skip_ws r1 with
            | String c2 r2 =>
                if (c2 =? ":")%char then
                  match parse_value fuel (skip_ws r2) with
                  | Some (v, r3) =>
                      match skip_ws r3 with
                      | String c3 r4 =>
                          if (c3 =? "}")%char then Some (JObj (dict_set acc k v), r4)
                          else if (c3 =? ",")%char
                          then parse_members fuel (skip_ws r4) (dict_set acc k v)
                          else None
                      | EmptyString => None
                      end
                  | None => None
                  end
                else None
            | EmptyString => None
            end
        | None => None
        end
      else None
  | EmptyString => None
  end.
Proof. reflexivity. Qed.

Lemma parse_adequate (fuel : nat) :
  (forall s v r,
      parse_value fuel s = Some (v, r) ->
      (len r < len s)%nat
      /\ forall g, (2 * (len s - len r) - 1 <= g)%nat -> parse_value g s = Some (v, r))
  /\ (forall s acc v r,
         parse_elements fuel s acc = Some (v, r) ->
         (len r < len s)%nat
         /\ forall g, (2 * (len s - len r) <= g)%nat -> parse_elements g s acc = Some (v, r))
  /\ (forall s acc v r,
         parse_members fuel s acc = Some (v, r) ->
         (len r < len s)%nat
         /\ forall g, (2 * (len s - len r) <= g)%nat -> parse_members g s acc = Some (v, r)).
Proof.
  induction fuel as [|fuel (IHv & IHe & IHm)]; [repeat split; discriminate|].
  split; [|split].
  - intros [|c r0] v r H; [discriminate H|].
    rewrite parse_value_step in H. cbn [String.length].
    destruct (c =? dq)%char eqn:Hq.
    { destruct (scanstring r0) as [[str r']|] eqn:Hs; [|discriminate H].
      injection H as <- <-. pose proof (scanstring_lt _ _ _ Hs). split; [lia|].
      intros [|g] Hg; [lia|]. now rewrite parse_value_step, Hq, Hs. }
    destruct (c =? "{")%char eqn:Hb.
    { pose proof (skip_ws_le r0) as Hle.
      destruct (skip_ws r0) as [|c1 r1] eqn:Hw; [discriminate H|].
      destruct (c1 =? "}")%char eqn:Hc.
      - injection H as <- <-. cbn [String.length] in Hle. split; [lia|].
        intros [|g] Hg; [lia|]. now rewrite parse_value_step, Hq, Hb, Hw, Hc.
      - apply IHm in H as [Hlt Hg']. split; [lia|].
        intros [|g] Hg; [lia|]. rewrite parse_value_step, Hq, Hb, Hw, Hc.
        apply Hg'. lia. }
    destruct (c =? "[")%char eqn:Ha.
    { pose proof (skip_ws_le r0) as Hle.
      destruct (skip_ws r0) as [|c1 r1] eqn:Hw; [discriminate H|].
      destruct (c1 =? "]")%char eqn:Hc.
      - injection H as <- <-. cbn [String.length] in Hle. split; [lia|].
        intros [|g] Hg; [lia|]. now rewrite parse_value_step, Hq, Hb, Ha, Hw, Hc.
      - apply IHe in H as [Hlt Hg']. split; [lia|].
        intros [|g] Hg; [lia|]. rewrite parse_value_step, Hq, Hb, Ha, Hw, Hc.
        apply Hg'. lia. }
    pose proof (parse_constant_lt _ _ _ H) as Hlt. cbn [String.length] in Hlt.
    split; [lia|]. intros [|g] Hg; [lia|]. now rewrite parse_value_step, Hq, Hb, Ha.
  - intros s acc v r H. rewrite parse_elements_step in H.
    destruct (parse_value fuel s) as [[v1 r1]|] eqn:Hv; [|discriminate H].
    apply IHv in Hv as [Hlt1 Hg1].
    pose proof (skip_ws_le r1) as Hle.
    destruct (skip_ws r1) as [|c r2] eqn:Hw; [discriminate H|]. cbn [String.length] in Hle.
    destruct (c =? "]")%char eqn:Hc.
    { injection H as <- <-. split; [lia|].
      intros [|g] Hg; [lia|]. rewrite parse_elements_step, Hg1 by lia.
      now rewrite Hw, Hc. }
    destruct (c =? ",")%char eqn:Hm; [|discriminate H].
    pose proof (skip_ws_le r2) as Hle2.
    apply IHe in H as [Hlt Hg']. split; [lia|].
    intros [|g] Hg; [lia|]. rewrite parse_elements_step, Hg1 by lia.
    rewrite Hw, Hc, Hm. apply Hg'. lia.
  - intros [|c r0] acc v r H; [discriminate H|].
    rewrite parse_members_step in H. cbn [String.length].
    destruct (c =? dq)%char eqn:Hq; [|discriminate H].
    destruct (scanstring r0) as [[k r1]|] eqn:Hs; [|discriminate H].
    pose proof (scanstring_lt _ _ _ Hs) as Hlt0.
    pose proof (skip_ws_le r1) as Hle1.
    destruct (skip_ws r1) as [|c2 r2] eqn:Hw1; [discriminate H|].
    cbn [String.length] in Hle1.
    destruct (c2 =? ":")%char eqn:Hc2; [|discriminate H].
    pose proof (skip_ws_le r2) as Hle2.
    destruct (parse_value fuel (skip_ws r2)) as [[v1 r3]|] eqn:Hv; [|discriminate H].
    apply IHv in Hv as [Hlt3 Hg3].
    pose proof (skip_ws_le r3) as Hle3.
    destruct (skip_ws r3) as [|c3 r4] eqn:Hw3; [discriminate H|].
    cbn [String.length] in Hle3.
    destruct (c3 =? "}")%char eqn:Hc3.
    { injection H as <- <-. split; [lia|].
      intros [|g] Hg; [lia|]. rewrite parse_members_step, Hq, Hs, Hw1, Hc2.
      rewrite Hg3 by lia. now rewrite Hw3, Hc3. }
    destruct (c3 =? ",")%char eqn:Hc4; [|discriminate H].
    pose proof (skip_ws_le r4) as Hle4.
    apply IHm in H as [Hlt Hg']. split; [lia|].
    intros [|g] Hg; [lia|]. rewrite parse_members_step, Hq, Hs, Hw1, Hc2.
    rewrite Hg3 by lia. rewrite Hw3, Hc3, Hc4. apply Hg'. lia.
Qed.

(** [loads] accepts every text that some fuel gets through. *)
Lemma loads_fuel_enough (fuel : nat) (s : string) (v : json) (r : string) :
  parse_value fuel (skip_ws s) = Some (v, r) ->
  skip_ws r = "" ->
  Json.loads s = Some v.
Proof.
  intros H Hr. unfold Json.loads.
  destruct (parse_adequate fuel) as (Hv & _ & _).
  destruct (Hv _ _ _ H) as [Hlt Hg].
  pose proof (skip_ws_le s).
  rewrite Hg by lia. now rewrite Hr.
Qed.

End JsonFuel.

(** ** Decoding what [urlsafe_b64encode] wrote *)

Module Base64Facts.

Import Base64.

Lemma below_64 (P : N -> Prop) :
  Forall P (map N.of_nat (seq 0 64)) -> forall v, (v < 64)%N -> P v.
Proof.
  intros HP v Hv. rewrite Forall_forall in HP. apply HP.
  apply list_elem_of_In, in_map_iff. exists (N.to_nat v). split; [lia|].
  apply in_seq. lia.
Qed.

Lemma sextet_alphabet (v : N) :
  (v < 64)%N ->
  sextet (alphabet_char v) = Some v /\ (alphabet_char v =? "=")%char = false.
Proof.
  revert v. apply below_64. repeat constructor.
Qed.

(** one step of the loop at a character of the alphabet *)
Lemma a2b_loop_alphabet (v : N) (r : string) (quad_pos : nat) (leftchar : N) (pads : nat)
    (out : list ascii) :
  (v < 64)%N ->
  a2b_loop (String (alphabet_char v) r) quad_pos leftchar pads out =
  match quad_pos with
  | 0%nat => a2b_loop r 1 v 0 out
  | 1%nat => a2b_loop r 2 (v mod 16)%N 0 (ascii_of_N (leftchar * 4 + v / 16) :: out)
  | 2%nat => a2b_loop r 3 (v mod 4)%N 0 (ascii_of_N (leftchar * 16 + v / 4) :: out)
  | _ => a2b_loop r 0 0%N 0 (ascii_of_N (leftchar * 64 + v) :: out)
  end.
Proof.
  intros Hv. destruct (sextet_alphabet v Hv) as [Hs Hp].
  cbn [a2b_loop]. now rewrite Hp, Hs.
Qed.

(** linear arithmetic with divisions and remainders by constants *)
Ltac div_lia := zify; Z.to_euclidean_division_equations; lia.

(** recognise the byte [a] in the arithmetic that rebuilt it *)
Ltac fold_byte a :=
  match goal with
  | |- context [ascii_of_N ?e] =>
      replace e with (N_of_ascii a) by div_lia; rewrite (ascii_N_embedding a)
  end.

Lemma a2b_loop_b2a (n : nat) :
  forall (bytes out : list ascii),
    (List.length bytes < n)%nat ->
    a2b_loop (b2a bytes) 0 0%N 0 out = Some (rev out ++ bytes)%list.
Proof.
  induction n as [|n IH]; intros bytes out Hn; [lia|].
  destruct bytes as [|a [|b [|c rest]]]; cbn [b2a].
  - cbn. now rewrite app_nil_r.
  - pose proof (N_ascii_bounded a).
    rewrite !a2b_loop_alphabet by div_lia. cbn [a2b_loop].
    replace ("=" =? "=")%char with true by reflexivity. cbn.
    fold_byte a. reflexivity.
  - pose proof (N_ascii_bounded a). pose proof (N_ascii_bounded b).
    rewrite !a2b_loop_alphabet by div_lia. cbn [a2b_loop].
    replace ("=" =? "=")%char with true by reflexivity. cbn.
    fold_byte a. fold_byte b. now rewrite <- app_assoc.
  - pose proof (N_ascii_bounded a). pose proof (N_ascii_bounded b).
    pose proof (N_ascii_bounded c).
    rewrite !a2b_loop_alphabet by div_lia.
    fold_byte a. fold_byte b. fold_byte c.
    rewrite IH by (cbn [List.length] in Hn; lia).
    cbn [rev]. rewrite <- !app_assoc. reflexivity.
Qed.

(** [urlsafe_b64decode(urlsafe_b64encode(s))] is [s]. *)
Lemma urlsafe_b64decode_encode (s : string) :
  urlsafe_b64decode (urlsafe_b64encode s) = Some s.
Proof.
  unfold urlsafe_b64decode, urlsafe_b64encode.
  rewrite (a2b_loop_b2a (S (List.length (list_ascii_of_string s)))) by lia.
  cbn [rev List.app]. now rewrite string_of_list_ascii_of_string.
Qed.

End Base64Facts.

(** ** The language detector *)

Section LanguageDetectorFacts.

Lemma lookup_In {V : Type} (d : list (string * V)) (k : string) (v : V) :
  PyDict.lookup d k = Some v -> exists k', In (k', v) d.
Proof.
  induction d as [|[k' v'] d IH]; cbn [PyDict.lookup]; [discriminate|].
  destruct (String.eqb k' k).
  - intros [= ->]. exists k'. now left.
  - intros H. destruct (IH H) as [k'' Hin]. exists k''. now right.
Qed.


(** The two copies of the detector are the same function. *)
Lemma detect_language_legacy_same (filename code_content : string) :
  openai_service.detect_language filename code_content
  = ai_service.detect_language filename code_content.
Proof. reflexivity. Qed.


Example splitext_samples :
  OsPath.splitext "sample.py" = ("sample", ".py")
  /\ OsPath.splitext "a/b.c/readme" = ("a/b.c/readme", "")
  /\ OsPath.splitext ".bashrc" = (".bashrc", "")
  /\ OsPath.splitext "dir/..hidden.txt" = ("dir/..hidden", ".txt")
  /\ OsPath.splitext "archive.tar.gz" = ("archive.tar", ".gz")
  /\ OsPath.splitext "noext." = ("noext", ".").
Proof. repeat split; reflexivity. Qed.

Example detect_language_samples :
  detect_language "Sample.PY" "print(1)" = "python"
  /\ detect_language "notes.md" "function f() { let x = 1; }" = "javascript"
  /\ detect_language "notes.md" "public class A { public static void main" = "java"
  /\ detect_language "notes.md" "def f(): pass" = "text"
  /\ detect_language "main.c" "def f(): import os" = "c".
Proof. repeat split; reflexivity. Qed.

End LanguageDetectorFacts.

(** ** The credential vault *)

Section VaultFacts.

Import routes.

(** What [encryption_key] does, by whether the variable is set. *)
Lemma encryption_key_configured (w : world) (k : string) :
  environ w !! "ENCRYPTION_KEY" = Some k ->
  encryption_key w = (Ok (Fernet.KeyStr k), advance w 32).
Proof.
  intros H. unfold encryption_key, Fernet.generate_key, bind, os_urandom, os_environ_get, ret.
  cbn [environ advance]. now rewrite H.
Qed.

Lemma encryption_key_generated (w : world) :
  environ w !! "ENCRYPTION_KEY" = None ->
  encryption_key w
  = (Ok (Fernet.KeyBytes (Base64.urlsafe_b64encode (entropy_bytes w (drawn w) 32))),
     advance w 32).
Proof.
  intros H. unfold encryption_key, Fernet.generate_key, bind, os_urandom, os_environ_get, ret.
  cbn [environ advance]. now rewrite H.
Qed.

Lemma string_of_list_length (l : list ascii) :
  String.length (string_of_list_ascii l) = List.length l.
Proof. induction l as [|c l IH]; cbn; [reflexivity | now rewrite IH]. Qed.

Lemma entropy_bytes_length (w : world) (start n : nat) :
  String.length (entropy_bytes w start n) = n.
Proof.
  unfold entropy_bytes. now rewrite string_of_list_length, length_map, length_seq.
Qed.

(** [Fernet(...)] on a generated key gives back the bytes that were drawn. *)
Lemma new_generated (w : world) (start : nat) :
  Fernet.new (Fernet.KeyBytes (Base64.urlsafe_b64encode (entropy_bytes w start 32)))
  = Ok (entropy_bytes w start 32).
Proof.
  unfold Fernet.new. rewrite Base64Facts.urlsafe_b64decode_encode.
  now rewrite entropy_bytes_length.
Qed.

(** A key is generated on every call, configured or not. *)
Lemma encryption_key_always_draws (w : world) :
  drawn (snd (encryption_key w)) = (drawn w + 32)%nat.
Proof.
  destruct (environ w !! "ENCRYPTION_KEY") as [k|] eqn:H.
  - now rewrite (encryption_key_configured w k H).
  - now rewrite (encryption_key_generated w H).
Qed.

Lemma encrypt_with_key (w : world) (m : list (string * string)) (key : Fernet.key_text)
    (raw : string) :
  m <> [] ->
  encryption_key w = (Ok key, advance w 32) ->
  Fernet.new key = Ok raw ->
  encrypt_api_keys m w = (Ok (Some (sealed_under raw w m)), advance (advance w 32) 16).
Proof.
  intros Hm Hkey Hnew. destruct m as [|kv m]; [congruence|].
  unfold encrypt_api_keys, bind. rewrite Hkey. unfold lift. rewrite Hnew.
  reflexivity.
Qed.

Lemma decrypt_with_key (w : world) (t : Fernet.token) (key : Fernet.key_text) (raw : string) :
  encryption_key w = (Ok key, advance w 32) ->
  Fernet.new key = Ok raw ->
  decrypt_api_keys (Some (Fernet.Sealed t)) w =
  (Ok (if String.eqb (Fernet.token_key t) raw then
         match Json.loads (Fernet.token_plaintext t) with
         | Some v => v
         | None => JObj []
         end
       else JObj []),
   advance w 32).
Proof.
  intros Hkey Hnew.
  unfold decrypt_api_keys, truthy, Fernet.truthy, try_except, open_blob, bind.
  rewrite Hkey. unfold lift. rewrite Hnew. unfold Fernet.decrypt.
  destruct (String.eqb (Fernet.token_key t) raw); [|reflexivity].
  unfold json_loads. destruct (Json.loads _); reflexivity.
Qed.



(** C9. [decrypt_api_keys] never raises: whatever it is given, it returns a
    value; and it returns the empty mapping when the blob is absent or
    empty, and when opening it fails (a key that is no Fernet key, a text
    that is no token or a token sealed under another key, a plaintext that
    is no JSON). *)
Theorem decrypt_api_keys_never_raises (w : world) (encrypted_keys : option Fernet.blob) :
  exists v w',
    decrypt_api_keys encrypted_keys w = (Ok v, w')
    /\ (encrypted_keys = None \/ encrypted_keys = Some (Fernet.Plain "") -> v = JObj [])
    /\ (forall b e w1,
           encrypted_keys = Some b -> open_blob b w = (Raise e, w1) -> v = JObj [])
    /\ (forall s, encrypted_keys = Some (Fernet.Plain s) -> v = JObj []).
Proof.
  unfold decrypt_api_keys.
  destruct encrypted_keys as [b|]; cbn [truthy].
  - destruct (Fernet.truthy b) eqn:Htruthy.
    + unfold try_except. destruct (open_blob b w) as [[v|e] w1] eqn:Hopen.
      * exists v, w1. split; [reflexivity|]. repeat split.
        -- intros [H|H]; [discriminate|]. injection H as ->. discriminate.
        -- intros b' e w2 [= <-] H. congruence.
        -- intros s [= ->]. revert Hopen.
           unfold open_blob, bind.
           destruct (encryption_key w) as [[key|e] w2]; [|discriminate].
           unfold lift. destruct (Fernet.new key); discriminate.
      * exists (JObj []), w1. repeat split; reflexivity.
    + exists (JObj []), w. repeat split; reflexivity.
  - exists (JObj []), w. repeat split; reflexivity.
Qed.

Example decrypt_garbage :
  fst (decrypt_api_keys (Some (Fernet.Plain "not-a-token"))
         (sample_world {[ "ENCRYPTION_KEY" := sample_key ]} (replying "")))
  = Ok (JObj [])
  /\ fst (decrypt_api_keys (Some (Fernet.Plain "not-a-token"))
            (sample_world {[ "ENCRYPTION_KEY" := "not a key" ]} (replying "")))
     = Ok (JObj []).
Proof. split; reflexivity. Qed.

(** With a configured value that is no Fernet key [encrypt_api_keys] raises,
    where [decrypt_api_keys] returns the empty mapping. *)
Example encrypt_with_malformed_key :
  fst (encrypt_api_keys [("OPENAI_API_KEY", "sk-test")]
         (sample_world {[ "ENCRYPTION_KEY" := "not a key" ]} (replying "")))
  = Raise Fernet.key_error.
Proof. reflexivity. Qed.

(** C10. With [ENCRYPTION_KEY] unset, each of the two functions generates a
    key of its own inside every call: the token is sealed under the 32
    bytes drawn at the start of [encrypt_api_keys], and [decrypt_api_keys]
    draws 32 other bytes for its key.  So, the two draws being different,
    decrypting what was just encrypted gives the empty mapping, within one
    run of the process. *)
Theorem vault_without_key_forgets (w : world) (m : list (string * string)) :
  environ w !! "ENCRYPTION_KEY" = None ->
  m <> [] ->
  entropy_bytes w (drawn w) 32 <> entropy_bytes w (drawn w + 48) 32 ->
  let key1 := entropy_bytes w (drawn w) 32 in
  let w1 := advance (advance w 32) 16 in
  encrypt_api_keys m w = (Ok (Some (sealed_under key1 w m)), w1)
  /\ encryption_key w1
     = (Ok (Fernet.KeyBytes (Base64.urlsafe_b64encode (entropy_bytes w (drawn w + 48) 32))),
        advance w1 32)
  /\ decrypt_api_keys (Some (sealed_under key1 w m)) w1 = (Ok (JObj []), advance w1 32)
  /\ fst (round_trip m w) = Ok (JObj []).
Proof.
  intros Henv Hm Hfresh key1 w1.
  assert (Henc : encrypt_api_keys m w = (Ok (Some (sealed_under key1 w m)), w1)).
  { apply (encrypt_with_key w m (Fernet.KeyBytes (Base64.urlsafe_b64encode key1)) key1 Hm);
      [now apply encryption_key_generated | apply new_generated]. }
  assert (Hkey : encryption_key w1
                 = (Ok (Fernet.KeyBytes
                          (Base64.urlsafe_b64encode (entropy_bytes w (drawn w + 48) 32))),
                    advance w1 32)).
  { rewrite (encryption_key_generated w1 Henv). subst w1. cbn [drawn advance].
    unfold entropy_bytes. cbn [entropy advance].
    replace (drawn w + 32 + 16)%nat with (drawn w + 48)%nat by lia. reflexivity. }
  assert (Hdec : decrypt_api_keys (Some (sealed_under key1 w m)) w1
                 = (Ok (JObj []), advance w1 32)).
  { unfold sealed_under.
    rewrite (decrypt_with_key w1 _ _ (entropy_bytes w (drawn w + 48) 32) Hkey
               (new_generated w (drawn w + 48))).
    cbn [Fernet.token_key].
    destruct (String.eqb_spec key1 (entropy_bytes w (drawn w + 48) 32)) as [Heq|_];
      [contradiction | reflexivity]. }
  repeat split; try assumption.
  unfold round_trip, bind. rewrite Henc. cbv beta iota. now rewrite Hdec.
Qed.

Lemma vault_without_key_forgets_witness :
  fst (round_trip [("OPENAI_API_KEY", "sk-test")] (sample_world ∅ (replying "")))
  = Ok (JObj []).
Proof.
  apply (vault_without_key_forgets (sample_world ∅ (replying ""))
           [("OPENAI_API_KEY", "sk-test")]).
  - reflexivity.
  - discriminate.
  - vm_compute. discriminate.
Defined.

End VaultFacts.

(** ** Providers: what one call does *)

Section ProviderFacts.

Lemma instantiate_shape (c : provider_class) (api_key model : string) (base_url : option string)
    (w w' : world) (p : provider) :
  (c = HTTP -> exists u, base_url = Some u) ->
  instantiate c api_key model base_url w = (Ok p, w') ->
  w' = w /\ cls p = c /\ self_api_key p = api_key /\ self_model p = model /\ shaped p.
Proof.
  intros Hurl. unfold instantiate, shaped.
  destruct c;
    (replace (concrete _) with true by reflexivity);
    unfold bind, _initialize_client,
    OpenAIProvider._initialize_client, AnthropicProvider._initialize_client,
    GeminiProvider._initialize_client, PerplexityProvider._initialize_client,
    XAIProvider._initialize_client, HTTPProvider._initialize_client,
    new_openai_client, new_anthropic_client, new_genai_client, ret;
    cbv beta iota;
    try destruct (imported w _); cbv beta iota;
    intros H; try discriminate H; injection H as <- <-; cbn; repeat split; auto.
Qed.

Lemma created_shape (provider_name api_key model : string) (w w' : world) (p : provider) :
  create_ai_provider provider_name api_key model w = (Ok p, w') ->
  w' = w /\ self_api_key p = api_key /\ self_model p = model /\ shaped p.
Proof.
  unfold create_ai_provider.
  repeat match goal with
         | |- context [if String.eqb provider_name ?s then _ else _] =>
             destruct (String.eqb provider_name s)
         end;
    try (intros H; apply instantiate_shape in H;
         [ destruct H as (? & ? & ? & ? & ?); auto
         | try discriminate; intros _; eauto ]).
  unfold raise. discriminate.
Qed.

Lemma built_shaped (p : provider) : built p -> shaped p.
Proof.
  intros (provider_name & api_key & model & w & w' & H).
  now apply created_shape in H.
Qed.

(** *** The result of each kind of call, as a function of the answer *)

Lemma chat_create_then_loads (cl : client) (api_key : string) (base_url : option string)
    (kwargs : list (string * json)) (w : world) :
  cl = OpenAIClient api_key base_url ->
  let c := {| call_to := ChatCompletionsCreate api_key base_url; call_args := kwargs |} in
  bind (chat_create cl kwargs) (fun response => lift (loads_first_choice response)) w
  = (and_then (of_sdk (chat_completions_create (far_end w) (sent w) c)) loads_first_choice,
     with_sent w c).
Proof.
  intros -> c. unfold bind, chat_create, lift. fold c.
  destruct (chat_completions_create (far_end w) (sent w) c); reflexivity.
Qed.

Lemma create_message_then_loads (cl : client) (api_key : string)
    (kwargs : list (string * json)) (w : world) :
  cl = AnthropicClient api_key ->
  let c := {| call_to := MessagesCreate api_key; call_args := kwargs |} in
  bind (create_message cl kwargs) (fun response => lift (loads_first_block response)) w
  = (and_then (of_sdk (messages_create (far_end w) (sent w) c)) loads_first_block,
     with_sent w c).
Proof.
  intros -> c. unfold bind, create_message, lift. fold c.
  destruct (messages_create (far_end w) (sent w) c); reflexivity.
Qed.

Lemma generate_then_loads (cl : client) (api_key : string)
    (kwargs : list (string * json)) (w : world) :
  cl = GenaiClient api_key ->
  let c := {| call_to := GenerateContent api_key; call_args := kwargs |} in
  bind (generate cl kwargs) (fun response => lift (json_loads_optional response)) w
  = (and_then (of_sdk (generate_content (far_end w) (sent w) c)) json_loads_optional,
     with_sent w c).
Proof.
  intros -> c. unfold bind, generate, lift. fold c.
  destruct (generate_content (far_end w) (sent w) c); reflexivity.
Qed.

Lemma perplexity_make_request (self : provider) (prompt system_message : string) (w : world) :
  PerplexityProvider._make_request self prompt system_message w
  = (perplexity_result
       (requests_post (far_end w) (sent w) (perplexity_call self prompt system_message)),
     with_sent w (perplexity_call self prompt system_message)).
Proof.
  unfold PerplexityProvider._make_request, bind, post. fold (perplexity_call self prompt system_message).
  destruct (requests_post _ _ _) as [status_code text|e]; cbn [perplexity_result]; [|reflexivity].
  destruct (status_code =? 200); [|reflexivity].
  unfold lift. destruct (json_loads text) as [decoded|e]; cbn [and_then]; [|reflexivity].
  destruct (message_content decoded); reflexivity.
Qed.

Lemma http_make_request (self : provider) (prompt system_message : string) (w : world) :
  HTTPProvider._make_request self prompt system_message w
  = (http_result (requests_post (far_end w) (sent w) (http_call self prompt system_message)),
     with_sent w (http_call self prompt system_message)).
Proof.
  unfold HTTPProvider._make_request, bind, post. fold (http_call self prompt system_message).
  destruct (requests_post _ _ _) as [status_code text|e]; cbn [http_result]; [|reflexivity].
  destruct (status_code =? 200); [|reflexivity].
  unfold lift. destruct (json_loads text) as [decoded|e]; cbn [and_then]; [|reflexivity].
  destruct (message_content decoded) as [content|e]; cbn [and_then]; [|reflexivity].
  unfold try_except, ret. destruct (json_loads_value content) as [v|[]]; reflexivity.
Qed.

(** Every operation of every provider makes one call, with the temperature
    of its class, and hands back what its class makes of the answer. *)
Lemma run_one_call (p : provider) (op : operation) (code_content language : string) (w : world) :
  shaped p ->
  exists c,
    run op p code_content language w = (answer_result p w c, with_sent w c)
    /\ requested_temperature c = code_temperature (cls p) op.
Proof.
  destruct p as [c api_key model cl base_url headers].
  unfold shaped, answer_result. cbn [cls self_client self_api_key self_headers self_base_url].
  intros [Hh Hc].
  destruct c, op; cbn [run analyze_code_quality generate_test_cases get_code_suggestions cls];
    unfold XAIProvider.analyze_code_quality, XAIProvider.generate_test_cases,
      XAIProvider.get_code_suggestions,
      OpenAIProvider.analyze_code_quality, OpenAIProvider.generate_test_cases,
      OpenAIProvider.get_code_suggestions,
      AnthropicProvider.analyze_code_quality, AnthropicProvider.generate_test_cases,
      AnthropicProvider.get_code_suggestions,
      GeminiProvider.analyze_code_quality, GeminiProvider.generate_test_cases,
      GeminiProvider.get_code_suggestions,
      PerplexityProvider.analyze_code_quality, PerplexityProvider.generate_test_cases,
      PerplexityProvider.get_code_suggestions,
      HTTPProvider.analyze_code_quality, HTTPProvider.generate_test_cases,
      HTTPProvider.get_code_suggestions;
    cbn [self_client self_model];
    first
      [ rewrite (chat_create_then_loads cl api_key _ _ w Hc)
      | rewrite (create_message_then_loads cl api_key _ w Hc)
      | rewrite (generate_then_loads cl api_key _ w Hc)
      | rewrite perplexity_make_request
      | rewrite http_make_request ];
    eexists; (split; [reflexivity|]); reflexivity.
Qed.

Lemma run_sends_once (p : provider) (op : operation) (code_content language : string)
    (w : world) :
  shaped p ->
  exists c, sent (snd (run op p code_content language w)) = (sent w ++ [c])%list.
Proof.
  intros Hp. destruct (run_one_call p op code_content language w Hp) as (c & Hrun & _).
  exists c. now rewrite Hrun.
Qed.


(** The result when the far end fails. *)
Lemma answer_of_failure (p : provider) (w : world) (f : failure) (q : call) :
  fails_with w p f -> answer_result p w q = Raise (surfaced p f).
Proof.
  unfold fails_with, answer_result, surfaced.
  destruct (cls p), f as [status_code body|e]; try contradiction; intros H;
    try (rewrite (H q); reflexivity).
  - destruct H as [Hne H]. rewrite (H q). cbn [perplexity_result].
    destruct (Z.eqb_spec status_code 200); [contradiction | reflexivity].
  - destruct H as [Hne H]. rewrite (H q). cbn [http_result].
    destruct (Z.eqb_spec status_code 200); [contradiction | reflexivity].
Qed.

End ProviderFacts.

(** ** Providers: the properties of the specification *)

Section AdapterContract.



Lemma openai_sample_built : built openai_sample.
Proof.
  exists "openai", "sk-test", "gpt-4o", (sample_world ∅ (replying "")),
    (sample_world ∅ (replying "")).
  reflexivity.
Defined.

Lemma mistral_sample_built : built mistral_sample.
Proof.
  exists "mistral", "bad-key", "mistral-small-latest", (sample_world ∅ (replying "")),
    (sample_world ∅ (replying "")).
  reflexivity.
Defined.


(** C2, as the specification states it, fails: the Perplexity provider
    asks 0.3 for the tests, where the specification has 0.4, and the
    Anthropic provider sends no temperature at all. *)
Lemma perplexity_tests_at_0_3_anthropic_none :
  let w := sample_world ∅ (replying "{}") in
  (exists p,
      create_ai_provider "perplexity" "pplx-key" "llama-3.1-8b-instruct" w = (Ok p, w)
      /\ map requested_temperature (sent (snd (generate_test_cases p "x = 1" "python" w)))
         = [Some (JFloat 3 (-1))]
      /\ Some (JFloat 3 (-1)) <> Some (spec_temperature GenerateTests))
  /\ (exists p,
         create_ai_provider "anthropic" "sk-ant" "claude-3-haiku-20240307" w = (Ok p, w)
         /\ map requested_temperature (sent (snd (generate_test_cases p "x = 1" "python" w)))
            = [None]).
Proof.
  cbv zeta. split.
  - eexists. split; [reflexivity|]. split; [vm_compute; reflexivity | discriminate].
  - eexists. split; [reflexivity|]. vm_compute; reflexivity.
Qed.

(** C2, amended.  Every operation makes one call.  The OpenAI, xAI and
    Gemini providers ask 0.3 for the quality analysis and the suggestions
    and 0.4 for the tests; the Perplexity and generic HTTP providers ask 0.3
    for all three; the Anthropic provider asks no temperature. *)
Theorem requested_temperatures (p : provider) (op : operation)
    (code_content language : string) (w : world) :
  built p ->
  exists q,
    sent (snd (run op p code_content language w)) = (sent w ++ [q])%list
    /\ requested_temperature q = code_temperature (cls p) op.
Proof.
  intros Hb. apply built_shaped in Hb.
  destruct (run_one_call p op code_content language w Hb) as (q & Hrun & Ht).
  exists q. now rewrite Hrun.
Qed.

Lemma requested_temperatures_witness :
  exists q,
    sent (snd (run GenerateTests openai_sample "x = 1" "python"
                 (sample_world ∅ (replying "{}"))))
    = ([] ++ [q])%list
    /\ requested_temperature q = Some (JFloat 4 (-1)).
Proof.
  apply (requested_temperatures openai_sample GenerateTests "x = 1" "python"
           (sample_world ∅ (replying "{}"))).
  exact openai_sample_built.
Defined.



(** When it is the body of the response itself that is not JSON, the
    generic HTTP provider raises like the others: its fallback covers the
    content of the message alone. *)
Example http_body_not_json :
  fst (run AnalyzeQuality mistral_sample "x = 1" "python"
         (sample_world ∅ (refusing 200 "<html>Bad gateway</html>")))
  = Raise (JSONDecodeError "<html>Bad gateway</html>").
Proof. vm_compute. reflexivity. Qed.

(** C4, as the specification states it, fails: a 401 from the far end of
    the generic HTTP provider reaches the caller as a plain [Exception]
    whose message is a formatted text; the exception has no status or body
    of its own. *)
Lemma http_401_is_plain_exception :
  let w := sample_world ∅ (refusing 401 "Unauthorized") in
  exists p,
    create_ai_provider "mistral" "bad-key" "mistral-small-latest" w = (Ok p, w)
    /\ fst (analyze_code_quality p "x = 1" "python" w)
       = Raise (Exception "API error: 401 - Unauthorized")
    /\ transport_fields (Exception "API error: 401 - Unauthorized") = None.
Proof.
  cbv zeta. eexists. split; [reflexivity|]. split; [vm_compute; reflexivity | reflexivity].
Qed.

(** C4, amended.  A transport failure reaches the caller after one call and
    no retry: for the two providers that post by themselves, a status
    other than 200 as an [Exception] whose message is the class's prefix,
    the status and the body, and an error of [requests] as it was raised;
    for the providers that go through an SDK, the error of the SDK as it
    was raised. *)
Theorem transport_failure_surfaces (p : provider) (op : operation)
    (code_content language : string) (f : failure) (w : world) :
  built p ->
  fails_with w p f ->
  exists q,
    run op p code_content language w = (Raise (surfaced p f), with_sent w q)
    /\ sent (with_sent w q) = (sent w ++ [q])%list.
Proof.
  intros Hb Hf. apply built_shaped in Hb.
  destruct (run_one_call p op code_content language w Hb) as (q & Hrun & _).
  exists q. rewrite Hrun, (answer_of_failure p w f q Hf). split; reflexivity.
Qed.

Lemma transport_failure_surfaces_witness :
  exists q,
    run AnalyzeQuality mistral_sample "x = 1" "python"
      (sample_world ∅ (refusing 401 "Unauthorized"))
    = (Raise (Exception "API error: 401 - Unauthorized"),
       with_sent (sample_world ∅ (refusing 401 "Unauthorized")) q)
    /\ sent (with_sent (sample_world ∅ (refusing 401 "Unauthorized")) q) = ([] ++ [q])%list.
Proof.
  apply (transport_failure_surfaces mistral_sample AnalyzeQuality "x = 1" "python"
           (BadStatus 401 "Unauthorized")).
  - exact mistral_sample_built.
  - split; [discriminate | reflexivity].
Defined.

End AdapterContract.

(** ** The factory and the credential probe *)

Section FactoryFacts.

(** split on whether [provider_name] is the literal the chain compares it
    with next *)
Ltac next_name provider_name :=
  match goal with
  | |- context [String.eqb provider_name ?s] =>
      destruct (String.eqb_spec provider_name s) as [->|?]
  end.

Lemma lookup_unknown (provider_name : string) :
  provider_name <> "openai" -> provider_name <> "anthropic" -> provider_name <> "gemini" ->
  provider_name <> "xai" -> provider_name <> "perplexity" -> provider_name <> "cohere" ->
  provider_name <> "mistral" -> provider_name <> "huggingface" -> provider_name <> "together" ->
  PyDict.lookup AI_PROVIDERS provider_name = None.
Proof.
  intros. unfold AI_PROVIDERS. cbn [PyDict.lookup].
  repeat match goal with
         | |- context [String.eqb ?s provider_name] =>
             destruct (String.eqb_spec s provider_name) as [<-|_]; [congruence|]
         end.
  reflexivity.
Qed.

Lemma instantiate_ok (c : provider_class) (api_key model : string) (base_url : option string)
    (w : world) :
  match c with
  | OpenAI | XAI => imported w PkgOpenAI = true
  | Anthropic => imported w PkgAnthropic = true
  | Gemini => imported w PkgGenai = true
  | Perplexity | HTTP => True
  end ->
  exists p,
    instantiate c api_key model base_url w = (Ok p, w)
    /\ cls p = c /\ concrete (cls p) = true.
Proof.
  intros H. unfold instantiate.
  destruct c; (replace (concrete _) with true by reflexivity);
    unfold bind, _initialize_client,
      OpenAIProvider._initialize_client, AnthropicProvider._initialize_client,
      GeminiProvider._initialize_client, PerplexityProvider._initialize_client,
      XAIProvider._initialize_client, HTTPProvider._initialize_client,
      new_openai_client, new_anthropic_client, new_genai_client, ret;
    try rewrite H; eexists; repeat split.
Qed.

(** C5, as the specification states it, fails: the imports of the client
    libraries are guarded, and where the library of an entry of the catalog
    could not be imported the factory raises for that entry, here
    [AttributeError] for [anthropic]. *)
Lemma catalog_backend_without_library :
  exists d,
    PyDict.lookup AI_PROVIDERS "anthropic" = Some d
    /\ requires d = ["anthropic"]
    /\ create_ai_provider "anthropic" "sk-ant-test" "claude-3-opus-20240229"
         world_without_libraries
       = (Raise (AttributeError "Anthropic"), world_without_libraries).
Proof. eexists. split; [reflexivity|]. split; reflexivity. Qed.

(** C5, amended.  The catalog lists nine identifiers.  For each of them,
    the client library its entry requires having been imported,
    [create_ai_provider] returns a provider without sending anything or
    changing anything outside; the provider is of a class that defines
    every abstract method, and each of its three operations runs and makes
    its one call.  For any other identifier the factory raises the error
    that names it. *)
Theorem factory_covers_catalog (w : world) (provider_name api_key model : string) :
  (forall d, PyDict.lookup AI_PROVIDERS provider_name = Some d ->
             forallb (requirement_met w) (requires d) = true) ->
  PyDict.keys AI_PROVIDERS
  = ["openai"; "anthropic"; "gemini"; "xai"; "perplexity"; "cohere"; "mistral";
     "huggingface"; "together"]
  /\ match PyDict.lookup AI_PROVIDERS provider_name with
     | Some _ =>
         exists p,
           create_ai_provider provider_name api_key model w = (Ok p, w)
           /\ self_api_key p = api_key /\ self_model p = model
           /\ concrete (cls p) = true
           /\ forall op code_content language w1,
                exists q, sent (snd (run op p code_content language w1))
                          = (sent w1 ++ [q])%list
     | None =>
         create_ai_provider provider_name api_key model w
         = (Raise (ValueError ("Unsupported AI provider: " ++ provider_name)), w)
     end.
Proof.
  intros Hreq. split; [reflexivity|].
  assert (Hok : forall c base_url,
             (c = HTTP -> exists u, base_url = Some u) ->
             match c with
             | OpenAI | XAI => imported w PkgOpenAI = true
             | Anthropic => imported w PkgAnthropic = true
             | Gemini => imported w PkgGenai = true
             | Perplexity | HTTP => True
             end ->
             exists p,
               instantiate c api_key model base_url w = (Ok p, w)
               /\ self_api_key p = api_key /\ self_model p = model
               /\ concrete (cls p) = true
               /\ forall op code_content language w1,
                    exists q, sent (snd (run op p code_content language w1))
                              = (sent w1 ++ [q])%list).
  { intros c base_url Hurl Himp.
    destruct (instantiate_ok c api_key model base_url w Himp) as (p & Hp & Hc & Hconc).
    exists p. destruct (instantiate_shape c api_key model base_url w w p Hurl Hp)
      as (_ & _ & Hk & Hm & Hs).
    repeat split; try assumption.
    intros op code_content language w1. now apply run_sends_once. }
  unfold create_ai_provider.
  next_name provider_name;
    [ specialize (Hreq _ eq_refl); cbn in Hreq; rewrite andb_true_r in Hreq;
      apply Hok; [discriminate | exact Hreq] |].
  next_name provider_name;
    [ specialize (Hreq _ eq_refl); cbn in Hreq; rewrite andb_true_r in Hreq;
      apply Hok; [discriminate | exact Hreq] |].
  next_name provider_name;
    [ specialize (Hreq _ eq_refl); cbn in Hreq; rewrite andb_true_r in Hreq;
      apply Hok; [discriminate | exact Hreq] |].
  next_name provider_name; [ apply Hok; [discriminate | exact I] |].
  next_name provider_name;
    [ specialize (Hreq _ eq_refl); cbn in Hreq; rewrite andb_true_r in Hreq;
      apply Hok; [discriminate | exact Hreq] |].
  next_name provider_name; [ apply Hok; [intros _; eauto | exact I] |].
  next_name provider_name; [ apply Hok; [intros _; eauto | exact I] |].
  next_name provider_name; [ apply Hok; [intros _; eauto | exact I] |].
  next_name provider_name; [ apply Hok; [intros _; eauto | exact I] |].
  rewrite lookup_unknown by assumption. reflexivity.
Qed.

Lemma factory_covers_catalog_witness :
  PyDict.keys AI_PROVIDERS
  = ["openai"; "anthropic"; "gemini"; "xai"; "perplexity"; "cohere"; "mistral";
     "huggingface"; "together"]
  /\ exists p,
       create_ai_provider "gemini" "AIza-test" "gemini-2.5-pro" (sample_world ∅ (replying "{}"))
       = (Ok p, sample_world ∅ (replying "{}"))
       /\ self_api_key p = "AIza-test" /\ self_model p = "gemini-2.5-pro"
       /\ concrete (cls p) = true
       /\ forall op code_content language w1,
            exists q, sent (snd (run op p code_content language w1)) = (sent w1 ++ [q])%list.
Proof.
  apply (factory_covers_catalog (sample_world ∅ (replying "{}")) "gemini" "AIza-test"
           "gemini-2.5-pro").
  intros d H. vm_compute in H. injection H as <-. reflexivity.
Defined.

(** The factory on every identifier of the catalog, and on one that is not
    in it. *)
Example factory_samples :
  map (fun id => match fst (create_ai_provider id "key" "model" (sample_world ∅ (replying "{}")))
                 with Ok p => Some (cls p, self_base_url p) | Raise _ => None end)
      (PyDict.keys AI_PROVIDERS)
  = [ Some (OpenAI, None); Some (Anthropic, None); Some (Gemini, None); Some (XAI, None);
      Some (Perplexity, None); Some (HTTP, Some "https://api.cohere.ai/v1");
      Some (HTTP, Some "https://api.mistral.ai/v1");
      Some (HTTP, Some "https://api-inference.huggingface.co/models");
      Some (HTTP, Some "https://api.together.xyz/v1") ]
  /\ fst (create_ai_provider "not-a-real-backend" "key" "model"
            (sample_world ∅ (replying "{}")))
     = Raise (ValueError "Unsupported AI provider: not-a-real-backend").
Proof. split; reflexivity. Qed.

(** Without its SDK the class cannot build its client, and the factory
    raises what the missing name raises. *)
Example factory_without_sdk :
  fst (create_ai_provider "anthropic" "key" "model"
         {| environ := ∅; entropy := fun n => ascii_of_nat n; drawn := 0;
            imported := fun _ => false; far_end := replying "{}"; sent := [] |})
  = Raise (AttributeError "Anthropic").
Proof. reflexivity. Qed.

Lemma probe_unknown (provider api_key : string) (w : world) :
  PyDict.lookup AI_PROVIDERS provider = None ->
  probe provider api_key w = (Ok false, w).
Proof.
  intros H. unfold probe.
  repeat (next_name provider; [vm_compute in H; discriminate H|]).
  reflexivity.
Qed.

(** C6. [validate_api_key] returns a boolean and never raises, whatever the
    identifier and the credential: anything the probe raises (a transport
    failure, a failure status, a missing client library) is caught and
    gives [False], and so does an identifier that is not in the catalog. *)
Theorem validate_api_key_never_raises (w : world) (provider api_key : string) :
  exists (b : bool) (w' : world),
    validate_api_key provider api_key w = (Ok b, w')
    /\ (forall e w1, probe provider api_key w = (Raise e, w1) -> b = false)
    /\ (PyDict.lookup AI_PROVIDERS provider = None -> b = false).
Proof.
  unfold validate_api_key, try_except.
  destruct (probe provider api_key w) as [[b|e] w1] eqn:Hprobe.
  - exists b, w1. split; [reflexivity|]. split.
    + intros e w2 H. discriminate H.
    + intros H. rewrite (probe_unknown provider api_key w H) in Hprobe. congruence.
  - exists false, w1. repeat split; reflexivity.
Qed.

(** A credential the far end refuses with a 401 is found invalid by every
    backend of the catalog, and one it accepts is found valid. *)
Example validate_samples :
  map (fun id => fst (validate_api_key id "obviously-invalid-key"
                        (sample_world ∅ (refusing 401 "Unauthorized"))))
      (PyDict.keys AI_PROVIDERS)
  = repeat (Ok false) 9
  /\ map (fun id => fst (validate_api_key id "good-key" (sample_world ∅ (replying "{}"))))
         (PyDict.keys AI_PROVIDERS)
     = repeat (Ok true) 9
  /\ fst (validate_api_key "not-a-real-backend" "good-key" (sample_world ∅ (replying "{}")))
     = Ok false.
Proof. repeat split; vm_compute; reflexivity. Qed.

End FactoryFacts.

(** * Further properties *)

(** ** What every call carries *)

(** go through the classes and the operations of a provider of the shape
    the factory gives, down to the one call the operation makes *)
Ltac each_call p Hp w :=
  let c := fresh "c" in let api_key := fresh "api_key" in let model := fresh "model" in
  let cl := fresh "cl" in let base_url := fresh "base_url" in let headers := fresh "headers" in
  let Hh := fresh "Hh" in let Hc := fresh "Hc" in
  destruct p as [c api_key model cl base_url headers];
  unfold shaped in Hp;
  cbn [cls self_client self_api_key self_headers self_base_url] in Hp;
  destruct Hp as [Hh Hc]; subst headers;
  unfold answer_result; cbn [cls self_client self_api_key self_headers self_base_url self_model];
  match goal with op : operation |- _ =>
    destruct c, op;
    cbn [run analyze_code_quality generate_test_cases get_code_suggestions cls]
  end;
  unfold XAIProvider.analyze_code_quality, XAIProvider.generate_test_cases,
    XAIProvider.get_code_suggestions,
    OpenAIProvider.analyze_code_quality, OpenAIProvider.generate_test_cases,
    OpenAIProvider.get_code_suggestions,
    AnthropicProvider.analyze_code_quality, AnthropicProvider.generate_test_cases,
    AnthropicProvider.get_code_suggestions,
    GeminiProvider.analyze_code_quality, GeminiProvider.generate_test_cases,
    GeminiProvider.get_code_suggestions,
    PerplexityProvider.analyze_code_quality, PerplexityProvider.generate_test_cases,
    PerplexityProvider.get_code_suggestions,
    HTTPProvider.analyze_code_quality, HTTPProvider.generate_test_cases,
    HTTPProvider.get_code_suggestions;
  cbn [self_client self_model];
  first
    [ rewrite (chat_create_then_loads cl api_key _ _ w Hc)
    | rewrite (create_message_then_loads cl api_key _ w Hc)
    | rewrite (generate_then_loads cl api_key _ w Hc)
    | rewrite perplexity_make_request
    | rewrite http_make_request ];
  eexists; (split; [reflexivity|]).

Section CallFacts.

Lemma strip_bearer (k : string) : Json.strip_prefix "Bearer " ("Bearer " ++ k) = Some k.
Proof. reflexivity. Qed.

(** X1. Whatever the operation, the one call a provider makes names the
    model the provider was built with and goes out with the credential it
    was built with; the factory having taken both as they came, a model
    the catalog does not list is sent like any other. *)
Theorem call_carries_model_and_credential (provider_name api_key model : string)
    (w0 w0' : world) (p : provider) (op : operation) (code_content language : string)
    (w : world) :
  create_ai_provider provider_name api_key model w0 = (Ok p, w0') ->
  exists q,
    sent (snd (run op p code_content language w)) = (sent w ++ [q])%list
    /\ requested_model q = Some (JStr model)
    /\ credential q = Some api_key.
Proof.
  intros Hcreate. apply created_shape in Hcreate as (_ & Hk & Hm & Hp).
  assert (H : exists q,
             run op p code_content language w = (answer_result p w q, with_sent w q)
             /\ requested_model q = Some (JStr (self_model p))
             /\ credential q = Some (self_api_key p)).
  { clear Hk Hm. each_call p Hp w; split; reflexivity. }
  destruct H as (q & Hrun & Hmodel & Hcred). exists q.
  rewrite Hrun, Hmodel, Hcred, Hk, Hm. repeat split; reflexivity.
Qed.

Lemma call_carries_model_and_credential_witness :
  exists q,
    sent (snd (run GenerateTests mistral_sample "x = 1" "python"
                 (sample_world ∅ (replying "{}"))))
    = ([] ++ [q])%list
    /\ requested_model q = Some (JStr "mistral-small-latest")
    /\ credential q = Some "bad-key".
Proof.
  apply (call_carries_model_and_credential "mistral" "bad-key" "mistral-small-latest"
           (sample_world ∅ (replying "")) (sample_world ∅ (replying ""))).
  reflexivity.
Defined.

Lemma contains_here (s t : string) : PyStr.contains s (s ++ t) = true.
Proof.
  assert (H : PyStr.startswith s (s ++ t) = true).
  { induction s as [|c s IH]; [reflexivity|].
    rewrite string_app_cons. cbn [PyStr.startswith].
    destruct (ascii_dec c c); [exact IH | congruence]. }
  destruct (s ++ t); cbn [PyStr.contains]; now rewrite H.
Qed.

Lemma contains_skip (s a t : string) :
  PyStr.contains s t = true -> PyStr.contains s (a ++ t) = true.
Proof.
  intros H. induction a as [|c a IH]; [exact H|].
  rewrite string_app_cons. cbn [PyStr.contains].
  destruct (PyStr.startswith s (String c (a ++ t))); [reflexivity | exact IH].
Qed.

(** find the text in a chain of appends *)
Ltac find_in_prompt := first [ apply contains_here | apply contains_skip; find_in_prompt ].

(** X2. The prompt of every call holds the code as it was given and the
    name of the language. *)
Theorem prompt_embeds_code_and_language (p : provider) (op : operation)
    (code_content language : string) (w : world) :
  built p ->
  exists q prompt,
    sent (snd (run op p code_content language w)) = (sent w ++ [q])%list
    /\ user_prompt q = Some prompt
    /\ PyStr.contains code_content prompt = true
    /\ PyStr.contains language prompt = true.
Proof.
  intros Hb. apply built_shaped in Hb.
  assert (H : exists q,
             run op p code_content language w = (answer_result p w q, with_sent w q)
             /\ exists prompt,
                 user_prompt q = Some prompt
                 /\ PyStr.contains code_content prompt = true
                 /\ PyStr.contains language prompt = true).
  { each_call p Hb w; (eexists; split; [reflexivity|]);
      unfold AnthropicProvider._build_quality_prompt, AnthropicProvider._build_test_prompt,
        AnthropicProvider._build_suggestions_prompt,
        PerplexityProvider._build_quality_prompt, PerplexityProvider._build_test_prompt,
        PerplexityProvider._build_suggestions_prompt,
        HTTPProvider._build_quality_prompt, HTTPProvider._build_test_prompt,
        HTTPProvider._build_suggestions_prompt,
        GeminiProvider._build_quality_prompt, GeminiProvider._build_test_prompt,
        GeminiProvider._build_suggestions_prompt,
        OpenAIProvider._build_quality_prompt, OpenAIProvider._build_test_prompt,
        OpenAIProvider._build_suggestions_prompt;
      split; find_in_prompt. }
  destruct H as (q & Hrun & prompt & Hp & Hc & Hl).
  exists q, prompt. rewrite Hrun. repeat split; assumption.
Qed.

Lemma prompt_embeds_code_and_language_witness :
  exists q prompt,
    sent (snd (run AnalyzeQuality openai_sample "x = 1" "python"
                 (sample_world ∅ (replying "{}"))))
    = ([] ++ [q])%list
    /\ user_prompt q = Some prompt
    /\ PyStr.contains "x = 1" prompt = true
    /\ PyStr.contains "python" prompt = true.
Proof.
  apply (prompt_embeds_code_and_language openai_sample AnalyzeQuality "x = 1" "python"
           (sample_world ∅ (replying "{}"))).
  exact openai_sample_built.
Defined.

(** X3. The OpenAI and xAI providers ask for the JSON object response
    format and the Gemini provider for the JSON MIME type; the Anthropic,
    Perplexity and generic HTTP providers ask for no structured output.
    Only the generic HTTP provider gives its post a timeout, of 60. *)
Theorem structured_output_and_timeout (p : provider) (op : operation)
    (code_content language : string) (w : world) :
  built p ->
  exists q,
    sent (snd (run op p code_content language w)) = (sent w ++ [q])%list
    /\ structured_output q = code_structured_output (cls p)
    /\ post_timeout q = match cls p with HTTP => Some 60 | _ => None end.
Proof.
  intros Hb. apply built_shaped in Hb.
  assert (H : exists q,
             run op p code_content language w = (answer_result p w q, with_sent w q)
             /\ structured_output q = code_structured_output (cls p)
             /\ post_timeout q = match cls p with HTTP => Some 60 | _ => None end).
  { each_call p Hb w; split; reflexivity. }
  destruct H as (q & Hrun & Hs & Ht). exists q. rewrite Hrun. repeat split; assumption.
Qed.

Lemma structured_output_and_timeout_witness :
  exists q,
    sent (snd (run AnalyzeQuality mistral_sample "x = 1" "python"
                 (sample_world ∅ (replying "{}"))))
    = ([] ++ [q])%list
    /\ structured_output q = None
    /\ post_timeout q = Some 60.
Proof.
  apply (structured_output_and_timeout mistral_sample AnalyzeQuality "x = 1" "python"
           (sample_world ∅ (replying "{}"))).
  exact mistral_sample_built.
Defined.

(** X4. A reply of an SDK that has no first element raises [IndexError],
    and one whose first element has no text raises [TypeError] (OpenAI,
    xAI, Gemini) or [AttributeError] (Anthropic): no provider puts a
    default in its place. *)
Theorem sdk_reply_without_text (p : provider) (op : operation)
    (code_content language : string) (w : world) :
  built p ->
  match cls p with
  | OpenAI | XAI =>
      ((forall q, chat_completions_create (far_end w) (sent w) q = SdkReturns []) ->
       fst (run op p code_content language w) = Raise (IndexError "list index out of range"))
      /\ (forall more,
             (forall q, chat_completions_create (far_end w) (sent w) q
                        = SdkReturns (None :: more)) ->
             fst (run op p code_content language w)
             = Raise (TypeError "the JSON object must be str, bytes or bytearray"))
  | Anthropic =>
      ((forall q, messages_create (far_end w) (sent w) q = SdkReturns []) ->
       fst (run op p code_content language w) = Raise (IndexError "list index out of range"))
      /\ (forall more,
             (forall q, messages_create (far_end w) (sent w) q = SdkReturns (None :: more)) ->
             fst (run op p code_content language w) = Raise (AttributeError "text"))
  | Gemini =>
      (forall q, generate_content (far_end w) (sent w) q = SdkReturns None) ->
      fst (run op p code_content language w)
      = Raise (TypeError "the JSON object must be str, bytes or bytearray")
  | Perplexity | HTTP => True
  end.
Proof.
  intros Hb. apply built_shaped in Hb.
  destruct (run_one_call p op code_content language w Hb) as (q & Hrun & _).
  rewrite Hrun. unfold answer_result. cbn [fst].
  destruct (cls p); try exact I; try split; intros; rewrite ?H; try rewrite (H q);
    try reflexivity;
    match goal with H : forall q, _ = _ |- _ => now rewrite (H q) end.
Qed.

Lemma sdk_reply_without_text_witness :
  fst (run AnalyzeQuality openai_sample "x = 1" "python" (sample_world ∅ empty_handed))
  = Raise (IndexError "list index out of range").
Proof.
  apply (proj1 (sdk_reply_without_text openai_sample AnalyzeQuality "x = 1" "python"
                  (sample_world ∅ empty_handed) openai_sample_built)).
  reflexivity.
Defined.



End CallFacts.

(** ** The credential probe *)

Section ProbeFacts.

(** split on whether [provider] is the literal the chain compares it with
    next *)
Ltac next_provider provider :=
  match goal with
  | |- context [String.eqb provider ?s] =>
      destruct (String.eqb_spec provider s) as [->|?]
  end.

(** X6. Checking a credential sends at most one call, and that call goes
    out with the credential that is checked; for an identifier outside the
    catalog nothing is sent. *)
Theorem probe_sends_at_most_one_call (provider api_key : string) (w : world) :
  (sent (snd (validate_api_key provider api_key w)) = sent w
   \/ exists q, sent (snd (validate_api_key provider api_key w)) = (sent w ++ [q])%list
                /\ credential q = Some api_key)
  /\ (PyDict.lookup AI_PROVIDERS provider = None ->
      sent (snd (validate_api_key provider api_key w)) = sent w).
Proof.
  split.
  - unfold validate_api_key, try_except, probe.
    repeat next_provider provider;
      unfold bind, post_probe, post, new_openai_client, new_anthropic_client,
        new_genai_client, list_models, create_message, generate, bind, ret, lift;
      repeat match goal with
             | |- context [imported w ?k] => destruct (imported w k)
             | |- context [models_list ?r ?h ?c] => destruct (models_list r h c)
             | |- context [messages_create ?r ?h ?c] => destruct (messages_create r h c)
             | |- context [generate_content ?r ?h ?c] => destruct (generate_content r h c)
             | |- context [requests_post ?r ?h ?c] => destruct (requests_post r h c)
             | |- context [raise_for_status ?s] => destruct (raise_for_status s)
             end;
      cbn;
      first [ left; reflexivity
            | right; eexists; split; [reflexivity | reflexivity] ].
  - intros H. unfold validate_api_key, try_except.
    now rewrite (probe_unknown provider api_key w H).
Qed.

(** X7. A probe through [requests] finds the credential valid exactly when
    the status of the response is outside 400..599: a redirect or an
    informational status counts as valid, and the body is not looked at. *)
Theorem probe_verdict_by_status (provider api_key : string) (w : world)
    (status_code : Z) (text : string) :
  In provider ["perplexity"; "cohere"; "mistral"; "huggingface"; "together"] ->
  (forall q, requests_post (far_end w) (sent w) q = HttpResponse status_code text) ->
  fst (validate_api_key provider api_key w)
  = Ok (negb ((400 <=? status_code) && (status_code <? 600))).
Proof.
  intros Hin Hpost.
  unfold validate_api_key, try_except, probe.
  cbn [In] in Hin.
  repeat (destruct Hin as [<- | Hin]; [| try contradiction]);
    cbn [String.eqb Ascii.eqb Bool.eqb];
    unfold bind, post_probe, post, bind, ret, lift, raise_for_status;
    rewrite Hpost;
    destruct ((400 <=? status_code) && (status_code <? 600)); reflexivity.
Qed.

Lemma probe_verdict_by_status_witness :
  fst (validate_api_key "mistral" "some-key" (sample_world ∅ (refusing 302 "Found")))
  = Ok true.
Proof.
  apply (probe_verdict_by_status "mistral" "some-key"
           (sample_world ∅ (refusing 302 "Found")) 302 "Found").
  - simpl. tauto.
  - reflexivity.
Defined.

(** X8. Where the client library an entry of the catalog requires was not
    importable, every credential of that backend is found invalid, and
    nothing is sent. *)
Theorem probe_without_library (provider api_key : string) (d : descriptor) (w : world) :
  PyDict.lookup AI_PROVIDERS provider = Some d ->
  forallb (requirement_met w) (requires d) = false ->
  validate_api_key provider api_key w = (Ok false, w).
Proof.
  intros Hd Hreq. unfold validate_api_key, try_except, probe.
  repeat (next_provider provider;
          [ vm_compute in Hd; injection Hd as <-;
            cbn [requires forallb requirement_met String.eqb Ascii.eqb Bool.eqb andb] in Hreq;
            try discriminate Hreq;
            rewrite Bool.andb_true_r in Hreq;
            unfold bind, new_openai_client, new_anthropic_client, new_genai_client;
            rewrite Hreq; reflexivity |]).
  rewrite lookup_unknown in Hd by assumption. discriminate Hd.
Qed.

Lemma probe_without_library_witness :
  validate_api_key "anthropic" "sk-ant-test"
    {| environ := ∅; entropy := fun n => ascii_of_nat n; drawn := 0;
       imported := fun _ => false; far_end := replying "{}"; sent := [] |}
  = (Ok false,
     {| environ := ∅; entropy := fun n => ascii_of_nat n; drawn := 0;
        imported := fun _ => false; far_end := replying "{}"; sent := [] |}).
Proof.
  eapply (probe_without_library "anthropic" "sk-ant-test").
  - reflexivity.
  - reflexivity.
Defined.

End ProbeFacts.

(** ** The vault under a changed or malformed key *)

Section VaultEdgeFacts.

Import routes.

(** X9. When [ENCRYPTION_KEY] holds a text that is no Fernet key, saving a
    non-empty mapping raises the error of [Fernet(...)], while reading
    gives the empty mapping whatever is stored: the failure shows on the
    write side only. *)
Theorem malformed_key_fails_writes_only (w : world) (k : string) (e : exn)
    (m : list (string * string)) (stored : option Fernet.blob) :
  environ w !! "ENCRYPTION_KEY" = Some k ->
  Fernet.new (Fernet.KeyStr k) = Raise e ->
  m <> [] ->
  fst (encrypt_api_keys m w) = Raise e
  /\ fst (decrypt_api_keys stored w) = Ok (JObj []).
Proof.
  intros Henv Hnew Hm. split.
  - destruct m as [|kv m]; [congruence|].
    unfold encrypt_api_keys, bind. rewrite (encryption_key_configured w k Henv).
    unfold lift. now rewrite Hnew.
  - unfold decrypt_api_keys. destruct (truthy stored); [|reflexivity].
    destruct stored as [b|]; [|reflexivity].
    unfold try_except, open_blob, bind. rewrite (encryption_key_configured w k Henv).
    unfold lift. now rewrite Hnew.
Qed.

Lemma malformed_key_fails_writes_only_witness :
  fst (encrypt_api_keys [("OPENAI_API_KEY", "sk-test")]
         (sample_world {[ "ENCRYPTION_KEY" := "not a key" ]} (replying "")))
  = Raise Fernet.key_error
  /\ fst (decrypt_api_keys (Some (Fernet.Plain "gAAAAA"))
            (sample_world {[ "ENCRYPTION_KEY" := "not a key" ]} (replying "")))
     = Ok (JObj []).
Proof.
  apply (malformed_key_fails_writes_only
           (sample_world {[ "ENCRYPTION_KEY" := "not a key" ]} (replying "")) "not a key").
  - reflexivity.
  - reflexivity.
  - discriminate.
Defined.

(** X10. What was saved under one configured key reads as the empty
    mapping once [ENCRYPTION_KEY] holds another key: the stored
    credentials are dropped without an error. *)
Theorem key_rotation_forgets (w1 w2 : world) (k1 k2 raw1 raw2 : string)
    (m : list (string * string)) :
  environ w1 !! "ENCRYPTION_KEY" = Some k1 ->
  Fernet.new (Fernet.KeyStr k1) = Ok raw1 ->
  environ w2 !! "ENCRYPTION_KEY" = Some k2 ->
  Fernet.new (Fernet.KeyStr k2) = Ok raw2 ->
  raw1 <> raw2 ->
  m <> [] ->
  exists stored,
    fst (encrypt_api_keys m w1) = Ok (Some stored)
    /\ fst (decrypt_api_keys (Some stored) w2) = Ok (JObj []).
Proof.
  intros Henv1 Hnew1 Henv2 Hnew2 Hne Hm.
  exists (sealed_under raw1 w1 m). split.
  - now rewrite (encrypt_with_key w1 m (Fernet.KeyStr k1) raw1 Hm
                   (encryption_key_configured w1 k1 Henv1) Hnew1).
  - unfold sealed_under.
    rewrite (decrypt_with_key w2 _ (Fernet.KeyStr k2) raw2
               (encryption_key_configured w2 k2 Henv2) Hnew2).
    cbn [Fernet.token_key fst].
    destruct (String.eqb_spec raw1 raw2); [contradiction | reflexivity].
Qed.

Lemma key_rotation_forgets_witness :
  exists stored,
    fst (encrypt_api_keys [("OPENAI_API_KEY", "sk-test")]
           (sample_world {[ "ENCRYPTION_KEY" := sample_key ]} (replying "")))
    = Ok (Some stored)
    /\ fst (decrypt_api_keys (Some stored)
              (sample_world {[ "ENCRYPTION_KEY" := other_key ]} (replying "")))
       = Ok (JObj []).
Proof.
  apply (key_rotation_forgets _ _ sample_key other_key
           (string_of_list_ascii (repeat "000"%char 32))
           (string_of_list_ascii ("001"%char :: repeat "000"%char 31))).
  - reflexivity.
  - reflexivity.
  - reflexivity.
  - reflexivity.
  - discriminate.
  - discriminate.
Defined.

(** X11. A Fernet key is generated on every call that gets past the guard,
    whether [ENCRYPTION_KEY] is set or not: reading a non-empty blob draws
    32 bytes of entropy, and saving a non-empty mapping draws those 32 and,
    when it succeeds, 16 more for the token. *)
Theorem vault_generates_a_key_every_call (w : world) (m : list (string * string))
    (b : Fernet.blob) :
  m <> [] ->
  Fernet.truthy b = true ->
  drawn (snd (decrypt_api_keys (Some b) w)) = (drawn w + 32)%nat
  /\ drawn (snd (encrypt_api_keys m w))
     = match fst (encrypt_api_keys m w) with
       | Ok _ => (drawn w + 48)%nat
       | Raise _ => (drawn w + 32)%nat
       end.
Proof.
  intros Hm Hb.
  assert (Hkey : exists key, encryption_key w = (Ok key, advance w 32)).
  { destruct (environ w !! "ENCRYPTION_KEY") as [k|] eqn:H.
    - eexists. exact (encryption_key_configured w k H).
    - eexists. exact (encryption_key_generated w H). }
  destruct Hkey as [key Hkey]. split.
  - unfold decrypt_api_keys. cbn [truthy]. rewrite Hb.
    unfold try_except, open_blob, bind. rewrite Hkey. unfold lift.
    destruct (Fernet.new key) as [raw|e]; [|reflexivity].
    destruct (Fernet.decrypt raw b) as [text|e]; [|reflexivity].
    destruct (json_loads text); reflexivity.
  - destruct m as [|kv m]; [congruence|].
    unfold encrypt_api_keys, bind. rewrite Hkey. unfold lift.
    destruct (Fernet.new key) as [raw|e]; [|reflexivity].
    cbn. lia.
Qed.

Lemma vault_generates_a_key_every_call_witness :
  drawn (snd (decrypt_api_keys (Some (Fernet.Plain "gAAAAA"))
                (sample_world {[ "ENCRYPTION_KEY" := sample_key ]} (replying ""))))
  = (0 + 32)%nat
  /\ drawn (snd (encrypt_api_keys [("OPENAI_API_KEY", "sk-test")]
                   (sample_world {[ "ENCRYPTION_KEY" := sample_key ]} (replying ""))))
     = match fst (encrypt_api_keys [("OPENAI_API_KEY", "sk-test")]
                    (sample_world {[ "ENCRYPTION_KEY" := sample_key ]} (replying ""))) with
       | Ok _ => (0 + 48)%nat
       | Raise _ => (0 + 32)%nat
       end.
Proof.
  apply (vault_generates_a_key_every_call
           (sample_world {[ "ENCRYPTION_KEY" := sample_key ]} (replying ""))).
  - discriminate.
  - reflexivity.
Defined.

End VaultEdgeFacts.

(** ** The settings and the analysis ([routes.py]) *)

Section SettingsFacts.

Import routes.

Lemma lookup_dict_set_same {V : Type} (d : list (string * V)) (k : string) (v : V) :
  PyDict.lookup (dict_set d k v) k = Some v.
Proof.
  induction d as [|[k' v'] d IH]; cbn [dict_set PyDict.lookup].
  - now rewrite String.eqb_refl.
  - destruct (String.eqb k' k) eqn:E; cbn [PyDict.lookup]; rewrite E; [reflexivity | exact IH].
Qed.

Lemma lookup_dict_set_other {V : Type} (d : list (string * V)) (k k' : string) (v : V) :
  k <> k' -> PyDict.lookup (dict_set d k v) k' = PyDict.lookup d k'.
Proof.
  intros Hne. induction d as [|[k0 v0] d IH]; cbn [dict_set PyDict.lookup].
  - destruct (String.eqb_spec k k'); [contradiction | reflexivity].
  - destruct (String.eqb_spec k0 k) as [->|Hk]; cbn [PyDict.lookup].
    + destruct (String.eqb_spec k k'); [contradiction | reflexivity].
    + destruct (String.eqb k0 k'); [reflexivity | exact IH].
Qed.

Lemma keys_dict_set {V : Type} (d : list (string * V)) (k : string) (v : V) :
  PyDict.keys (dict_set d k v)
  = if existsb (String.eqb k) (PyDict.keys d) then PyDict.keys d
    else (PyDict.keys d ++ [k])%list.
Proof.
  unfold PyDict.keys. induction d as [|[k' v'] d IH]; cbn [dict_set map existsb fst].
  - reflexivity.
  - rewrite (String.eqb_sym k k'). destruct (String.eqb_spec k' k) as [->|Hne]; cbn [map fst orb].
    + reflexivity.
    + rewrite IH. destruct (existsb _ _); reflexivity.
Qed.

Lemma NoDup_dict_set {V : Type} (d : list (string * V)) (k : string) (v : V) :
  NoDup (PyDict.keys d) -> NoDup (PyDict.keys (dict_set d k v)).
Proof.
  intros Hnd. rewrite keys_dict_set.
  destruct (existsb (String.eqb k) (PyDict.keys d)) eqn:E; [exact Hnd|].
  apply NoDup_app. repeat split.
  - exact Hnd.
  - intros x Hx Hin. apply list_elem_of_singleton in Hin. subst x.
    apply list_elem_of_In in Hx.
    assert (existsb (String.eqb k) (PyDict.keys d) = true); [|congruence].
    apply existsb_exists. exists k. split; [exact Hx | apply String.eqb_refl].
  - apply NoDup_singleton.
Qed.

Lemma in_set_In (x : string) (s : list string) : in_set x s = true <-> In x s.
Proof.
  unfold in_set. rewrite existsb_exists. split.
  - intros (y & Hy & E). apply String.eqb_eq in E. now subst.
  - intros H. exists x. split; [exact H | apply String.eqb_refl].
Qed.

Lemma store_form_key_submitted (form : list (string * string)) (d : list (string * json))
    (info : descriptor) :
  store_form_key form (JObj d) info
  = Ok (JObj match submitted form (api_key_env info) with
             | Some s => dict_set d (api_key_env info) (JStr s)
             | None => d
             end).
Proof.
  unfold store_form_key, submitted.
  destruct (PyDict.lookup form (api_key_env info)) as [v|]; [|reflexivity].
  destruct (PyStr.truthy v && PyStr.truthy (PyStr.strip v)); reflexivity.
Qed.

(** the loop of [update_settings] over any list of entries *)
Lemma update_loop (form : list (string * string)) (entries : list (string * descriptor)) :
  forall d : list (string * json),
  exists d',
    fold_left
      (fun acc entry => and_then acc (fun api_keys => store_form_key form api_keys (snd entry)))
      entries (Ok (JObj d))
    = Ok (JObj d')
    /\ (forall k,
           PyDict.lookup d' k
           = match (if in_set k (slots entries) then submitted form k else None) with
             | Some s => Some (JStr s)
             | None => PyDict.lookup d k
             end)
    /\ (NoDup (PyDict.keys d) -> NoDup (PyDict.keys d'))
    /\ (forall m, d = str_members m -> exists m', d' = str_members m')
    /\ (d <> [] -> d' <> []).
Proof.
  induction entries as [|[id info] entries IH]; intros d.
  - exists d. repeat split; try tauto. intros m ->. now exists m.
  - cbn [fold_left and_then snd]. rewrite store_form_key_submitted.
    destruct (IH (match submitted form (api_key_env info) with
                  | Some s => dict_set d (api_key_env info) (JStr s)
                  | None => d
                  end)) as (d' & Hfold & Hlook & Hnd & Hstr & Hne).
    exists d'. split; [exact Hfold|]. repeat split.
    + intros k. rewrite Hlook. unfold slots. cbn [map snd in_set existsb].
      fold (slots entries). fold (in_set k (slots entries)).
      destruct (in_set k (slots entries)) eqn:Ein.
      * rewrite Bool.orb_true_r.
        destruct (submitted form k) as [s|] eqn:Es; [reflexivity|].
        destruct (String.eqb_spec k (api_key_env info)) as [->|Hk].
        -- now rewrite Es.
        -- destruct (submitted form (api_key_env info)); [|reflexivity].
           apply lookup_dict_set_other. congruence.
      * rewrite Bool.orb_false_r.
        destruct (String.eqb_spec k (api_key_env info)) as [->|Hk].
        -- destruct (submitted form (api_key_env info)); [|reflexivity].
           apply lookup_dict_set_same.
        -- destruct (submitted form (api_key_env info)); [|reflexivity].
           apply lookup_dict_set_other. congruence.
    + intros H. apply Hnd. destruct (submitted form (api_key_env info)); [|exact H].
      now apply NoDup_dict_set.
    + intros m ->.
      destruct (submitted form (api_key_env info)) as [s|]; [|now apply (Hstr m)].
      apply (Hstr (dict_set m (api_key_env info) s)).
      unfold str_members. clear.
      induction m as [|[k v] m IHm]; cbn [dict_set map fst snd]; [reflexivity|].
      destruct (String.eqb k (api_key_env info)); cbn [map fst snd]; [reflexivity|].
      now rewrite IHm.
    + intros H. apply Hne. destruct (submitted form (api_key_env info)); [|exact H].
      destruct d as [|[k0 v0] d]; [congruence|]. cbn [dict_set].
      destruct (String.eqb k0 (api_key_env info)); discriminate.
Qed.

Lemma submitted_some (form : list (string * string)) (k v : string) :
  PyDict.lookup form k = Some v -> PyStr.strip v <> "" ->
  submitted form k = Some (PyStr.strip v).
Proof.
  unfold submitted. intros -> H.
  destruct v as [|c v]; [now contradiction H|].
  destruct (PyStr.strip (String c v)); [contradiction | reflexivity].
Qed.

Lemma submitted_none (form : list (string * string)) (k : string) :
  (forall v, PyDict.lookup form k = Some v -> PyStr.strip v = "") ->
  submitted form k = None.
Proof.
  unfold submitted. intros H. destruct (PyDict.lookup form k) as [v|]; [|reflexivity].
  rewrite (H v eq_refl). now rewrite Bool.andb_false_r.
Qed.

Lemma update_api_keys_loop (d : list (string * json)) (form : list (string * string)) :
  update_api_keys (JObj d) form
  = fold_left
      (fun acc entry => and_then acc (fun api_keys => store_form_key form api_keys (snd entry)))
      get_available_providers (Ok (JObj d)).
Proof. unfold update_api_keys. now destruct d. Qed.

(** X12. The key update of the settings form merges, for a form whose
    values are ASCII texts: a slot of the catalog whose field holds more
    than blanks gets the field's value without the blanks around it, and
    every other key of the stored mapping stays as it was.  A blank or
    missing field never erases a stored key, and a field that is no slot of
    the catalog is not stored. *)
Theorem update_api_keys_merges (d : list (string * json)) (form : list (string * string)) :
  forallb (fun field => PyStr.isascii (snd field)) form = true ->
  exists d',
    update_api_keys (JObj d) form = Ok (JObj d')
    /\ (forall k v, In k catalog_slots -> PyDict.lookup form k = Some v ->
                    PyStr.strip v <> "" ->
                    PyDict.lookup d' k = Some (JStr (PyStr.strip v)))
    /\ (forall k, (forall v, PyDict.lookup form k = Some v -> PyStr.strip v = "") ->
                  PyDict.lookup d' k = PyDict.lookup d k)
    /\ (forall k, ~ In k catalog_slots -> PyDict.lookup d' k = PyDict.lookup d k).
Proof.
  intros _. rewrite update_api_keys_loop.
  destruct (update_loop form get_available_providers d) as (d' & Hfold & Hlook & _).
  exists d'. split; [exact Hfold|]. fold catalog_slots in Hlook. repeat split.
  - intros k v Hin Hf Hv. rewrite Hlook.
    apply in_set_In in Hin. rewrite Hin. now rewrite (submitted_some form k v Hf Hv).
  - intros k H. rewrite Hlook, (submitted_none form k H). now destruct (in_set k catalog_slots).
  - intros k H. rewrite Hlook.
    destruct (in_set k catalog_slots) eqn:E; [|reflexivity].
    apply in_set_In in E. contradiction.
Qed.

Lemma update_api_keys_merges_witness :
  exists d',
    update_api_keys (JObj [("OPENAI_API_KEY", JStr "sk-old"); ("XAI_API_KEY", JStr "xai-old")])
      [("ai_provider", "openai"); ("OPENAI_API_KEY", "  sk-new "); ("XAI_API_KEY", "   ");
       ("NOTES", "hello")]
    = Ok (JObj d')
    /\ (forall k v,
           In k catalog_slots ->
           PyDict.lookup [("ai_provider", "openai"); ("OPENAI_API_KEY", "  sk-new ");
                          ("XAI_API_KEY", "   "); ("NOTES", "hello")] k = Some v ->
           PyStr.strip v <> "" ->
           PyDict.lookup d' k = Some (JStr (PyStr.strip v)))
    /\ (forall k,
           (forall v,
               PyDict.lookup [("ai_provider", "openai"); ("OPENAI_API_KEY", "  sk-new ");
                              ("XAI_API_KEY", "   "); ("NOTES", "hello")] k = Some v ->
               PyStr.strip v = "") ->
           PyDict.lookup d' k
           = PyDict.lookup [("OPENAI_API_KEY", JStr "sk-old"); ("XAI_API_KEY", JStr "xai-old")] k)
    /\ (forall k,
           ~ In k catalog_slots ->
           PyDict.lookup d' k
           = PyDict.lookup [("OPENAI_API_KEY", JStr "sk-old"); ("XAI_API_KEY", JStr "xai-old")] k).
Proof.
  apply (update_api_keys_merges
           [("OPENAI_API_KEY", JStr "sk-old"); ("XAI_API_KEY", JStr "xai-old")]
           [("ai_provider", "openai"); ("OPENAI_API_KEY", "  sk-new "); ("XAI_API_KEY", "   ");
            ("NOTES", "hello")]).
  reflexivity.
Defined.




(** X14. The preselection of the settings page never raises: a provider of
    the catalog comes with the first model of its entry, the index being
    safe as no entry is without models; any other value of the parameter,
    or none, leaves the stored pair. *)
Theorem preselect_total (selected_provider : option string) (current : string * string) :
  exists shown,
    preselect selected_provider current = Ok shown
    /\ (forall selected info,
           selected_provider = Some selected ->
           PyDict.lookup AI_PROVIDERS selected = Some info ->
           fst shown = selected
           /\ exists others, PyDict.keys (models info) = snd shown :: others)
    /\ ((forall selected, selected_provider = Some selected ->
                          PyDict.lookup AI_PROVIDERS selected = None) ->
        shown = current).
Proof.
  unfold preselect. destruct selected_provider as [selected|].
  2:{ exists current. split; [reflexivity|]. split; [discriminate | reflexivity]. }
  unfold get_available_providers.
  destruct (PyDict.lookup AI_PROVIDERS selected) as [info|] eqn:Hl.
  - assert (Hm : exists m others, PyDict.keys (models info) = m :: others).
    { destruct (lookup_In _ _ _ Hl) as [k' Hin]. cbv [AI_PROVIDERS] in Hin.
      cbn [In] in Hin.
      repeat (destruct Hin as [[= <- <-] | Hin]; [eexists; eexists; reflexivity|]).
      destruct Hin. }
    destruct Hm as (m & others & Hm).
    assert (Ht : PyStr.truthy selected = true).
    { destruct selected; [discriminate Hl | reflexivity]. }
    rewrite Ht, Hm. cbn [first and_then].
    exists (selected, m). split; [reflexivity|]. split.
    + intros s info' [= <-] Hinfo. rewrite Hl in Hinfo. injection Hinfo as <-.
      split; [reflexivity|]. exists others. exact Hm.
    + intros H. specialize (H selected eq_refl). congruence.
  - exists current. split; [now destruct (PyStr.truthy selected)|]. split.
    + intros s info [= <-] Hinfo. congruence.
    + reflexivity.
Qed.

Lemma language_stats_loop (l : string) (analyses : list analysis_row) :
  forall stats : list (string * Z),
    PyDict.lookup
      (fold_left
         (fun stats analysis =>
            let lang := language_or_unknown analysis in
            Json.dict_set stats lang (PyDict.get stats lang 0 + 1))
         analyses stats) l
    = match PyDict.lookup stats l with
      | Some n => Some (n + count_language l analyses)
      | None => if count_language l analyses =? 0 then None
                else Some (count_language l analyses)
      end.
Proof.
  unfold count_language.
  induction analyses as [|a analyses IH]; intros stats; cbn [fold_left List.filter].
  - cbn. destruct (PyDict.lookup stats l) as [n|]; [f_equal; lia | reflexivity].
  - rewrite IH. destruct (String.eqb_spec (language_or_unknown a) l) as [E|Hne].
    + rewrite E, lookup_dict_set_same. unfold PyDict.get.
      cbn [List.length]. rewrite Nat2Z.inj_succ.
      set (n := Z.of_nat _). assert (0 <= n) by (subst n; lia). clearbody n.
      destruct (PyDict.lookup stats l) as [v|].
      * f_equal. lia.
      * destruct (Z.eqb_spec (Z.succ n) 0); [lia | f_equal; lia].
    + rewrite lookup_dict_set_other by exact Hne. reflexivity.
Qed.

(** X15. The language distribution of the dashboard holds, for each
    language, the number of analyses that count for it (an analysis without
    a language counting for "unknown"), and no entry for a language that
    none counts for. *)
Theorem language_stats_counts (analyses : list analysis_row) (l : string) :
  PyDict.lookup (language_stats analyses) l
  = if count_language l analyses =? 0 then None else Some (count_language l analyses).
Proof. unfold language_stats. now rewrite language_stats_loop. Qed.

(** X16. The session identifier is made once: a session without one gets a
    token of 32 fresh bytes, and from then on every call returns the
    identifier that is there, leaving the session and the entropy source
    alone. *)
Theorem session_id_is_stable (session : list (string * json)) (w : world) :
  exists sid session' w',
    get_or_create_session_id session w = (Ok (sid, session'), w')
    /\ PyDict.lookup session' "session_id" = Some sid
    /\ get_or_create_session_id session' w' = (Ok (sid, session'), w')
    /\ (forall old, PyDict.lookup session "session_id" = Some old ->
                    sid = old /\ session' = session /\ w' = w)
    /\ (PyDict.lookup session "session_id" = None -> drawn w' = (drawn w + 32)%nat).
Proof.
  unfold get_or_create_session_id at 1.
  destruct (PyDict.lookup session "session_id") as [old|] eqn:Hl.
  - exists old, session, w. split; [reflexivity|]. split; [exact Hl|]. split.
    + unfold get_or_create_session_id. now rewrite Hl.
    + split; [|discriminate]. intros o [= <-]. repeat split.
  - unfold Secrets.token_urlsafe, bind, os_urandom, ret. cbv beta iota.
    eexists _, _, _. split; [reflexivity|].
    split; [apply lookup_dict_set_same|]. split.
    + unfold get_or_create_session_id. rewrite lookup_dict_set_same. reflexivity.
    + split; [discriminate | reflexivity].
Qed.

End SettingsFacts.

(** ** The analysis step of [analyze_file] *)

Section AnalysisFacts.

Import routes.



(** X17. When the quality call fails, the analysis fails with the same
    error after that one call: the test and suggestion calls are not
    made. *)
Theorem analysis_stops_at_first_failure (p : provider) (code_content language : string)
    (w : world) (e : exn) :
  built p ->
  fst (analyze_code_quality p code_content language w) = Raise e ->
  fst (perform_analysis p code_content language w) = Raise e
  /\ exists q, sent (snd (perform_analysis p code_content language w)) = (sent w ++ [q])%list.
Proof.
  intros Hb. apply built_shaped in Hb. unfold perform_analysis, bind.
  change (analyze_code_quality p) with (run AnalyzeQuality p).
  destruct (run_one_call p AnalyzeQuality code_content language w Hb) as (q & -> & _).
  cbn [fst]. intros ->. split; [reflexivity|]. now exists q.
Qed.

Lemma analysis_stops_at_first_failure_witness :
  fst (perform_analysis openai_sample "x = 1" "python"
         (sample_world ∅ (refusing 401 "Unauthorized")))
  = Raise (ClientError (APIStatusError 401 "Unauthorized"))
  /\ exists q,
       sent (snd (perform_analysis openai_sample "x = 1" "python"
                    (sample_world ∅ (refusing 401 "Unauthorized"))))
       = ([] ++ [q])%list.
Proof.
  apply (analysis_stops_at_first_failure openai_sample "x = 1" "python"
           (sample_world ∅ (refusing 401 "Unauthorized"))).
  - exact openai_sample_built.
  - reflexivity.
Defined.





End AnalysisFacts.

(** ** The legacy module ([openai_service.py]) *)

Section LegacyFacts.

(** X20. Each function of the legacy module does what the same operation
    of the OpenAI provider does at the model gpt-4o, call for call and
    result for result, except that whatever the provider raises comes out
    as a plain [Exception] whose message is the function's prefix followed
    by the text of the error. *)
Theorem legacy_wraps_the_openai_provider (op : operation) (str_of : exn -> string)
    (api_key code_content language : string) (w : world) :
  legacy_run op str_of (OpenAIClient api_key None) code_content language w
  = match run op (openai_provider api_key "gpt-4o") code_content language w with
    | (Ok v, w') => (Ok v, w')
    | (Raise e, w') => (Raise (Exception (failure_prefix op ++ str_of e)), w')
    end.
Proof.
  destruct op; cbn [legacy_run run failure_prefix];
    unfold openai_service.analyze_code_quality, openai_service.generate_test_cases,
      openai_service.get_code_suggestions,
      analyze_code_quality, generate_test_cases, get_code_suggestions;
    cbn [cls openai_provider];
    unfold OpenAIProvider.analyze_code_quality, OpenAIProvider.generate_test_cases,
      OpenAIProvider.get_code_suggestions, try_except, raise;
    cbn [self_client self_model openai_provider];
    match goal with |- match ?m w with _ => _ end = match ?m' w with _ => _ end =>
      change m' with m; destruct (m w) as [[v|e] w'] end; reflexivity.
Qed.

(** X21. A call of the legacy module goes out with the value of
    [OPENAI_API_KEY], or with the placeholder text the module has for a
    missing variable, and names the model gpt-4o. *)
Theorem legacy_call_uses_environment_key (op : operation) (str_of : exn -> string)
    (code_content language : string) (w0 w : world) :
  exists q,
    sent (snd (legacy_run op str_of (openai_service.openai_client w0)
                 code_content language w))
    = (sent w ++ [q])%list
    /\ requested_model q = Some (JStr "gpt-4o")
    /\ credential q
       = Some (match environ w0 !! "OPENAI_API_KEY" with
               | Some key => key
               | None => "your-openai-api-key"
               end).
Proof.
  unfold openai_service.openai_client, openai_service.OPENAI_API_KEY.
  destruct op; cbn [legacy_run];
    unfold openai_service.analyze_code_quality, openai_service.generate_test_cases,
      openai_service.get_code_suggestions, try_except, bind, chat_create, lift, raise;
    match goal with
    | |- context [chat_completions_create ?r ?h ?c] =>
        destruct (chat_completions_create r h c) as [choices|ce]; cbn [of_sdk];
        [destruct (loads_first_choice choices)|]
    end;
    eexists; (split; [reflexivity|]); split; reflexivity.
Qed.

End LegacyFacts.

(** ** The sample file ([test_upload.py]) *)

Section SampleFacts.

Import test_upload.

Lemma process_data_results (items : list Z) :
  forall self : DataProcessor,
    results (fst (process_data self items))
    = (results self ++ map doubled_above_ten items)%list
    /\ snd (process_data self items) = results (fst (process_data self items))
    /\ data (fst (process_data self items)) = data self.
Proof.
  induction items as [|item items IH]; intros self; cbn [process_data map].
  - cbn [fst snd]. now rewrite app_nil_r.
  - destruct (IH {| data := data self;
                    results := (results self
                                ++ [if 10 <? item then item * 2 else item])%list |})
      as (Hr & Hs & Hd).
    rewrite Hr, Hs, Hd. cbn [results data]. rewrite Hr. cbn [results].
    unfold doubled_above_ten. now rewrite <- app_assoc.
Qed.


Lemma sum_loop_sum_of (rs : list Z) : forall total_ : Z, sum_loop total_ rs = total_ + sum_of rs.
Proof.
  induction rs as [|r rs IH]; intros t; cbn [sum_loop sum_of fold_right].
  - lia.
  - rewrite IH. unfold sum_of. lia.
Qed.

(** X23. The summary of a processor that was given [items] once: with no
    item it is a total and a count of 0 and the integer 0 for the average,
    so that nothing is divided by zero; otherwise the count is the number
    of items, the total is the sum of the items with each one above 10
    doubled, and the average is their quotient, unless the quotient is
    beyond the floats (from [2^1024 - 2^970] on in magnitude), where the
    division raises [OverflowError] and no summary is returned. *)
Theorem summary_of_processed (data_ : option (list Z)) (items : list Z) :
  get_summary (fst (process_data (__init__ data_) items))
  = match items with
    | [] => Returns {| total := 0; count := 0; average := AvgZero |}
    | _ :: _ =>
        let total_ := sum_of (map doubled_above_ten items) in
        let count_ := Z.of_nat (List.length items) in
        if count_ * (2 ^ 1024 - 2 ^ 970) <=? Z.abs total_ then OverflowError
        else Returns {| total := total_; count := count_; average := AvgDiv total_ count_ |}
    end.
Proof.
  destruct (process_data_results items (__init__ data_)) as (Hr & _ & _).
  cbn [results __init__ List.app] in Hr.
  unfold get_summary. rewrite Hr, sum_loop_sum_of, length_map, Z.add_0_l.
  destruct items as [|item items]; [reflexivity|].
  cbn [map]. reflexivity.
Qed.

End SampleFacts.

(** ** The upload filter and the language detector *)

Section UploadFilterFacts.

Import routes.

Lemma rfind_from_last_index (c : ascii) (s : string) :
  forall i, 0 <= i ->
    PyStr.rfind_from c i s
    = match last_index c s with Some n => i + Z.of_nat n | None => -1 end.
Proof.
  induction s as [|a s IH]; intros i Hi; cbn [PyStr.rfind_from last_index]; [reflexivity|].
  rewrite (IH (i + 1)) by lia.
  destruct (last_index c s) as [n|].
  - destruct (Z.leb_spec 0 (i + 1 + Z.of_nat n)); lia.
  - cbn [Z.leb Z.compare]. destruct (ascii_dec a c); [lia | reflexivity].
Qed.

Lemma rfind_last_index (c : ascii) (s : string) :
  PyStr.rfind c s = match last_index c s with Some n => Z.of_nat n | None => -1 end.
Proof.
  unfold PyStr.rfind. rewrite rfind_from_last_index by lia.
  now destruct (last_index c s).
Qed.

Lemma contains_last_index (c : ascii) (s : string) :
  PyStr.contains (String c "") s
  = match last_index c s with Some _ => true | None => false end.
Proof.
  induction s as [|a s IH]; cbn [PyStr.contains PyStr.startswith last_index]; [reflexivity|].
  rewrite IH. destruct (ascii_dec c a) as [<-|Hne].
  - replace (PyStr.startswith "" s) with true by now destruct s.
    destruct (last_index c s); [reflexivity|]. destruct (ascii_dec c c); congruence.
  - destruct (last_index c s); [reflexivity|]. destruct (ascii_dec a c); congruence.
Qed.

Lemma substring_all (s : string) : String.substring 0 (String.length s) s = s.
Proof. induction s as [|a s IH]; cbn; [reflexivity | now rewrite IH]. Qed.

Lemma drop_skip (n : nat) (s : string) : PyStr.drop (Z.of_nat n) s = skip_chars n s.
Proof.
  unfold PyStr.drop. rewrite Nat2Z.id. revert n.
  induction s as [|a s IH]; intros [|n]; cbn [String.length skip_chars]; try reflexivity.
  - rewrite Nat.sub_0_r. apply (substring_all (String a s)).
  - cbn [Nat.sub String.substring]. apply IH.
Qed.

Lemma last_index_skip (c : ascii) (s : string) :
  forall n, last_index c s = Some n -> skip_chars n s = String c (skip_chars (S n) s).
Proof.
  induction s as [|a s IH]; intros n; cbn [last_index]; [discriminate|].
  destruct (last_index c s) as [m|].
  - intros [= <-]. cbn [skip_chars]. now apply IH.
  - destruct (ascii_dec a c) as [->|]; [|discriminate]. intros [= <-]. reflexivity.
Qed.

Lemma lower_char_dot (a : ascii) : PyStr.lower_char a = "."%char <-> a = "."%char.
Proof.
  destruct a as [[] [] [] [] [] [] [] []]; vm_compute; split; intros H;
    first [reflexivity | discriminate H].
Qed.

Lemma lower_char_idem (a : ascii) : PyStr.lower_char (PyStr.lower_char a) = PyStr.lower_char a.
Proof. destruct a as [[] [] [] [] [] [] [] []]; reflexivity. Qed.

Lemma lower_idem (s : string) : PyStr.lower (PyStr.lower s) = PyStr.lower s.
Proof.
  induction s as [|a s IH]; cbn [PyStr.lower]; [reflexivity|].
  now rewrite lower_char_idem, IH.
Qed.

Lemma last_index_lower (s : string) : last_index "." (PyStr.lower s) = last_index "." s.
Proof.
  induction s as [|a s IH]; cbn [PyStr.lower last_index]; [reflexivity|].
  rewrite IH. destruct (last_index "." s); [reflexivity|].
  destruct (ascii_dec (PyStr.lower_char a) ".") as [H|H], (ascii_dec a ".") as [H'|H'];
    try reflexivity.
  - apply (proj1 (lower_char_dot a)) in H. contradiction.
  - apply (proj2 (lower_char_dot a)) in H'. contradiction.
Qed.

Lemma lower_skip (n : nat) (s : string) :
  PyStr.lower (skip_chars n s) = skip_chars n (PyStr.lower s).
Proof.
  revert s. induction n as [|n IH]; intros [|a s]; cbn [skip_chars PyStr.lower]; try reflexivity.
  apply IH.
Qed.

(** the text after the last dot, as [rsplit] and the slice give it *)
Lemma after_last_dot (s : string) (n : nat) :
  PyStr.drop (Z.of_nat n + 1) s = skip_chars (S n) s.
Proof. replace (Z.of_nat n + 1) with (Z.of_nat (S n)) by lia. apply drop_skip. Qed.

(** X24. On a name in ASCII the upload filter never raises, the index
    being guarded by the test for a dot: it decides by the text after the
    last dot of the whole name, put in lower case, and so gives one answer
    for a name and for the name in lower case. *)
Theorem allowed_file_by_last_extension (filename : string) :
  PyStr.isascii filename = true ->
  allowed_file filename
  = Ok match last_extension filename with
       | Some ext => in_set (PyStr.lower ext) ALLOWED_EXTENSIONS
       | None => false
       end
  /\ allowed_file (PyStr.lower filename) = allowed_file filename.
Proof.
  intros _.
  assert (H : forall f, allowed_file f
              = Ok match last_index "." f with
                   | Some n => in_set (PyStr.lower (skip_chars (S n) f)) ALLOWED_EXTENSIONS
                   | None => false
                   end).
  { intros f. unfold allowed_file, PyStr.rsplit1.
    rewrite contains_last_index, rfind_last_index.
    destruct (last_index "." f) as [n|]; [|reflexivity].
    replace (Z.of_nat n <? 0) with false by (symmetry; apply Z.ltb_ge; lia).
    cbn [second and_then]. now rewrite after_last_dot. }
  split.
  - rewrite H. unfold last_extension. rewrite rfind_last_index.
    destruct (last_index "." filename) as [n|]; [|reflexivity].
    replace (Z.of_nat n <? 0) with false by (symmetry; apply Z.ltb_ge; lia).
    now rewrite after_last_dot.
  - rewrite !H, last_index_lower.
    destruct (last_index "." filename) as [n|]; [|reflexivity].
    now rewrite <- lower_skip, lower_idem.
Qed.

Lemma allowed_file_by_last_extension_witness :
  allowed_file "archive.tar.GZ" = Ok false
  /\ allowed_file (PyStr.lower "Makefile.PY") = allowed_file "Makefile.PY".
Proof.
  split.
  - apply (proj1 (allowed_file_by_last_extension "archive.tar.GZ" eq_refl)).
  - apply (proj2 (allowed_file_by_last_extension "Makefile.PY" eq_refl)).
Defined.

Lemma skip_leading_dots_snd (n : nat) (p : string) (dotIndex : Z) :
  forall filenameIndex,
    snd (OsPath.skip_leading_dots n p filenameIndex dotIndex) = ""
    \/ snd (OsPath.skip_leading_dots n p filenameIndex dotIndex) = PyStr.drop dotIndex p.
Proof.
  induction n as [|n IH]; intros i; cbn [OsPath.skip_leading_dots]; [now left|].
  destruct (i <? dotIndex); [|now left].
  destruct (negb _); [now right | apply IH].
Qed.

(** the extension [splitext] finds is empty, or the text from the last dot on *)
Lemma splitext_snd (p : string) :
  snd (OsPath.splitext p) = ""
  \/ exists n, last_index "." p = Some n /\ snd (OsPath.splitext p) = skip_chars n p.
Proof.
  unfold OsPath.splitext. rewrite (rfind_last_index "." p).
  destruct (last_index "." p) as [n|].
  - destruct (PyStr.rfind "/" p <? Z.of_nat n); [|now left].
    destruct (skip_leading_dots_snd (S (String.length p)) p (Z.of_nat n) (PyStr.rfind "/" p + 1))
      as [H|H]; [now left|].
    right. exists n. split; [reflexivity|]. now rewrite H, drop_skip.
  - rewrite (rfind_last_index "/" p).
    destruct (last_index "/" p) as [m|];
      match goal with |- context [?a <? ?b] => destruct (Z.ltb_spec a b) end;
      first [lia | now left].
Qed.

Lemma eqb_same_head (c : ascii) (a b : string) :
  String.eqb (String c a) (String c b) = String.eqb a b.
Proof. cbn [String.eqb]. now rewrite Ascii.eqb_refl. Qed.

(** X25. A name whose extension the table of the detector knows passes the
    upload filter: every language the detector can read off a name is one
    that can be uploaded. *)
Theorem table_extensions_pass_the_filter (filename language : string) :
  PyDict.lookup extension_map (snd (OsPath.splitext (PyStr.lower filename))) = Some language ->
  allowed_file filename = Ok true.
Proof.
  intros Hl.
  destruct (splitext_snd (PyStr.lower filename)) as [H | (n & Hn & H)]; rewrite H in Hl.
  - discriminate Hl.
  - rewrite (last_index_skip "." _ n Hn) in Hl. rewrite last_index_lower in Hn.
    unfold allowed_file, PyStr.rsplit1.
    rewrite contains_last_index, rfind_last_index, Hn.
    replace (Z.of_nat n <? 0) with false by (symmetry; apply Z.ltb_ge; lia).
    cbn [second and_then]. rewrite after_last_dot, lower_skip.
    set (ext := skip_chars (S n) (PyStr.lower filename)) in *. clearbody ext.
    f_equal. unfold extension_map in Hl. cbn [PyDict.lookup] in Hl.
    rewrite !eqb_same_head in Hl. revert Hl.
    repeat match goal with
           | |- context [String.eqb ?k ext] =>
               destruct (String.eqb_spec k ext) as [<-|_]; [intros _; reflexivity|]
           end.
    discriminate.
Qed.

Lemma table_extensions_pass_the_filter_witness :
  allowed_file "src/Main.JAVA" = Ok true.
Proof.
  apply (table_extensions_pass_the_filter "src/Main.JAVA" "java"). reflexivity.
Defined.

(** X26. The detector reads the name without regard to case, in both of
    its copies: a name and the name in lower case give the same language
    for the same content. *)
Theorem detect_language_ignores_case (filename code_content : string) :
  detect_language (PyStr.lower filename) code_content = detect_language filename code_content
  /\ openai_service.detect_language (PyStr.lower filename) code_content
     = openai_service.detect_language filename code_content.
Proof.
  unfold detect_language, openai_service.detect_language. now rewrite lower_idem.
Qed.

End UploadFilterFacts.

(** ** The factory without a client library *)

Section FactoryEdgeFacts.

(** X27. Where the client library an entry of the catalog requires was not
    importable, the factory cannot build that backend: it raises what the
    missing name raises ([TypeError] for the OpenAI class, [AttributeError]
    for the [anthropic] and [genai] modules) and leaves the world as it
    was. *)
Theorem factory_without_library (provider_name api_key model : string) (d : descriptor)
    (w : world) :
  PyDict.lookup AI_PROVIDERS provider_name = Some d ->
  forallb (requirement_met w) (requires d) = false ->
  exists e,
    create_ai_provider provider_name api_key model w = (Raise e, w)
    /\ (e = TypeError "'NoneType' object is not callable"
        \/ exists attribute, e = AttributeError attribute).
Proof.
  intros Hd Hreq. unfold create_ai_provider.
  repeat match goal with
         | |- context [String.eqb provider_name ?s] =>
             destruct (String.eqb_spec provider_name s) as [->|?];
             [ cbn [String.eqb Ascii.eqb Bool.eqb];
               vm_compute in Hd; injection Hd as <-;
               cbn [requires forallb requirement_met String.eqb Ascii.eqb Bool.eqb andb] in Hreq;
               try discriminate Hreq;
               rewrite Bool.andb_true_r in Hreq;
               unfold instantiate; replace (concrete _) with true by reflexivity;
               unfold bind, _initialize_client,
                 OpenAIProvider._initialize_client, XAIProvider._initialize_client,
                 AnthropicProvider._initialize_client, GeminiProvider._initialize_client,
                 new_openai_client, new_anthropic_client, new_genai_client;
               rewrite Hreq; eexists; (split; [reflexivity|]);
               first [left; reflexivity | right; eexists; reflexivity] |]
         end.
  rewrite lookup_unknown in Hd by assumption. discriminate Hd.
Qed.

Lemma factory_without_library_witness :
  exists e,
    create_ai_provider "xai" "xai-test" "grok-2-1212"
      {| environ := ∅; entropy := fun n => ascii_of_nat n; drawn := 0;
         imported := fun _ => false; far_end := replying "{}"; sent := [] |}
    = (Raise e,
       {| environ := ∅; entropy := fun n => ascii_of_nat n; drawn := 0;
          imported := fun _ => false; far_end := replying "{}"; sent := [] |})
    /\ (e = TypeError "'NoneType' object is not callable"
        \/ exists attribute, e = AttributeError attribute).
Proof.
  eapply (factory_without_library "xai" "xai-test" "grok-2-1212").
  - reflexivity.
  - reflexivity.
Defined.

End FactoryEdgeFacts.
